(** * Kanmi Levers Guard: a shallow embedding of [src/extension.ts]

    The extension scans the text of a document with regular expressions and
    pushes diagnostics.  This file embeds the text primitives the source
    relies on (UTF-16 strings, the regular-expression matcher, the host's
    document object), then [calculateMaxDOMDepth], [within], [readPolicy]
    and [scanDocument], and proves properties of them. *)

From Stdlib Require Import String Ascii DecimalString.
From Stdlib Require Import List Bool Arith NArith ZArith Lia.
Import ListNotations.

Set Implicit Arguments.
Set Warnings "-register-all".
Local Open Scope string_scope.
Local Open Scope list_scope.
Local Open Scope N_scope.

(** ** Strings

    A JavaScript string is a sequence of UTF-16 code units. *)

Module Js.

Abbreviation jsstring := (list N).

(** An ASCII literal of the source, as code units. *)
Definition u (s : string) : jsstring :=
  map N_of_ascii (list_ascii_of_string s).

(** A literal of the source with characters outside ASCII (all in the
    Basic Multilingual Plane), decoded from its UTF-8 bytes. *)
Fixpoint utf16 (bytes : list N) : jsstring :=
  match bytes with
  | [] => []
  | a :: t =>
      if a <? 128 then a :: utf16 t
      else if a <? 224 then
        match t with
        | b :: t' => ((a - 192) * 64 + (b - 128)) :: utf16 t'
        | [] => [a]
        end
      else
        match t with
        | b :: c :: t' =>
            ((a - 224) * 4096 + (b - 128) * 64 + (c - 128)) :: utf16 t'
        | _ => [a]
        end
  end.
Definition msg (s : string) : jsstring := utf16 (u s).

Definition str_eqb (a b : jsstring) : bool :=
  if list_eq_dec N.eq_dec a b then true else false.

Fixpoint startsWith (s p : jsstring) : bool :=
  match p, s with
  | [], _ => true
  | _ :: _, [] => false
  | c :: p', x :: s' => (x =? c) && startsWith s' p'
  end.

Definition endsWith (s p : jsstring) : bool :=
  startsWith (rev s) (rev p).

Fixpoint includes (s p : jsstring) : bool :=
  startsWith s p ||
  match s with
  | [] => false
  | _ :: s' => includes s' p
  end.

(** WhiteSpace and LineTerminator code points: the set both [\s] and
    [String.prototype.trim] use. *)
Definition isSpace (c : N) : bool :=
  ((9 <=? c) && (c <=? 13)) || (c =? 32) || (c =? 160) || (c =? 5760)
  || ((8192 <=? c) && (c <=? 8202)) || (c =? 8232) || (c =? 8233)
  || (c =? 8239) || (c =? 8287) || (c =? 12288) || (c =? 65279).

Fixpoint trimStart (s : jsstring) : jsstring :=
  match s with
  | c :: s' => if isSpace c then trimStart s' else s
  | [] => []
  end.

Definition trim (s : jsstring) : jsstring :=
  rev (trimStart (rev (trimStart s))).

Definition isUpperAscii (c : N) : bool := (65 <=? c) && (c <=? 90).
Definition isLowerAscii (c : N) : bool := (97 <=? c) && (c <=? 122).
Definition isDigit (c : N) : bool := (48 <=? c) && (c <=? 57).

Definition lowerAscii (c : N) : N := if isUpperAscii c then c + 32 else c.
Definition upperAscii (c : N) : N := if isLowerAscii c then c - 32 else c.

(** [toLowerCase].  Besides A-Z, two code units outside ASCII lower-case
    to ASCII letters: U+212A (Kelvin sign, to k) and U+0130 (to i followed
    by U+0307).  Every other code unit outside ASCII lower-cases to code
    units outside ASCII, which no pattern of this program mentions; they
    are left as they are. *)
Definition toLowerCase (s : jsstring) : jsstring :=
  flat_map (fun c =>
    if c =? 8490 then [107]
    else if c =? 304 then [105; 775]
    else [lowerAscii c]) s.

(** [s.split(sep)] for a one-character separator: never empty. *)
Fixpoint split (sep : N) (s : jsstring) : list jsstring :=
  match s with
  | [] => [[]]
  | c :: s' =>
      if c =? sep then [] :: split sep s'
      else match split sep s' with
           | seg :: segs => (c :: seg) :: segs
           | [] => [[c]]
           end
  end.

Fixpoint join (sep : jsstring) (l : list jsstring) : jsstring :=
  match l with
  | [] => []
  | [a] => a
  | a :: l' => a ++ sep ++ join sep l'
  end.

(** Decimal rendering of a number in a template literal. *)
Definition decN (n : N) : jsstring := u (NilZero.string_of_uint (N.to_uint n)).
Definition decNat (n : nat) : jsstring := decN (N.of_nat n).
Definition decZ (z : Z) : jsstring :=
  match z with
  | Zneg p => u "-" ++ decN (Npos p)
  | _ => decN (Z.to_N z)
  end.

(** [Buffer.byteLength(text, 'utf8')]: a surrogate pair encodes to four
    bytes, a lone surrogate to the three bytes of U+FFFD. *)
Definition isHighSurrogate (c : N) : bool := (55296 <=? c) && (c <=? 56319).
Definition isLowSurrogate (c : N) : bool := (56320 <=? c) && (c <=? 57343).

Fixpoint byteLength (s : jsstring) : N :=
  match s with
  | [] => 0
  | c :: s' =>
      if c <? 128 then 1 + byteLength s'
      else if c <? 2048 then 2 + byteLength s'
      else if isHighSurrogate c then
        match s' with
        | d :: s'' => if isLowSurrogate d then 4 + byteLength s''
                      else 3 + byteLength s'
        | [] => 3
        end
      else 3 + byteLength s'
  end.

End Js.
Import Js.

(** ** Regular expressions

    A backtracking matcher with the priorities of the ECMAScript
    specification: alternatives left to right, greedy quantifiers longest
    first, lazy ones shortest first, an iteration of a quantifier that
    consumes nothing is rejected.  All patterns of the program are ASCII and
    none has the [u] flag, so matching is per code unit. *)

Module Regex.

Inductive citem : Type :=
| CChar (c : N)              (* a single character *)
| CRange (lo hi : N)         (* lo-hi *)
| CSpace                     (* \s *)
| CNotSpace.                 (* \S *)

Inductive regex : Type :=
| Eps
| Chr (c : N)
| Cls (negated : bool) (items : list citem)
| Dot                        (* . *)
| WordB                      (* \b *)
| EndA                       (* $ without the m flag *)
| Seq (r1 r2 : regex)
| Alt (r1 r2 : regex)
| Star (greedy : bool) (r : regex)
| Grp (i : nat) (r : regex).

Definition Plus (greedy : bool) (r : regex) : regex := Seq r (Star greedy r).
Definition Opt (r : regex) : regex := Alt r Eps.

Fixpoint Lit_codes (s : jsstring) : regex :=
  match s with
  | [] => Eps
  | [c] => Chr c
  | c :: s' => Seq (Chr c) (Lit_codes s')
  end.
Definition Lit (s : string) : regex := Lit_codes (u s).

Fixpoint Seqs (l : list regex) : regex :=
  match l with
  | [] => Eps
  | [r] => r
  | r :: l' => Seq r (Seqs l')
  end.

Fixpoint Alts (l : list regex) : regex :=
  match l with
  | [] => Cls false []
  | [r] => r
  | r :: l' => Alt r (Alts l')
  end.

Definition itemHas (c : N) (it : citem) : bool :=
  match it with
  | CChar x => c =? x
  | CRange lo hi => (lo <=? c) && (c <=? hi)
  | CSpace => isSpace c
  | CNotSpace => negb (isSpace c)
  end.

(** Canonicalize without the [u] flag is [toUpperCase], except that a code
    unit outside ASCII never canonicalizes into ASCII: against ASCII
    patterns only the ASCII letters fold. *)
Definition canon (ci : bool) (c : N) : N := if ci then upperAscii c else c.

Definition chrMatches (ci : bool) (pat c : N) : bool :=
  canon ci pat =? canon ci c.

Definition clsHas (ci : bool) (items : list citem) (c : N) : bool :=
  existsb (itemHas c) items
  || (ci && (existsb (itemHas (upperAscii c)) items
             || existsb (itemHas (lowerAscii c)) items)).

Definition clsMatches (ci negated : bool) (items : list citem) (c : N) : bool :=
  xorb negated (clsHas ci items c).

Definition isLineTerminator (c : N) : bool :=
  (c =? 10) || (c =? 13) || (c =? 8232) || (c =? 8233).

Definition isWordChar (c : N) : bool :=
  isUpperAscii c || isLowerAscii c || isDigit c || (c =? 95).

Definition isWordOpt (o : option N) : bool :=
  match o with Some c => isWordChar c | None => false end.

(** Matcher state: the offset reached, the character before it (for [\b]),
    the input still to read and the two capture groups the program reads. *)
Record mstate : Type := MState {
  pos : nat;
  prev : option N;
  rest : jsstring;
  cap1 : option jsstring;
  cap2 : option jsstring
}.

Definition advance (st : mstate) (c : N) (s' : jsstring) : mstate :=
  MState (S (pos st)) (Some c) s' (cap1 st) (cap2 st).

Definition setCap (i : nat) (v : jsstring) (st : mstate) : mstate :=
  match i with
  | 1%nat => MState (pos st) (prev st) (rest st) (Some v) (cap2 st)
  | 2%nat => MState (pos st) (prev st) (rest st) (cap1 st) (Some v)
  | _ => st
  end.

Definition oneChar (ok : N -> bool) (st : mstate)
    (k : mstate -> option mstate) : option mstate :=
  match rest st with
  | c :: s' => if ok c then k (advance st c s') else None
  | [] => None
  end.

(** The iterations of a quantifier [r*] or [r*?]: [body] matches [r] once.
    At most one iteration per remaining character, since an iteration that
    consumes nothing is rejected. *)
Fixpoint starLoop (body : mstate -> (mstate -> option mstate) -> option mstate)
    (greedy : bool) (k : mstate -> option mstate) (n : nat) (st : mstate)
    {struct n} : option mstate :=
  match n with
  | O => k st
  | S n' =>
      let again :=
        fun st' => if (pos st <? pos st')%nat
                   then starLoop body greedy k n' st' else None in
      if greedy then
        match body st again with
        | Some m => Some m
        | None => k st
        end
      else
        match k st with
        | Some m => Some m
        | None => body st again
        end
  end.

Fixpoint rmatch (ci : bool) (r : regex) (st : mstate)
    (k : mstate -> option mstate) {struct r} : option mstate :=
  match r with
  | Eps => k st
  | Chr c => oneChar (chrMatches ci c) st k
  | Cls negated items => oneChar (clsMatches ci negated items) st k
  | Dot => oneChar (fun c => negb (isLineTerminator c)) st k
  | WordB =>
      if xorb (isWordOpt (prev st)) (isWordOpt (hd_error (rest st)))
      then k st else None
  | EndA => match rest st with [] => k st | _ :: _ => None end
  | Seq r1 r2 => rmatch ci r1 st (fun st' => rmatch ci r2 st' k)
  | Alt r1 r2 =>
      match rmatch ci r1 st k with
      | Some m => Some m
      | None => rmatch ci r2 st k
      end
  | Star greedy r' =>
      starLoop (rmatch ci r') greedy k (length (rest st)) st
  | Grp i r' =>
      rmatch ci r' st
        (fun st' => k (setCap i (firstn (pos st' - pos st) (rest st)) st'))
  end.

(** The result of [RegExp.prototype.exec]: [index], the matched text
    [m[0]] and the groups [m[1]], [m[2]] ([None] for undefined). *)
Record rmatchres : Type := Match {
  index : nat;
  matched : jsstring;
  g1 : option jsstring;
  g2 : option jsstring
}.

Definition matchAt (ci : bool) (r : regex) (p : nat) (pv : option N)
    (s : jsstring) : option rmatchres :=
  match rmatch ci r (MState p pv s None None) Some with
  | Some st' => Some (Match p (firstn (pos st' - p) s) (cap1 st') (cap2 st'))
  | None => None
  end.

(** First match at or after the current offset. *)
Fixpoint execFrom (ci : bool) (r : regex) (p : nat) (pv : option N)
    (s : jsstring) : option rmatchres :=
  match matchAt ci r p pv s with
  | Some m => Some m
  | None =>
      match s with
      | [] => None
      | c :: s' => execFrom ci r (S p) (Some c) s'
      end
  end.

Definition exec (ci : bool) (r : regex) (s : jsstring) : option rmatchres :=
  execFrom ci r 0 None s.

Definition test (ci : bool) (r : regex) (s : jsstring) : bool :=
  match exec ci r s with Some _ => true | None => false end.

(** All matches of a [g] pattern, left to right, each search resuming at
    the end of the previous match ([lastIndex]).  [skip] counts the
    characters of the previous match still to pass.  This is both the
    [while ((m = re.exec(text)) !== null)] loop and [text.match(re)]; the
    two differ only after an empty match, where [match] steps one character
    forward, as here, and the loop would not end; no pattern of the program
    matches the empty string. *)
Fixpoint matchAllFrom (ci : bool) (r : regex) (skip : nat) (p : nat)
    (pv : option N) (s : jsstring) : list rmatchres :=
  match skip with
  | S skip' =>
      match s with
      | [] => []
      | c :: s' => matchAllFrom ci r skip' (S p) (Some c) s'
      end
  | O =>
      match matchAt ci r p pv s with
      | Some m =>
          m :: match s with
               | [] => []
               | c :: s' =>
                   matchAllFrom ci r (Nat.pred (length (matched m))) (S p)
                     (Some c) s'
               end
      | None =>
          match s with
          | [] => []
          | c :: s' => matchAllFrom ci r 0 (S p) (Some c) s'
          end
      end
  end.

Definition matchAll (ci : bool) (r : regex) (s : jsstring) : list rmatchres :=
  matchAllFrom ci r 0 0 None s.

(** [m[i]] where the program reads it as a string. *)
Definition group1 (m : rmatchres) : jsstring :=
  match g1 m with Some s => s | None => [] end.

End Regex.
Import Regex.


(** ** The host: documents, ranges, diagnostics

    [vscode.TextDocument], [vscode.Position], [vscode.Range] and
    [vscode.Diagnostic] as the program uses them. *)

Module Host.

Record Position : Type := mkPosition { line : nat; character : nat }.

Definition isBefore (a b : Position) : bool :=
  (line a <? line b)%nat
  || ((line a =? line b)%nat && (character a <? character b)%nat).

Record Range : Type := RangeOf { rstart : Position; rend : Position }.

(** [new vscode.Range(start, end)] orders its two positions. *)
Definition mkRange (a b : Position) : Range :=
  if isBefore b a then RangeOf b a else RangeOf a b.

(** The document handed to [scanDocument]: the members the program reads. *)
Record TextDocument : Type := mkTextDocument {
  fileName : jsstring;
  getText : jsstring;
  positionAt : nat -> Position
}.

Inductive DiagnosticSeverity : Type := Error | Warning | Information | Hint.

Record Diagnostic : Type := mkDiagnostic {
  range : Range;
  message : jsstring;
  severity : DiagnosticSeverity;
  code : string;
  source : string
}.

(** The lengths of the lines of a text; a line ends at CR LF, LF or CR. *)
Fixpoint lineLengthsFrom (s : jsstring) (cur : nat) : list nat :=
  match s with
  | [] => [cur]
  | c :: s' =>
      if c =? 10 then cur :: lineLengthsFrom s' 0
      else if c =? 13 then
        match s' with
        | d :: s'' =>
            if d =? 10 then cur :: lineLengthsFrom s'' 0
            else cur :: lineLengthsFrom s' 0
        | [] => cur :: lineLengthsFrom s' 0
        end
      else lineLengthsFrom s' (S cur)
  end.

Definition lineLengths (text : jsstring) : list nat := lineLengthsFrom text 0.

(** A position addresses a location of the text: its line exists and its
    character is at most the length of that line. *)
Definition validPosition (text : jsstring) (p : Position) : Prop :=
  exists len, nth_error (lineLengths text) (line p) = Some len
              /\ (character p <= len)%nat.

Definition validPositionb (text : jsstring) (p : Position) : bool :=
  match nth_error (lineLengths text) (line p) with
  | Some len => (character p <=? len)%nat
  | None => false
  end.

Definition validRange (text : jsstring) (r : Range) : Prop :=
  validPosition text (rstart r) /\ validPosition text (rend r).

(** The contract of [positionAt]: the position it returns is adjusted to
    the document, whatever the offset. *)
Definition wellFormed (doc : TextDocument) : Prop :=
  forall off, validPosition (getText doc) (positionAt doc off).

(** A document over a given text.  An offset past the end is clamped, an
    offset inside a CR LF stays at the end of its line. *)
Fixpoint positionFrom (s : jsstring) (off ln col : nat) : Position :=
  match off, s with
  | O, _ => mkPosition ln col
  | S _, [] => mkPosition ln col
  | S off', c :: s' =>
      if c =? 10 then positionFrom s' off' (S ln) 0
      else if c =? 13 then
        match s' with
        | d :: s'' =>
            if d =? 10 then
              match off' with
              | O => mkPosition ln col
              | S off'' => positionFrom s'' off'' (S ln) 0
              end
            else positionFrom s' off' (S ln) 0
        | [] => positionFrom s' off' (S ln) 0
        end
      else positionFrom s' off' ln (S col)
  end.

Definition mkDocument (name text : jsstring) : TextDocument :=
  mkTextDocument name text (fun off => positionFrom text off 0 0).

End Host.
Import Host.

(** ** The patterns of [extension.ts]

    Each definition is the regular expression literal of the source line
    named in its comment.  In the comments [Q] stands for the class of the
    two quote characters and [NQ] for its complement. *)

Module Patterns.

Definition ws1 : regex := Plus true (Cls false [CSpace]).     (* \s+ *)
Definition ws0 : regex := Star true (Cls false [CSpace]).     (* \s* *)
Definition Q : regex := Cls false [CChar 34; CChar 39].
Definition NQ : regex := Cls true [CChar 34; CChar 39].
Definition notGt : regex := Cls true [CChar 62].               (* [^>] *)
Definition anyLazy : regex := Star false (Cls false [CSpace; CNotSpace]).
                                                               (* [\s\S]*? *)
Definition letter : regex := Cls false [CRange 97 122; CRange 65 90].
Definition alnum : regex :=
  Cls false [CRange 97 122; CRange 65 90; CRange 48 57].

(* line 115: \.(jsx?|tsx?|html)$ *)
Definition supportedFile : regex :=
  Seqs [Chr 46;
        Grp 1 (Alts [Seq (Lit "js") (Opt (Chr 120));
                     Seq (Lit "ts") (Opt (Chr 120));
                     Lit "html"]);
        EndA].

(* line 133: \.(jsx|tsx)$ *)
Definition jsxFile : regex :=
  Seqs [Chr 46; Grp 1 (Alts [Lit "jsx"; Lit "tsx"]); EndA].

(* line 137: <title>([\s\S]*?)<\/title>   flags i *)
Definition title : regex :=
  Seqs [Lit "<title>"; Grp 1 anyLazy; Lit "</title>"].

(* lines 158, 261: <head>   flags i *)
Definition headOpen : regex := Lit "<head>".

(* line 172: <meta\s+name=Q description Q\s+content=Q(NQ+)Q[^>]*>   flags i *)
Definition metaDescription : regex :=
  Seqs [Lit "<meta"; ws1; Lit "name="; Q; Lit "description"; Q; ws1;
        Lit "content="; Q; Grp 1 (Plus true NQ); Q; Star true notGt; Chr 62].

(* line 207: <link\s+rel=Q canonical Q\s+href=Q NQ+ Q[^>]*>   flags i *)
Definition canonical : regex :=
  Seqs [Lit "<link"; ws1; Lit "rel="; Q; Lit "canonical"; Q; ws1;
        Lit "href="; Q; Plus true NQ; Q; Star true notGt; Chr 62].

(* line 224: <script\s+type=Q application\/ld\+json Q> *)
Definition jsonLd : regex :=
  Seqs [Lit "<script"; ws1; Lit "type="; Q; Lit "application/ld+json"; Q;
        Chr 62].

(* [\s_-]? *)
Definition sep : regex := Opt (Cls false [CSpace; CChar 95; CChar 45]).

(* line 227: (product|pdp|sku|price|add[\s_-]?to[\s_-]?cart)   flags i *)
Definition productText : regex :=
  Grp 1 (Alts [Lit "product"; Lit "pdp"; Lit "sku"; Lit "price";
               Seqs [Lit "add"; sep; Lit "to"; sep; Lit "cart"]]).

(* line 228: (product|pdp|sku) *)
Definition productFile : regex :=
  Grp 1 (Alts [Lit "product"; Lit "pdp"; Lit "sku"]).

(* line 230: (blog|article|news|post)   flags i, and (blog|article) *)
Definition articleText : regex :=
  Grp 1 (Alts [Lit "blog"; Lit "article"; Lit "news"; Lit "post"]).
Definition articleFile : regex := Grp 1 (Alts [Lit "blog"; Lit "article"]).

(* lines 255-258: <meta\s+property=Q og:NAME Q\s+content=Q NQ+ Q[^>]*>
   flags i *)
Definition og (name : string) : regex :=
  Seqs [Lit "<meta"; ws1; Lit "property="; Q; Lit name; Q; ws1;
        Lit "content="; Q; Plus true NQ; Q; Star true notGt; Chr 62].

(* line 316: <[a-zA-Z][^/>]*>   flags g *)
Definition openingTag : regex :=
  Seqs [Chr 60; Cls false [CRange 97 122; CRange 65 90];
        Star true (Cls true [CChar 47; CChar 62]); Chr 62].

(* line 74: <\/?( [a-zA-Z][a-zA-Z0-9]* )[^>]*>   flags g; the spaces
   around the group are not part of the pattern *)
Definition tagRegex : regex :=
  Seqs [Chr 60; Opt (Chr 47); Grp 1 (Seq letter (Star true alnum));
        Star true notGt; Chr 62].

(* line 364: <head[^>]*>([\s\S]*?)<\/head>   flags i *)
Definition headSection : regex :=
  Seqs [Lit "<head"; Star true notGt; Chr 62; Grp 1 anyLazy; Lit "</head>"].

(* line 370: <meta\s+charset=   flags i *)
Definition charset : regex := Seqs [Lit "<meta"; ws1; Lit "charset="].

(* line 371: <title>   flags i *)
Definition titleOpen : regex := Lit "<title>".

(* lines 372, 647: <link\s+[^>]*rel=Q stylesheet Q   flags i *)
Definition stylesheet : regex :=
  Seqs [Lit "<link"; ws1; Star true notGt; Lit "rel="; Q; Lit "stylesheet"; Q].

(* line 373: <script[^>]*>   flags i *)
Definition scriptOpen : regex := Seqs [Lit "<script"; Star true notGt; Chr 62].

(* line 416: <img\s+([^>]*?)>   flags gi *)
Definition imgTag : regex :=
  Seqs [Lit "<img"; ws1; Grp 1 (Star false notGt); Chr 62].

(* line 420: \balt\s*=\s*Q NQ* Q *)
Definition altAttr : regex :=
  Seqs [WordB; Lit "alt"; ws0; Chr 61; ws0; Q; Star true NQ; Q].

(* lines 421, 422: \bwidth\s*=  and  \bheight\s*= *)
Definition widthAttr : regex := Seqs [WordB; Lit "width"; ws0; Chr 61].
Definition heightAttr : regex := Seqs [WordB; Lit "height"; ws0; Chr 61].

(* line 423: \bloading\s*=\s*Q(lazy|eager)Q   flags i *)
Definition loadingAttr : regex :=
  Seqs [WordB; Lit "loading"; ws0; Chr 61; ws0; Q;
        Grp 1 (Alts [Lit "lazy"; Lit "eager"]); Q].

(* line 462: <Image\s+([^>]*?)\/?>   flags gi *)
Definition nextImage : regex :=
  Seqs [Lit "<Image"; ws1; Grp 1 (Star false notGt); Opt (Chr 47); Chr 62].

(* line 465: \bsizes\s*= *)
Definition sizesAttr : regex := Seqs [WordB; Lit "sizes"; ws0; Chr 61].

(* lines 466, 469: \bpriority\b *)
Definition priorityWord : regex := Seqs [WordB; Lit "priority"; WordB].

(* line 466: \bpriority\s*=\s*{?true}? *)
Definition priorityTrue : regex :=
  Seqs [WordB; Lit "priority"; ws0; Chr 61; ws0; Opt (Chr 123); Lit "true";
        Opt (Chr 125)].

(* line 467: \bsrc\s*=\s*{?Q(NQ+)Q}? *)
Definition srcAttr : regex :=
  Seqs [WordB; Lit "src"; ws0; Chr 61; ws0; Opt (Chr 123); Q;
        Grp 1 (Plus true NQ); Q; Opt (Chr 125)].

(* line 469: (hero|banner|masthead)   flags i *)
Definition lcpName : regex :=
  Grp 1 (Alts [Lit "hero"; Lit "banner"; Lit "masthead"]).

(* line 498: @font-face\s*{[\s\S]*?}   flags gi *)
Definition fontFace : regex :=
  Seqs [Lit "@font-face"; ws0; Chr 123; anyLazy; Chr 125].

(* line 505: font-display\s*:\s*swap *)
Definition fontDisplaySwap : regex :=
  Seqs [Lit "font-display"; ws0; Chr 58; ws0; Lit "swap"].

(* line 517: <link\s+[^>]*rel=Q preload Q[^>]*as=Q font Q[^>]*>   flags gi *)
Definition preloadFont : regex :=
  Seqs [Lit "<link"; ws1; Star true notGt; Lit "rel="; Q; Lit "preload"; Q;
        Star true notGt; Lit "as="; Q; Lit "font"; Q; Star true notGt; Chr 62].

(* line 545: import\s+.*?\s+from\s+Q(NQ+)Q|require\s*\(\s*Q(NQ+)Q\s*\)
   flags g *)
Definition importRegex : regex :=
  Alt (Seqs [Lit "import"; ws1; Star false Dot; ws1; Lit "from"; ws1; Q;
             Grp 1 (Plus true NQ); Q])
      (Seqs [Lit "require"; ws0; Chr 40; ws0; Q; Grp 2 (Plus true NQ); Q;
             ws0; Chr 41]).

(* line 598: <script[^>]+src=Q(NQ+)Q[^>]*>   flags gi *)
Definition scriptSrc : regex :=
  Seqs [Lit "<script"; Plus true notGt; Lit "src="; Q; Grp 1 (Plus true NQ);
        Q; Star true notGt; Chr 62].

(* lines 608: \basync\b and \bdefer\b *)
Definition asyncWord : regex := Seqs [WordB; Lit "async"; WordB].
Definition deferWord : regex := Seqs [WordB; Lit "defer"; WordB].

(* line 646: <link\s+[^>]*rel=Q preconnect Q   flags i *)
Definition preconnect : regex :=
  Seqs [Lit "<link"; ws1; Star true notGt; Lit "rel="; Q; Lit "preconnect"; Q].

(* line 648: <link\s+[^>]*rel=Q stylesheet Q[^>]*href=Q(NQ+)Q   flags gi *)
Definition stylesheetHref : regex :=
  Seqs [Lit "<link"; ws1; Star true notGt; Lit "rel="; Q; Lit "stylesheet"; Q;
        Star true notGt; Lit "href="; Q; Grp 1 (Plus true NQ); Q].

End Patterns.

(** ** The program *)

(** The [Policy] interface (lines 10-24).  A number is a [Z]: the
    thresholds are character and script counts. *)
Record SeoPolicy : Type := mkSeoPolicy {
  titleMin : option Z;
  titleMax : option Z;
  metaDescriptionMin : option Z;
  metaDescriptionMax : option Z;
  requireCanonical : option bool;
  requireJsonLdFor : option (list jsstring)
}.

Record PerfPolicy : Type := mkPerfPolicy {
  maxThirdPartyScriptsPerPage : option Z;
  lcpImageKB : option Z;
  requireFontDisplaySwap : option bool
}.

Record Policy : Type := mkPolicy {
  seo : option SeoPolicy;
  perf : option PerfPolicy
}.

(** [x?.f]: the field of an optional section. *)
Definition optChain {A B : Type} (x : option A) (f : A -> option B)
    : option B :=
  match x with Some a => f a | None => None end.

(** [x ?? d] *)
Definition nullish {A : Type} (x : option A) (d : A) : A :=
  match x with Some a => a | None => d end.

(** The settings read through [vscode.workspace.getConfiguration()]. *)
Record Configuration : Type := mkConfiguration {
  kanmi_requireCanonical : option bool;
  kanmi_maxThirdPartyScriptsPerPage : option Z
}.

(** [buildDiagnostic] (lines 46-56). *)
Definition buildDiagnostic (range : Range) (message : jsstring)
    (code : string) (severity : DiagnosticSeverity) : Diagnostic :=
  mkDiagnostic range message severity code "Kanmi".

(** [within] (lines 61-63). *)
Definition within (n min max : Z) : bool :=
  ((n >=? min) && (n <=? max))%Z.

(** *** [calculateMaxDOMDepth] (lines 69-98) *)

Definition selfClosingTags : list jsstring :=
  map u ["area"; "base"; "br"; "col"; "embed"; "hr"; "img"; "input"; "link";
         "meta"; "param"; "source"; "track"; "wbr"].

Definition has (set : list jsstring) (x : jsstring) : bool :=
  existsb (str_eqb x) set.

(** The two variables of the loop. *)
Record depthState : Type := mkDepth { maxDepth : Z; currentDepth : Z }.

Definition depthInit : depthState := mkDepth 0 0.

(** One turn of the [while] loop, for the match it was given. *)
Definition depthStep (st : depthState) (m : rmatchres) : depthState :=
  let fullTag := matched m in
  let tagName := toLowerCase (group1 m) in
  if has selfClosingTags tagName || endsWith fullTag (u "/>") then st
  else if startsWith fullTag (u "</") then
    mkDepth (maxDepth st) (Z.max 0 (currentDepth st - 1))
  else
    let c := (currentDepth st + 1)%Z in
    mkDepth (Z.max (maxDepth st) c) c.

Definition tagMatches (html : jsstring) : list rmatchres :=
  matchAll false Patterns.tagRegex html.

Definition calculateMaxDOMDepth (html : jsstring) : Z :=
  maxDepth (fold_left depthStep (tagMatches html) depthInit).

(** The states the loop goes through, the initial one first. *)
Fixpoint depthStates (st : depthState) (ms : list rmatchres)
    : list depthState :=
  st :: match ms with
        | [] => []
        | m :: ms' => depthStates (depthStep st m) ms'
        end.

Definition depthTrace (html : jsstring) : list depthState :=
  depthStates depthInit (tagMatches html).

(** *** [scanDocument] (lines 113-676) *)

(** The range of document-level findings:
    [new vscode.Range(new vscode.Position(0, 0), new vscode.Position(0, 1))]. *)
Definition startRange : Range := mkRange (mkPosition 0 0) (mkPosition 0 1).

(** The range of a match: from [m.index] to [m.index + m[0].length]. *)
Definition matchRange (doc : TextDocument) (m : rmatchres) : Range :=
  mkRange (positionAt doc (index m))
          (positionAt doc (index m + length (matched m))).

Definition quoted (s : string) : jsstring := [34] ++ msg s ++ [34].

(** A JavaScript number that may be NaN. *)
Inductive jsnum : Type := Num (z : Z) | NaN.

Definition numGt (a : jsnum) (b : Z) : bool :=
  match a with Num z => (z >? b)%Z | NaN => false end.

(** The table [heavyLibraries] (lines 531-542). *)
Definition heavyLibraries : list (jsstring * (Z * jsstring)) :=
  [ (u "moment", (67%Z, u "date-fns (2KB)"));
    (u "moment-timezone", (190%Z, u "date-fns-tz (11KB)"));
    (u "lodash", (72%Z, u "lodash-es + tree-shaking"));
    (u "jquery", (87%Z, u "vanilla JS or cash-dom (6KB)"));
    (u "@material-ui/core", (350%Z, u "@mui/material with tree-shaking"));
    (u "rxjs", (166%Z, u "rxjs + specific operators only"));
    (u "xlsx", (800%Z, u "xlsx-populate (smaller)"));
    (u "chart.js", (150%Z, u "chartist (10KB)"));
    (u "three", (580%Z, u "three + tree-shaking"));
    (u "d3", (250%Z, u "d3 + specific modules only")) ].

(** [heavyLibraries] is an object literal: besides its own keys, reading a
    property finds those of [Object.prototype], all of them truthy and
    without a [size] or an [alternative]. *)
Definition objectPrototypeKeys : list jsstring :=
  map u ["constructor"; "__defineGetter__"; "__defineSetter__";
         "hasOwnProperty"; "__lookupGetter__"; "__lookupSetter__";
         "isPrototypeOf"; "propertyIsEnumerable"; "toString"; "valueOf";
         "__proto__"; "toLocaleString"].

Inductive libEntry : Type :=
| Own (size : Z) (alternative : jsstring)
| Inherited
| Absent.

Fixpoint assoc {A : Type} (k : jsstring) (l : list (jsstring * A))
    : option A :=
  match l with
  | [] => None
  | (k', v) :: l' => if str_eqb k k' then Some v else assoc k l'
  end.

(** [heavyLibraries[packageName]] *)
Definition heavyLookup (packageName : jsstring) : libEntry :=
  match assoc packageName heavyLibraries with
  | Some (size, alt) => Own size alt
  | None => if has objectPrototypeKeys packageName then Inherited else Absent
  end.

(** Lines 552-554. *)
Definition packageNameOf (importPath : jsstring) : jsstring :=
  if startsWith importPath (u "@")
  then join (u "/") (firstn 2 (split 47 importPath))
  else hd [] (split 47 importPath).

(** [importMatch[1] || importMatch[2]] (line 550). *)
Definition importPathOf (m : rmatchres) : jsstring :=
  match g1 m with
  | Some (c :: s) => c :: s
  | _ => match g2 m with Some s => s | None => [] end
  end.

(** Insertion into a [Set]: kept in insertion order, without duplicates. *)
Definition setAdd (set : list jsstring) (x : jsstring) : list jsstring :=
  if has set x then set else set ++ [x].

(** [html.indexOf(c)] *)
Fixpoint indexOfFrom (c : N) (s : jsstring) (i : Z) : Z :=
  match s with
  | [] => (-1)%Z
  | x :: s' => if x =? c then i else indexOfFrom c s' (i + 1)%Z
  end.
Definition indexOf (c : N) (s : jsstring) : Z := indexOfFrom c s 0.

Section Scan.

(** [new URL(s).origin], or [None] where the constructor throws. *)
Variable urlOrigin : jsstring -> option jsstring.

Variable config : Configuration.

(** What [readPolicy()] returned, at the type the source gives it. *)
Variable policy : Policy.

Variable doc : TextDocument.

Let text : jsstring := getText doc.

(* lines 131-133 *)
Definition isNextJs : bool :=
  includes text (u "next/head")
  || includes text (u "from " ++ quoted "next")
  || includes text (u "from 'next'").

Definition isReact : bool :=
  includes text (u "import React")
  || includes text (u "from " ++ quoted "react")
  || includes text (u "from 'react'").

Definition isJsxFile : bool := test false Patterns.jsxFile (fileName doc).

Definition resolvedTitleMin : Z := nullish (optChain (seo policy) titleMin) 30%Z.
Definition resolvedTitleMax : Z := nullish (optChain (seo policy) titleMax) 60%Z.

(* lines 137-169 *)
Definition titleRule : list Diagnostic :=
  match exec true Patterns.title text with
  | Some titleMatch =>
      let title := trim (group1 titleMatch) in
      let n := Z.of_nat (length title) in
      if negb (within n resolvedTitleMin resolvedTitleMax) then
        [buildDiagnostic (matchRange doc titleMatch)
           (msg "Title length is " ++ decZ n ++ msg " characters; aim for "
            ++ decZ resolvedTitleMin ++ msg "–" ++ decZ resolvedTitleMax
            ++ msg " characters.")
           "SEO_TITLE_LENGTH" Warning]
      else []
  | None =>
      if test true Patterns.headOpen text && negb isNextJs && negb isJsxFile
      then
        [buildDiagnostic startRange
           (msg "Missing <title>. Add a focused, query‑matching title (30–60 characters).")
           "SEO_TITLE_MISSING" Warning]
      else []
  end.

Definition resolvedDescMin : Z :=
  nullish (optChain (seo policy) metaDescriptionMin) 50%Z.
Definition resolvedDescMax : Z :=
  nullish (optChain (seo policy) metaDescriptionMax) 160%Z.

(* lines 172-200 *)
Definition metaDescriptionRule : list Diagnostic :=
  match exec true Patterns.metaDescription text with
  | Some metaDescMatch =>
      let desc := trim (group1 metaDescMatch) in
      let n := Z.of_nat (length desc) in
      if negb (within n resolvedDescMin resolvedDescMax) then
        [buildDiagnostic (matchRange doc metaDescMatch)
           (msg "Meta description is " ++ decZ n
            ++ msg " characters; aim for " ++ decZ resolvedDescMin
            ++ msg "–" ++ decZ resolvedDescMax ++ msg " characters.")
           "SEO_META_DESC_LENGTH" Information]
      else []
  | None =>
      [buildDiagnostic startRange
         (msg "Missing meta description. Add a 50–160 character description to improve click‑through rate.")
         "SEO_META_DESC_MISSING" Warning]
  end.

Definition resolvedRequireCanonical : bool :=
  nullish (optChain (seo policy) requireCanonical)
          (nullish (kanmi_requireCanonical config) true).

(* lines 203-219 *)
Definition canonicalRule : list Diagnostic :=
  if resolvedRequireCanonical then
    match exec true Patterns.canonical text with
    | Some _ => []
    | None =>
        [buildDiagnostic startRange
           (msg "Missing canonical link. Add <link rel=" ++ quoted "canonical"
            ++ msg " href=" ++ quoted "…"
            ++ msg "> to declare a preferred URL.")
           "SEO_CANONICAL_MISSING" Warning]
    end
  else [].

(* lines 222-251 *)
Definition jsonLdRule : list Diagnostic :=
  let requireTypes := nullish (optChain (seo policy) requireJsonLdFor) [] in
  match requireTypes with
  | [] => []
  | _ :: _ =>
      let hasJsonLd := test false Patterns.jsonLd text in
      let fileLower := toLowerCase (fileName doc) in
      let isProductLike :=
        test true Patterns.productText text
        || test false Patterns.productFile fileLower in
      let isArticleLike :=
        test true Patterns.articleText text
        || test false Patterns.articleFile fileLower in
      (if has requireTypes (u "Product") && isProductLike && negb hasJsonLd
       then
         [buildDiagnostic startRange
            (msg "Product page likely missing JSON‑LD (Product). Consider adding product structured data.")
            "SEO_JSONLD_PRODUCT_MISSING" Information]
       else [])
      ++
      (if has requireTypes (u "Article") && isArticleLike && negb hasJsonLd
       then
         [buildDiagnostic startRange
            (msg "Article page likely missing JSON‑LD (Article). Consider adding article structured data.")
            "SEO_JSONLD_ARTICLE_MISSING" Information]
       else [])
  end.

(* lines 254-260: the entries of [ogTags], then those not present *)
Definition ogTags : list (jsstring * bool) :=
  map (fun name => (u name, test true (Patterns.og name) text))
      ["og:title"; "og:description"; "og:image"; "og:url"].

Definition missingOg : list jsstring :=
  map fst (filter (fun e => negb (snd e)) ogTags).

(* lines 261-270 *)
Definition openGraphRule : list Diagnostic :=
  if (3 <=? length missingOg)%nat && test true Patterns.headOpen text then
    [buildDiagnostic startRange
       (msg "Missing " ++ decNat (length missingOg)
        ++ msg "/4 Open Graph tags: " ++ join (u ", ") missingOg
        ++ msg ". These improve social media sharing.")
       "SEO_OG_TAGS_MISSING" Information]
  else [].

(** [htmlSizeKB] is the byte length divided by 1024, a division that is
    exact in floating point; its comparisons and roundings are stated on
    the byte length. *)
Definition htmlBytes : N := byteLength text.
Definition sizeKBgt (k : N) : bool := k * 1024 <? htmlBytes.
Definition sizeKBle (k : N) : bool := htmlBytes <=? k * 1024.
(* Math.round(htmlSizeKB) and Math.round(htmlSizeKB/1024) *)
Definition roundKB : N := (htmlBytes + 512) / 1024.
Definition roundMB : N := (htmlBytes + 524288) / 1048576.

(* lines 273-312 *)
Definition htmlSizeRule : list Diagnostic :=
  (if sizeKBgt 100 && sizeKBle 150 then
     [buildDiagnostic startRange
        (msg "HTML file is " ++ decN roundKB
         ++ msg "KB. Consider code splitting or removing inline data. (Web Almanac p90: 147KB)")
        "PERF_HTML_SIZE_LARGE" Warning]
   else if sizeKBgt 150 && sizeKBle 10000 then
     [buildDiagnostic startRange
        (msg "HTML file is " ++ decN roundKB
         ++ msg "KB - larger than 90% of websites. This impacts parsing performance.")
        "PERF_HTML_SIZE_EXCESSIVE" Error]
   else if sizeKBgt 10000 then
     [buildDiagnostic startRange
        (msg "HTML file is " ++ decN roundMB
         ++ msg "MB. Approaching Google's 15MB WRS limit. Consider pagination or dynamic loading.")
        "WRS_HTML_SIZE_APPROACHING_LIMIT" Warning]
   else [])
  ++
  (if sizeKBgt 14000 then
     [buildDiagnostic startRange
        (msg "HTML file is " ++ decN roundMB
         ++ msg "MB. Google WRS will truncate at 15MB. URGENT: Reduce file size!")
        "WRS_HTML_SIZE_CRITICAL" Error]
   else []).

(* lines 316-317 *)
Definition totalElements : nat :=
  length (matchAll false Patterns.openingTag text).

(* lines 319-338 *)
Definition domSizeRule : list Diagnostic :=
  (if (800 <? totalElements)%nat then
     [buildDiagnostic startRange
        (msg "DOM has " ++ decNat totalElements
         ++ msg " elements. Google WRS recommends < 800 for optimal rendering. Consider pagination or lazy loading.")
        "WRS_DOM_SIZE_WARNING" Information]
   else [])
  ++
  (if (1500 <? totalElements)%nat then
     [buildDiagnostic startRange
        (msg "DOM has " ++ decNat totalElements
         ++ msg " elements. Google WRS hard limit is 1,500. Page may not render correctly in search results.")
        "WRS_DOM_SIZE_EXCEEDED" Error]
   else []).

(* lines 341-361 *)
Definition domDepthRule : list Diagnostic :=
  let maxDepth := calculateMaxDOMDepth text in
  (if (maxDepth >? 25)%Z then
     [buildDiagnostic startRange
        (msg "DOM depth is " ++ decZ maxDepth
         ++ msg " levels. Google WRS recommends < 32 to avoid rendering issues. Flatten your HTML structure.")
        "WRS_DOM_DEPTH_WARNING" Information]
   else [])
  ++
  (if (maxDepth >? 32)%Z then
     [buildDiagnostic startRange
        (msg "DOM depth is " ++ decZ maxDepth
         ++ msg " levels - exceeds Google WRS limit of 32. Googlebot may fail to render this page.")
        "WRS_DOM_DEPTH_EXCEEDED" Error]
   else []).

(* lines 364-413 *)
Definition headOrderRule : list Diagnostic :=
  match exec true Patterns.headSection text with
  | None => []
  | Some headMatch =>
      let headContent := group1 headMatch in
      let headStart :=
        (Z.of_nat (index headMatch) + indexOf 62 (matched headMatch) + 1)%Z in
      let at_ (i : nat) := positionAt doc (Z.to_nat (headStart + Z.of_nat i)) in
      let charsetMatch := exec true Patterns.charset headContent in
      let titleMatchPos := exec true Patterns.titleOpen headContent in
      let firstStyleMatch := exec true Patterns.stylesheet headContent in
      let firstScriptMatch := exec true Patterns.scriptOpen headContent in
      (match charsetMatch with
       | Some c =>
           if (100 <? index c)%nat then
             [buildDiagnostic (mkRange (at_ (index c)) (at_ (index c)))
                (msg "<meta charset> should be the first element in <head> to prevent re-parsing.")
                "SEO_CHARSET_ORDERING" Warning]
           else []
       | None => []
       end)
      ++
      (match titleMatchPos, firstStyleMatch with
       | Some t, Some s =>
           if (index s <? index t)%nat then
             [buildDiagnostic (mkRange (at_ (index t)) (at_ (index t)))
                (msg "<title> should appear before stylesheets for faster discovery by search engines.")
                "SEO_TITLE_ORDERING" Information]
           else []
       | _, _ => []
       end)
      ++
      (match titleMatchPos, firstScriptMatch with
       | Some t, Some s =>
           if (index s <? index t)%nat then
             [buildDiagnostic (mkRange (at_ (index t)) (at_ (index t)))
                (msg "<title> should appear before blocking scripts to avoid crawl delays.")
                "SEO_TITLE_SCRIPT_ORDERING" Information]
           else []
       | _, _ => []
       end)
  end.

(* lines 416-459: the body of the loop, for one match *)
Definition imgStep (m : rmatchres) : list Diagnostic :=
  let attrs := group1 m in
  let hasAlt := test false Patterns.altAttr attrs in
  let hasWidth := test false Patterns.widthAttr attrs in
  let hasHeight := test false Patterns.heightAttr attrs in
  let hasLoading := test true Patterns.loadingAttr attrs in
  let range := matchRange doc m in
  (if negb hasAlt then
     [buildDiagnostic range
        (msg "Image missing alt attribute. Add a meaningful `alt` for accessibility and SEO.")
        "SEO_IMG_ALT_MISSING" Warning]
   else [])
  ++
  (if negb hasWidth || negb hasHeight then
     [buildDiagnostic range
        (msg "Image missing width/height attributes. Explicit dimensions prevent layout shift.")
        "PERF_IMG_DIMENSIONS_MISSING" Warning]
   else [])
  ++
  (if negb hasLoading then
     [buildDiagnostic range
        (msg "Consider adding loading=" ++ quoted "lazy"
         ++ msg " to defer off‑screen images.")
        "PERF_IMG_LOADING_MISSING" Information]
   else []).

Definition imgRule : list Diagnostic :=
  flat_map imgStep (matchAll true Patterns.imgTag text).

(* lines 462-495 *)
Definition nextImageStep (m : rmatchres) : list Diagnostic :=
  let attrs := group1 m in
  let hasSizes := test false Patterns.sizesAttr attrs in
  let hasPriority :=
    test false Patterns.priorityWord attrs
    || test false Patterns.priorityTrue attrs in
  let src :=
    match exec false Patterns.srcAttr attrs with
    | Some srcMatch => group1 srcMatch
    | None => []
    end in
  let likelyLcp :=
    test true Patterns.lcpName src || test false Patterns.priorityWord attrs in
  let range := matchRange doc m in
  (if negb hasSizes then
     [buildDiagnostic range
        (msg "next/image missing `sizes` attribute. Without it, the browser may fetch incorrect resolutions.")
        "PERF_NEXTIMG_SIZES_MISSING" Warning]
   else [])
  ++
  (if likelyLcp && negb hasPriority then
     [buildDiagnostic range
        (msg "Likely LCP image missing `priority`. Add `priority` to improve initial load.")
        "PERF_NEXTIMG_PRIORITY_MISSING" Information]
   else []).

Definition nextImageRule : list Diagnostic :=
  flat_map nextImageStep (matchAll true Patterns.nextImage text).

(* lines 498-515 *)
Definition fontFaceStep (fmatch : rmatchres) : list Diagnostic :=
  let block := matched fmatch in
  if negb (test false Patterns.fontDisplaySwap block) then
    [buildDiagnostic (matchRange doc fmatch)
       (msg "Custom font is missing `font-display: swap`. This can block rendering.")
       "PERF_FONT_DISPLAY_MISSING" Warning]
  else [].

Definition fontFaceRule : list Diagnostic :=
  flat_map fontFaceStep (matchAll true Patterns.fontFace text).

(* lines 517-527 *)
Definition preloadFontMatches : list rmatchres :=
  matchAll true Patterns.preloadFont text.

Definition fontPreloadRule : list Diagnostic :=
  if (4 <? length preloadFontMatches)%nat then
    [buildDiagnostic startRange
       (msg "Too many font preloads (" ++ decNat (length preloadFontMatches)
        ++ msg "). Limit preloaded fonts to critical subsets.")
       "PERF_FONT_PRELOAD_EXCESS" Information]
  else [].

(* lines 549-573: one turn of the loop on the pair
   (totalEstimatedBundleSize, diagnostics pushed by the loop) *)
Definition importStep (acc : jsnum * list Diagnostic) (importMatch : rmatchres)
    : jsnum * list Diagnostic :=
  let importPath := importPathOf importMatch in
  let packageName := packageNameOf importPath in
  let heavy (size : jsnum) (sizeText advice : jsstring) :=
    (match fst acc, size with
     | Num t, Num s => Num (t + s)
     | _, _ => NaN
     end,
     snd acc ++
     [buildDiagnostic (matchRange doc importMatch)
        (msg "Heavy dependency: " ++ packageName ++ msg " (~" ++ sizeText
         ++ msg "KB). " ++ advice)
        "WRS_HEAVY_DEPENDENCY" Information]) in
  match heavyLookup packageName with
  | Own size alternative =>
      heavy (Num size) (decZ size)
        (match alternative with
         | [] => msg "Use tree-shaking or code splitting."
         | _ :: _ => msg "Consider " ++ alternative
         end)
  | Inherited =>
      heavy NaN (msg "undefined") (msg "Use tree-shaking or code splitting.")
  | Absent => acc
  end.

Definition importScan : jsnum * list Diagnostic :=
  fold_left importStep (matchAll false Patterns.importRegex text) (Num 0, []).

Definition totalEstimatedBundleSize : jsnum := fst importScan.

(* lines 576-595 *)
Definition bundleSizeRule : list Diagnostic :=
  match totalEstimatedBundleSize with
  | NaN => []
  | Num total =>
      (if (total >? 500)%Z then
         [buildDiagnostic startRange
            (msg "Estimated JS bundle size: ~" ++ decZ total
             ++ msg "KB from heavy dependencies. Google WRS recommends < 1MB total. Consider code splitting.")
            "WRS_JS_BUNDLE_SIZE_WARNING" Warning]
       else [])
      ++
      (if (total >? 1000)%Z then
         [buildDiagnostic startRange
            (msg "Estimated JS bundle size: ~" ++ decZ total
             ++ msg "KB - exceeds Google WRS 1MB recommendation. This will impact crawl budget and rendering.")
            "WRS_JS_BUNDLE_SIZE_EXCEEDED" Error]
       else [])
  end.

(* lines 598-631 *)
Definition scriptMatches : list rmatchres :=
  matchAll true Patterns.scriptSrc text.

Definition scriptStep (sMatch : rmatchres) : list Diagnostic :=
  let attrs := matched sMatch in
  let hasAsyncOrDefer :=
    test false Patterns.asyncWord attrs || test false Patterns.deferWord attrs in
  if negb hasAsyncOrDefer then
    [buildDiagnostic (matchRange doc sMatch)
       (msg "Script tag without `async` or `defer`. This can block rendering.")
       "PERF_SCRIPT_BLOCKING" Warning]
  else [].

Definition scriptRule : list Diagnostic := flat_map scriptStep scriptMatches.

(* lines 614-619 and 653-658: the origin joins the set when the address
   starts with http and parses *)
Definition addOrigin (domains : list jsstring) (m : rmatchres)
    : list jsstring :=
  let src := group1 m in
  if startsWith src (u "http") then
    match urlOrigin src with
    | Some origin => setAdd domains origin
    | None => domains
    end
  else domains.

Definition scriptCount : nat := length scriptMatches.

Definition resolvedMaxTP : Z :=
  nullish (optChain (perf policy) maxThirdPartyScriptsPerPage)
          (nullish (kanmi_maxThirdPartyScriptsPerPage config) 6%Z).

(* lines 632-643 *)
Definition scriptCountRule : list Diagnostic :=
  if (Z.of_nat scriptCount >? resolvedMaxTP)%Z then
    [buildDiagnostic startRange
       (msg "Document contains " ++ decNat scriptCount
        ++ msg " script tags. Budget is " ++ decZ resolvedMaxTP ++ msg ".")
       "PERF_SCRIPT_COUNT_EXCEEDED" Warning]
  else [].

(* lines 601-619, 646-659 *)
Definition externalDomains : list jsstring :=
  fold_left addOrigin (matchAll true Patterns.stylesheetHref text)
    (fold_left addOrigin scriptMatches []).

(* lines 662-672 *)
Definition preconnectRule : list Diagnostic :=
  let hasPreconnect := test true Patterns.preconnect text in
  match externalDomains with
  | [] => []
  | _ :: _ =>
      if negb hasPreconnect then
        let domains := firstn 3 externalDomains in
        [buildDiagnostic startRange
           (msg "Consider adding <link rel=" ++ quoted "preconnect"
            ++ msg "> for external domains: " ++ join (u ", ") domains
            ++ msg ". This reduces DNS/TLS overhead.")
           "PERF_PRECONNECT_MISSING" Information]
      else []
  end.

(** The diagnostics pushed between the two gates and [collection.set], in
    the order of the pushes. *)
Definition diagnosticsOf : list Diagnostic :=
  titleRule ++ metaDescriptionRule ++ canonicalRule ++ jsonLdRule
  ++ openGraphRule ++ htmlSizeRule ++ domSizeRule ++ domDepthRule
  ++ headOrderRule ++ imgRule ++ nextImageRule ++ fontFaceRule
  ++ fontPreloadRule ++ snd importScan ++ bundleSizeRule ++ scriptRule
  ++ scriptCountRule ++ preconnectRule.

(** [fileSizeKB > 500] (lines 121-122). *)
Definition tooLarge : bool := 500 * 1024 <? byteLength text.

(** [scanDocument]: [None] when the function returns before
    [collection.set], otherwise the diagnostics it sets for the document. *)
Definition scanDocument : option (list Diagnostic) :=
  if negb (test false Patterns.supportedFile (fileName doc)) then None
  else if tooLarge then None
  else Some diagnosticsOf.

End Scan.

(** *** [readPolicy] (lines 29-41) and the reads of the policy

    [JSON.parse] returns [any]: at run time the policy is whatever JSON
    value the file holds.  This layer follows the reads of [scanDocument]
    on such a value. *)

Module Raw.

Inductive json : Type :=
| JNull
| JBool (b : bool)
| JNum (z : Z)
| JStr (s : jsstring)
| JArr (items : list json)
| JObj (fields : list (jsstring * json)).

(** A value read from a property: a JSON value, or [undefined]. *)
Inductive jsval : Type := Undefined | Val (j : json).

(** What [readPolicy] meets in the workspace. *)
Inductive PolicySource : Type :=
| NoFolder                 (* no workspace folder *)
| Unreadable               (* readFileSync throws: no such file *)
| Unparsable               (* JSON.parse throws *)
| Parsed (j : json).

Definition readPolicy (src : PolicySource) : json :=
  match src with
  | Parsed j => j
  | NoFolder | Unreadable | Unparsable => JObj []
  end.

(** [o.k]: reading a property of [null] or [undefined] throws ([None]).
    The keys read are own properties of an object or nothing: no
    prototype has a property of these names. *)
Definition member (o : jsval) (k : jsstring) : option jsval :=
  match o with
  | Undefined | Val JNull => None
  | Val (JObj fields) =>
      Some (match assoc k fields with Some v => Val v | None => Undefined end)
  | Val _ => Some Undefined
  end.

(** [o?.k] *)
Definition optMember (o : jsval) (k : jsstring) : jsval :=
  match member o k with Some v => v | None => Undefined end.

(** [v ?? d] *)
Definition nullishVal (v : jsval) (d : json) : json :=
  match v with
  | Undefined | Val JNull => d
  | Val j => j
  end.

(** [policy.section?.key ?? dflt]; [None] when [policy.section] throws. *)
Definition resolveField (section key : jsstring) (dflt : json) (policy : json)
    : option json :=
  match member (Val policy) section with
  | Some sec => Some (nullishVal (optMember sec key) dflt)
  | None => None
  end.

Section Reads.

Variable config : Configuration.

(* lines 138-139, 173-174 *)
Definition readTitleMin := resolveField (u "seo") (u "titleMin") (JNum 30).
Definition readTitleMax := resolveField (u "seo") (u "titleMax") (JNum 60).
Definition readMetaDescriptionMin :=
  resolveField (u "seo") (u "metaDescriptionMin") (JNum 50).
Definition readMetaDescriptionMax :=
  resolveField (u "seo") (u "metaDescriptionMax") (JNum 160).
(* lines 203-205 *)
Definition readRequireCanonical :=
  resolveField (u "seo") (u "requireCanonical")
    (JBool (nullish (kanmi_requireCanonical config) true)).
(* line 222 *)
Definition readRequireJsonLdFor :=
  resolveField (u "seo") (u "requireJsonLdFor") (JArr []).
(* lines 632-633 *)
Definition readMaxThirdPartyScriptsPerPage :=
  resolveField (u "perf") (u "maxThirdPartyScriptsPerPage")
    (JNum (nullish (kanmi_maxThirdPartyScriptsPerPage config) 6%Z)).

End Reads.

(** Writing a key of an object. *)
Fixpoint assocSet {A : Type} (k : jsstring) (v : A) (l : list (jsstring * A))
    : list (jsstring * A) :=
  match l with
  | [] => [(k, v)]
  | (k', v') :: l' =>
      if str_eqb k k' then (k, v) :: l' else (k', v') :: assocSet k v l'
  end.

(** The JSON value of a policy of the declared type. *)
Definition optField {A : Type} (k : string) (enc : A -> json) (x : option A)
    : list (jsstring * json) :=
  match x with Some a => [(u k, enc a)] | None => [] end.

Definition encodeSeo (s : SeoPolicy) : json :=
  JObj (optField "titleMin" JNum (titleMin s)
        ++ optField "titleMax" JNum (titleMax s)
        ++ optField "metaDescriptionMin" JNum (metaDescriptionMin s)
        ++ optField "metaDescriptionMax" JNum (metaDescriptionMax s)
        ++ optField "requireCanonical" JBool (requireCanonical s)
        ++ optField "requireJsonLdFor" (fun l => JArr (map JStr l))
             (requireJsonLdFor s)).

Definition encodePerf (p : PerfPolicy) : json :=
  JObj (optField "maxThirdPartyScriptsPerPage" JNum
          (maxThirdPartyScriptsPerPage p)
        ++ optField "lcpImageKB" JNum (lcpImageKB p)
        ++ optField "requireFontDisplaySwap" JBool (requireFontDisplaySwap p)).

Definition encode (p : Policy) : json :=
  JObj (optField "seo" encodeSeo (seo p) ++ optField "perf" encodePerf (perf p)).

End Raw.

(** *** [scanDocument] on the policy as parsed (lines 113-676)

    The scan of [Section Scan] takes the policy at its declared type.
    This one takes the JSON value [readPolicy] returned and follows the
    lines that read it and use what they read.  Those that can throw are
    the reads of the policy (on null, so the first, line 138), the
    comparisons and the template literals that convert a policy value
    (lines 144, 148, 180, 184, 634 and 638) and the call of
    [requireTypes.includes] (line 231). *)

Module RawScan.
Import Raw.

(** What JavaScript makes of a JSON value where the scan expects a number:
    the comparisons [n >= v], [n <= v] and [n > v] of a count with it,
    and its text in a template literal.  These are the conversions of the
    language, for the values they convert. *)
Record Conversions : Type := mkConversions {
  geValue : Z -> json -> bool;
  leValue : Z -> json -> bool;
  gtValue : Z -> json -> bool;
  templateOf : json -> jsstring
}.

(** The values the language converts to a number or a text.  An object
    is converted by the [toString] of [Object.prototype] unless it has a
    property of that name, which in a JSON value is not a function: the
    conversion then throws.  An array is converted by joining the texts
    of its items. *)
Fixpoint convertible (v : json) : bool :=
  match v with
  | JNull | JBool _ | JNum _ | JStr _ => true
  | JArr items => forallb convertible items
  | JObj fields =>
      match assoc (u "toString") fields with
      | Some _ => false
      | None => true
      end
  end.

(** How a call of [scanDocument] ends: it returns at one of its gates, it
    throws, or it reaches [collection.set]. *)
Inductive scanOutcome : Type :=
| Returned
| Threw
| SetDiagnostics (diagnostics : list Diagnostic).

(** A run: the constants that received a policy value, under their names
    in the source and in the order of their declarations, and the
    outcome. *)
Record scanRun : Type := mkScanRun {
  consts : list (string * json);
  outcome : scanOutcome
}.

(** [if (v)] *)
Definition truthy (v : json) : bool :=
  match v with
  | JNull => false
  | JBool b => b
  | JNum z => negb (z =? 0)%Z
  | JStr s => match s with [] => false | _ :: _ => true end
  | JArr _ | JObj _ => true
  end.

(** [if (requireTypes.length)]: the length of an array or a string, the
    property of that name of an object, undefined on a number or a
    boolean. *)
Definition lengthTruthy (requireTypes : json) : bool :=
  match requireTypes with
  | JArr items => match items with [] => false | _ :: _ => true end
  | JStr s => match s with [] => false | _ :: _ => true end
  | JObj fields =>
      match assoc (u "length") fields with
      | Some l => truthy l
      | None => false
      end
  | JNull | JBool _ | JNum _ => false
  end.

(** [requireTypes.includes(x)] for a string [x]: the method of arrays and
    the method of strings; [None] where the call throws, the property
    being undefined or, on an object, a JSON value. *)
Definition includesOf (requireTypes : json) (x : jsstring) : option bool :=
  match requireTypes with
  | JArr items =>
      Some (existsb (fun item =>
                       match item with
                       | JStr s => str_eqb s x
                       | _ => false
                       end) items)
  | JStr s => Some (includes s x)
  | JNull | JBool _ | JNum _ | JObj _ => None
  end.

Section Run.

Variable urlOrigin : jsstring -> option jsstring.
Variable config : Configuration.
Variable js : Conversions.

(** What [readPolicy()] returned. *)
Variable policy : json.

Variable doc : TextDocument.

Let text : jsstring := getText doc.

(** A comparison of a count with a policy value; [None] when the
    conversion of the value throws. *)
Definition compared (op : Z -> json -> bool) (n : Z) (v : json)
    : option bool :=
  if convertible v then Some (op n v) else None.

(** A policy value in a template literal. *)
Definition inTemplate (v : json) : option jsstring :=
  if convertible v then Some (templateOf js v) else None.

(** [within(n, min, max)] (lines 61-63) on the values it is given:
    [n >= min && n <= max] converts [max] only when [n >= min] holds. *)
Definition withinValues (n : Z) (min max : json) : option bool :=
  match compared (geValue js) n min with
  | None => None
  | Some false => Some false
  | Some true => compared (leValue js) n max
  end.

(* lines 137-169 *)
Definition titleRule (titleMin titleMax : json)
    : option (list Diagnostic) :=
  match exec true Patterns.title text with
  | Some titleMatch =>
      let title := trim (group1 titleMatch) in
      let n := Z.of_nat (length title) in
      match withinValues n titleMin titleMax with
      | None => None
      | Some true => Some []
      | Some false =>
          match inTemplate titleMin, inTemplate titleMax with
          | Some minText, Some maxText =>
              Some [buildDiagnostic (matchRange doc titleMatch)
                      (msg "Title length is " ++ decZ n
                       ++ msg " characters; aim for " ++ minText ++ msg "–"
                       ++ maxText ++ msg " characters.")
                      "SEO_TITLE_LENGTH" Warning]
          | _, _ => None
          end
      end
  | None =>
      Some
        (if test true Patterns.headOpen text && negb (isNextJs doc)
            && negb (isJsxFile doc)
         then
           [buildDiagnostic startRange
              (msg "Missing <title>. Add a focused, query‑matching title (30–60 characters).")
              "SEO_TITLE_MISSING" Warning]
         else [])
  end.

(* lines 172-200 *)
Definition metaDescriptionRule (descMin descMax : json)
    : option (list Diagnostic) :=
  match exec true Patterns.metaDescription text with
  | Some metaDescMatch =>
      let desc := trim (group1 metaDescMatch) in
      let n := Z.of_nat (length desc) in
      match withinValues n descMin descMax with
      | None => None
      | Some true => Some []
      | Some false =>
          match inTemplate descMin, inTemplate descMax with
          | Some minText, Some maxText =>
              Some [buildDiagnostic (matchRange doc metaDescMatch)
                      (msg "Meta description is " ++ decZ n
                       ++ msg " characters; aim for " ++ minText
                       ++ msg "–" ++ maxText ++ msg " characters.")
                      "SEO_META_DESC_LENGTH" Information]
          | _, _ => None
          end
      end
  | None =>
      Some
        [buildDiagnostic startRange
           (msg "Missing meta description. Add a 50–160 character description to improve click‑through rate.")
           "SEO_META_DESC_MISSING" Warning]
  end.

(* lines 206-219 *)
Definition canonicalRule (requireCanonical : json) : list Diagnostic :=
  if truthy requireCanonical then
    match exec true Patterns.canonical text with
    | Some _ => []
    | None =>
        [buildDiagnostic startRange
           (msg "Missing canonical link. Add <link rel=" ++ quoted "canonical"
            ++ msg " href=" ++ quoted "…"
            ++ msg "> to declare a preferred URL.")
           "SEO_CANONICAL_MISSING" Warning]
    end
  else [].

(* lines 223-251; [None] when a call of [includes] throws *)
Definition jsonLdRule (requireTypes : json) : option (list Diagnostic) :=
  if lengthTruthy requireTypes then
    let hasJsonLd := test false Patterns.jsonLd text in
    let fileLower := toLowerCase (fileName doc) in
    let isProductLike :=
      test true Patterns.productText text
      || test false Patterns.productFile fileLower in
    let isArticleLike :=
      test true Patterns.articleText text
      || test false Patterns.articleFile fileLower in
    match includesOf requireTypes (u "Product") with
    | None => None
    | Some product =>
        let pushed :=
          if product && isProductLike && negb hasJsonLd then
            [buildDiagnostic startRange
               (msg "Product page likely missing JSON‑LD (Product). Consider adding product structured data.")
               "SEO_JSONLD_PRODUCT_MISSING" Information]
          else [] in
        match includesOf requireTypes (u "Article") with
        | None => None
        | Some article =>
            Some (pushed ++
                  if article && isArticleLike && negb hasJsonLd then
                    [buildDiagnostic startRange
                       (msg "Article page likely missing JSON‑LD (Article). Consider adding article structured data.")
                       "SEO_JSONLD_ARTICLE_MISSING" Information]
                  else [])
        end
    end
  else Some [].

(* lines 634-643 *)
Definition scriptCountRule (maxTP : json) : option (list Diagnostic) :=
  match compared (gtValue js) (Z.of_nat (scriptCount doc)) maxTP with
  | None => None
  | Some false => Some []
  | Some true =>
      match inTemplate maxTP with
      | Some budget =>
          Some [buildDiagnostic startRange
                  (msg "Document contains " ++ decNat (scriptCount doc)
                   ++ msg " script tags. Budget is " ++ budget ++ msg ".")
                  "PERF_SCRIPT_COUNT_EXCEEDED" Warning]
      | None => None
      end
  end.

(** [const name = value]: the run ends here when the read throws. *)
Definition declare (name : string) (value : option json)
    (rest : json -> scanRun) : scanRun :=
  match value with
  | None => mkScanRun [] Threw
  | Some v =>
      let r := rest v in
      mkScanRun ((name, v) :: consts r) (outcome r)
  end.

(** The pushes of a rule: the run ends here when the rule throws. *)
Definition pushes (rule : option (list Diagnostic))
    (rest : list Diagnostic -> scanRun) : scanRun :=
  match rule with
  | None => mkScanRun [] Threw
  | Some pushed => rest pushed
  end.

(** Lines 128-675: the declarations of the policy constants and the
    rules that use them, in the order of the source; the rules between
    them that read no policy value are gathered at the end, in the order
    of their pushes. *)
Definition pastTheGates : scanRun :=
  declare "titleMin" (readTitleMin policy) (fun titleMin =>
  declare "titleMax" (readTitleMax policy) (fun titleMax =>
  pushes (titleRule titleMin titleMax) (fun title =>
  declare "descMin" (readMetaDescriptionMin policy) (fun descMin =>
  declare "descMax" (readMetaDescriptionMax policy) (fun descMax =>
  pushes (metaDescriptionRule descMin descMax) (fun description =>
  declare "requireCanonical" (readRequireCanonical config policy)
    (fun requireCanonical =>
  declare "requireTypes" (readRequireJsonLdFor policy) (fun requireTypes =>
  pushes (jsonLdRule requireTypes) (fun jsonLd =>
  declare "maxTP" (readMaxThirdPartyScriptsPerPage config policy)
    (fun maxTP =>
  pushes (scriptCountRule maxTP) (fun count =>
  mkScanRun []
    (SetDiagnostics
       (title ++ description ++ canonicalRule requireCanonical ++ jsonLd
        ++ openGraphRule doc ++ htmlSizeRule doc ++ domSizeRule doc
        ++ domDepthRule doc ++ headOrderRule doc ++ imgRule doc
        ++ nextImageRule doc ++ fontFaceRule doc ++ fontPreloadRule doc
        ++ snd (importScan doc) ++ bundleSizeRule doc ++ scriptRule doc
        ++ count ++ preconnectRule urlOrigin doc))))))))))))).

(** [scanDocument] (lines 113-676). *)
Definition scanDocument : scanRun :=
  if negb (test false Patterns.supportedFile (fileName doc)) then
    mkScanRun [] Returned
  else if tooLarge doc then mkScanRun [] Returned
  else pastTheGates.

End Run.

End RawScan.

(** ** Vocabulary of the statements *)

Definition hasCode (c : string) (d : Diagnostic) : bool :=
  String.eqb (code d) c.

(** How many diagnostics of a list carry a code. *)
Definition countCode (c : string) (ds : list Diagnostic) : nat :=
  length (filter (hasCode c) ds).

(** A list of diagnostics has one with this code. *)
Definition emits (c : string) (ds : list Diagnostic) : Prop :=
  exists d, In d ds /\ code d = c.

(** Two policies that agree on every field but [perf.lcpImageKB] and
    [perf.requireFontDisplaySwap]. *)
Definition agreeOffLcpAndFontSwap (p1 p2 : Policy) : Prop :=
  seo p1 = seo p2
  /\ optChain (perf p1) maxThirdPartyScriptsPerPage
     = optChain (perf p2) maxThirdPartyScriptsPerPage.

(** Setting the two fields in a policy; the [perf] section is created when
    the policy has none. *)
Definition withLcpAndFontSwap (lcp : option Z) (swap : option bool)
    (p : Policy) : Policy :=
  mkPolicy (seo p)
    (Some (mkPerfPolicy (optChain (perf p) maxThirdPartyScriptsPerPage)
                        lcp swap)).

(** A text of [n] letters a, for documents of a given size. *)
Definition filler (n : N) : jsstring := repeat 97 (N.to_nat n).

(** The text of an opening tag [<name attrs>] and of a closing tag. *)
Definition openTagText (name attrs : jsstring) : jsstring :=
  [60] ++ name ++ attrs ++ [62].

Definition closeTagText (name : jsstring) : jsstring :=
  [60; 47] ++ name ++ [62].

Definition isLetter (c : N) : bool := isLowerAscii c || isUpperAscii c.
Definition isAlnum (c : N) : bool := isLetter c || isDigit c.

(** A tag name: a letter, then letters and digits. *)
Definition tagName (name : jsstring) : bool :=
  match name with
  | c :: cs => isLetter c && forallb isAlnum cs
  | [] => false
  end.

(** The attributes of a tag, as the two scanners read them after the name:
    nothing, or a run that does not start with a letter or a digit, has no
    [>] and does not end in a slash. *)
Definition tagAttrs (attrs : jsstring) : bool :=
  match attrs with
  | [] => true
  | c :: _ =>
      negb (isAlnum c) && forallb (fun x => negb (x =? 62)) attrs
      && negb (last attrs 0 =? 47)
  end.

(** Text between tags: no [<]. *)
Definition plainText (t : jsstring) : bool :=
  forallb (fun x => negb (x =? 60)) t.

Definition isVoidName (name : jsstring) : bool :=
  has selfClosingTags (toLowerCase name).

(** The length of the trimmed text of the title element, when the
    document has one (lines 137, 141). *)
Definition trimmedTitleLength (doc : TextDocument) : option Z :=
  match exec true Patterns.title (getText doc) with
  | Some titleMatch => Some (Z.of_nat (length (trim (group1 titleMatch))))
  | None => None
  end.

(** A host for examples: no address parses, no setting is configured, the
    policy is the empty object [readPolicy] returns without a file. *)
Definition noOrigin : jsstring -> option jsstring := fun _ => None.
Definition noSettings : Configuration := mkConfiguration None None.
Definition emptyPolicy : Policy := mkPolicy None None.

(** A page whose title has [n] characters. *)
Definition pageWithTitle (n : N) : TextDocument :=
  mkDocument (u "index.html")
    (u "<head><title>" ++ filler n ++ u "</title></head>").

(** The four tags of [ogTags], in the order of the object literal. *)
Definition ogNames : list string :=
  ["og:title"; "og:description"; "og:image"; "og:url"].

(** The message of the Open Graph finding for a list of missing tags. *)
Definition ogMessage (missing : list jsstring) : jsstring :=
  msg "Missing " ++ decNat (length missing) ++ msg "/4 Open Graph tags: "
  ++ join (u ", ") missing ++ msg ". These improve social media sharing.".

(** A page with a head section and the given lines in it. *)
Definition pageWithHead (name : string) (lines : list string) : TextDocument :=
  mkDocument (u name) (u "<head>" ++ flat_map u lines ++ u "</head>").

(** A range the scan may give a diagnostic: the fixed start-of-document
    range, or a range inside the text. *)
Definition rangeOk (doc : TextDocument) (r : Range) : Prop :=
  r = startRange \/ validRange (getText doc) r.

Definition rangesOk (doc : TextDocument) (ds : list Diagnostic) : Prop :=
  Forall (fun d => rangeOk doc (range d)) ds.

(** The number of characters of the first line of a text. *)
Definition firstLineLength (text : jsstring) : nat :=
  hd 0%nat (lineLengths text).

(** An empty HTML file. *)
Definition emptyPage : TextDocument := mkDocument (u "index.html") [].

(** A path segment: no slash in it. *)
Definition noSlash (seg : jsstring) : bool :=
  forallb (fun c => negb (c =? 47)) seg.

(** A module that imports six of the listed packages. *)
Definition sixImports : TextDocument :=
  mkDocument (u "app.js")
    (u "import tz from 'moment-timezone'; import Button from '@material-ui/core/Button'; import { map } from 'rxjs/operators'; import Chart from 'chart.js'; const d3 = require('d3'); const _ = require('lodash/fp');").

(** The matcher state after reading the characters [cs]. *)
Fixpoint consume (st : mstate) (cs : jsstring) : mstate :=
  match cs with
  | [] => st
  | c :: cs' => consume (advance st c (tl (rest st))) cs'
  end.

(** The pieces of a document made of tags and text. *)
Inductive piece : Type :=
| OpenTag (name attrs : jsstring)
| CloseTag (name : jsstring)
| PlainText (t : jsstring).

Definition render (p : piece) : jsstring :=
  match p with
  | OpenTag name attrs => openTagText name attrs
  | CloseTag name => closeTagText name
  | PlainText t => t
  end.

Definition renderAll (ps : list piece) : jsstring := flat_map render ps.

Definition isOpenTag (p : piece) : bool :=
  match p with OpenTag _ _ => true | _ => false end.

(** A piece of a document of nested opening tags and text: an opening tag
    of an element that is not void, or text. *)
Definition nestingPiece (p : piece) : bool :=
  match p with
  | OpenTag name attrs =>
      tagName name && tagAttrs attrs && negb (isVoidName name)
  | CloseTag _ => false
  | PlainText t => plainText t
  end.

(** A piece of a document of tags written without a slash inside: an
    opening tag of any element, void or not, whose attributes have no
    slash; a closing tag; or text. *)
Definition slashFreePiece (p : piece) : bool :=
  match p with
  | OpenTag name attrs =>
      tagName name && tagAttrs attrs
      && forallb (fun x => negb (x =? 47)) attrs
  | CloseTag name => tagName name
  | PlainText t => plainText t
  end.

(** The character before the offset, after passing over [pre]. *)
Definition prevAfter (pv : option N) (pre : jsstring) : option N :=
  fold_left (fun _ c => Some c) pre pv.

(** A match of the depth tracker that takes the branch of an opening tag:
    not skipped as void or self-closing, and not a closing tag. *)
Definition opensElement (m : rmatchres) : bool :=
  negb (has selfClosingTags (toLowerCase (group1 m))
        || endsWith (matched m) (u "/>"))
  && negb (startsWith (matched m) (u "</")).

(** A page of [n] opening tags [<div>]. *)
Definition divs (n : nat) : list piece := repeat (OpenTag (u "div") []) n.

(** A matcher state reached from another by reading characters: the
    offset has not gone back and offset plus remaining length is kept. *)
Definition follows (st st' : mstate) : bool :=
  (pos st <=? pos st')%nat
  && (pos st' + length (rest st') =? pos st + length (rest st))%nat.

(** A continuation restricted to the states that follow a state. *)
Definition guard (st : mstate) (k : mstate -> option mstate)
    : mstate -> option mstate :=
  fun st' => if follows st st' then k st' else None.

(** Every diagnostic of a list has its code in a given list. *)
Definition onlyCodes (cs : list string) (ds : list Diagnostic) : Prop :=
  Forall (fun d => In (code d) cs) ds.


(** ** Vocabulary of the further statements *)

(** The length of the trimmed content of the description tag, when the
    document has one (lines 172, 176). *)
Definition trimmedDescriptionLength (doc : TextDocument) : option Z :=
  match exec true Patterns.metaDescription (getText doc) with
  | Some metaDescMatch =>
      Some (Z.of_nat (length (trim (group1 metaDescMatch))))
  | None => None
  end.

(** The severity each code is pushed with. *)
Definition codeSeverities : list (string * DiagnosticSeverity) :=
  [ ("SEO_TITLE_LENGTH", Warning); ("SEO_TITLE_MISSING", Warning);
    ("SEO_META_DESC_LENGTH", Information); ("SEO_META_DESC_MISSING", Warning);
    ("SEO_CANONICAL_MISSING", Warning);
    ("SEO_JSONLD_PRODUCT_MISSING", Information);
    ("SEO_JSONLD_ARTICLE_MISSING", Information);
    ("SEO_OG_TAGS_MISSING", Information);
    ("PERF_HTML_SIZE_LARGE", Warning); ("PERF_HTML_SIZE_EXCESSIVE", Error);
    ("WRS_HTML_SIZE_APPROACHING_LIMIT", Warning);
    ("WRS_HTML_SIZE_CRITICAL", Error);
    ("WRS_DOM_SIZE_WARNING", Information); ("WRS_DOM_SIZE_EXCEEDED", Error);
    ("WRS_DOM_DEPTH_WARNING", Information); ("WRS_DOM_DEPTH_EXCEEDED", Error);
    ("SEO_CHARSET_ORDERING", Warning); ("SEO_TITLE_ORDERING", Information);
    ("SEO_TITLE_SCRIPT_ORDERING", Information);
    ("SEO_IMG_ALT_MISSING", Warning); ("PERF_IMG_DIMENSIONS_MISSING", Warning);
    ("PERF_IMG_LOADING_MISSING", Information);
    ("PERF_NEXTIMG_SIZES_MISSING", Warning);
    ("PERF_NEXTIMG_PRIORITY_MISSING", Information);
    ("PERF_FONT_DISPLAY_MISSING", Warning);
    ("PERF_FONT_PRELOAD_EXCESS", Information);
    ("WRS_HEAVY_DEPENDENCY", Information);
    ("WRS_JS_BUNDLE_SIZE_WARNING", Warning);
    ("WRS_JS_BUNDLE_SIZE_EXCEEDED", Error);
    ("PERF_SCRIPT_BLOCKING", Warning);
    ("PERF_SCRIPT_COUNT_EXCEEDED", Warning);
    ("PERF_PRECONNECT_MISSING", Information) ].

(** A diagnostic as every push builds it: its severity is the one of its
    code and its source is Kanmi. *)
Definition wellTagged (d : Diagnostic) : Prop :=
  In (code d, severity d) codeSeverities /\ source d = "Kanmi".

(** The codes of the findings about the document as a whole, in the order
    of their pushes; the other codes are pushed once per matched tag,
    font block or import. *)
Definition documentCodes : list string :=
  [ "SEO_TITLE_LENGTH"; "SEO_TITLE_MISSING"; "SEO_META_DESC_LENGTH";
    "SEO_META_DESC_MISSING"; "SEO_CANONICAL_MISSING";
    "SEO_JSONLD_PRODUCT_MISSING"; "SEO_JSONLD_ARTICLE_MISSING";
    "SEO_OG_TAGS_MISSING"; "PERF_HTML_SIZE_LARGE"; "PERF_HTML_SIZE_EXCESSIVE";
    "WRS_HTML_SIZE_APPROACHING_LIMIT"; "WRS_HTML_SIZE_CRITICAL";
    "WRS_DOM_SIZE_WARNING"; "WRS_DOM_SIZE_EXCEEDED"; "WRS_DOM_DEPTH_WARNING";
    "WRS_DOM_DEPTH_EXCEEDED"; "SEO_CHARSET_ORDERING"; "SEO_TITLE_ORDERING";
    "SEO_TITLE_SCRIPT_ORDERING"; "PERF_FONT_PRELOAD_EXCESS";
    "WRS_JS_BUNDLE_SIZE_WARNING"; "WRS_JS_BUNDLE_SIZE_EXCEEDED";
    "PERF_SCRIPT_COUNT_EXCEEDED"; "PERF_PRECONNECT_MISSING" ].

Definition isDocumentCode (c : string) : bool :=
  existsb (String.eqb c) documentCodes.

(** The document-level codes of a list of diagnostics, in order. *)
Definition documentLevel (ds : list Diagnostic) : list string :=
  filter isDocumentCode (map code ds).

(** What [heavyLibraries] gives for each import the scan matches. *)
Definition importLookups (doc : TextDocument) : list libEntry :=
  map (fun m => heavyLookup (packageNameOf (importPathOf m)))
      (matchAll false Patterns.importRegex (getText doc)).

Definition isAbsent (e : libEntry) : bool :=
  match e with Absent => true | _ => false end.

Definition isInherited (e : libEntry) : bool :=
  match e with Inherited => true | _ => false end.

Definition sizeOf (e : libEntry) : Z :=
  match e with Own size _ => size | _ => 0%Z end.

(** A TypeScript module without markup. *)
Definition plainModule : TextDocument :=
  mkDocument (u "util.ts") (u "export const answer = 42;").

(** Policies that say one thing about the canonical link. *)
Definition canonicalPolicy (b : bool) : Policy :=
  mkPolicy (Some (mkSeoPolicy None None None None (Some b) None)) None.

(** A policy that asks for JSON-LD on the given page types. *)
Definition jsonLdPolicy (types : list jsstring) : Policy :=
  mkPolicy (Some (mkSeoPolicy None None None None None (Some types))) None.

(** A page of [n] letters, for a given payload size. *)
Definition pageOfSize (n : N) : TextDocument :=
  mkDocument (u "index.html") (filler n).

(** A module that imports two listed packages and a module named like a
    property of [Object.prototype]. *)
Definition poisonedImports : TextDocument :=
  mkDocument (u "report.js")
    (u "const xlsx = require('xlsx'); import * as THREE from 'three'; const c = require('constructor');").

(** A policy that sets the script budget. *)
Definition scriptBudgetPolicy (n : Z) : Policy :=
  mkPolicy None (Some (mkPerfPolicy (Some n) None None)).

(** A page with two script tags, one of them deferred. *)
Definition twoScripts : TextDocument :=
  mkDocument (u "index.html")
    (u "<script src='/a.js'></script><script defer src='/b.js'></script>").

(** The place of a code in a list of codes. *)
Fixpoint indexIn (c : string) (l : list string) : nat :=
  match l with
  | [] => 0%nat
  | x :: l' => if String.eqb c x then 0%nat else S (indexIn c l')
  end.

Definition codeRank (c : string) : nat := indexIn c documentCodes.

(** [lo <= r1 < r2 < ... < rn < hi] *)
Fixpoint ascending (lo hi : nat) (l : list nat) : bool :=
  match l with
  | [] => (lo <=? hi)%nat
  | r :: l' => (lo <=? r)%nat && ascending (S r) hi l'
  end.

(** A piece of markup that the depth tracker reads as one tag, or as
    none: an opening or closing tag of any element, or text. *)
Definition markupPiece (p : piece) : bool :=
  match p with
  | OpenTag name attrs => tagName name && tagAttrs attrs
  | CloseTag name => tagName name
  | PlainText t => plainText t
  end.

(** What a piece does to the depth: an opening tag of an element that is
    not void goes one level down, its closing tag one level up, not above
    the top; void elements and text do nothing. *)
Definition pieceStep (st : depthState) (p : piece) : depthState :=
  match p with
  | OpenTag name _ =>
      if isVoidName name then st
      else mkDepth (Z.max (maxDepth st) (currentDepth st + 1))
                   (currentDepth st + 1)
  | CloseTag name =>
      if isVoidName name then st
      else mkDepth (maxDepth st) (Z.max 0 (currentDepth st - 1))
  | PlainText _ => st
  end.

(** A tree of elements and text. *)
Inductive node : Type :=
| Element (name attrs : jsstring) (children : list node)
| TextNode (t : jsstring).

(** Its markup, every element closed. *)
Fixpoint markup (n : node) : list piece :=
  match n with
  | Element name attrs children =>
      OpenTag name attrs :: flat_map markup children ++ [CloseTag name]
  | TextNode t => [PlainText t]
  end.

(** The number of elements on its longest branch. *)
Fixpoint height (n : node) : Z :=
  match n with
  | Element _ _ children =>
      (1 + fold_right Z.max 0 (map height children))%Z
  | TextNode _ => 0%Z
  end.

(** Elements that are not void, with a tag name and attributes the
    tracker reads whole, and text without [<]. *)
Fixpoint properTree (n : node) : bool :=
  match n with
  | Element name attrs children =>
      tagName name && tagAttrs attrs && negb (isVoidName name)
      && forallb properTree children
  | TextNode t => plainText t
  end.

(** Induction on a tree with the property known for the children. *)
Fixpoint node_rect' (P : node -> Prop)
    (HE : forall name attrs children,
            Forall P children -> P (Element name attrs children))
    (HT : forall t, P (TextNode t)) (n : node) : P n :=
  match n with
  | Element name attrs children =>
      HE name attrs children
        ((fix go (l : list node) : Forall P l :=
            match l with
            | [] => @Forall_nil _ P
            | k :: l' => @Forall_cons _ P k l' (@node_rect' P HE HT k) (go l')
            end) children)
  | TextNode t => HT t
  end.

(** A page of nested sections, [n] levels deep. *)
Fixpoint nested (n : nat) : node :=
  match n with
  | O => TextNode (u "leaf")
  | S n' => Element (u "section") [] [nested n']
  end.

(** The page of [n] nested sections. *)
Definition nestedPage (n : nat) : TextDocument :=
  mkDocument (u "index.html") (renderAll (markup (nested n))).

(** The file name endings the scan accepts, as written: the test is
    sensitive to case. *)
Definition supportedExtensions : list jsstring :=
  map u [".js"; ".jsx"; ".ts"; ".tsx"; ".html"].

(** The addresses the scan reads for the preconnect hint: the [src] of
    the script tags, then the [href] of the stylesheet links. *)
Definition externalSources (doc : TextDocument) : list jsstring :=
  map group1 (scriptMatches doc
              ++ matchAll true Patterns.stylesheetHref (getText doc)).

(** A stand-in for [new URL(s).origin] on addresses of the form
    scheme://host/path: the text before the third slash. *)
Definition originBeforePath (src : jsstring) : option jsstring :=
  Some (join (u "/") (firstn 3 (split 47 src))).

(** A page that loads from two hosts, one of them twice, and from its own
    site. *)
Definition twoHosts : TextDocument :=
  mkDocument (u "index.html")
    (u "<script src='https://cdn.example.com/a.js'></script><script src='/local.js'></script><link rel='stylesheet' href='https://fonts.example.org/css'><script src='https://cdn.example.com/b.js'></script>").

(** ** Activation: the event hooks and the workspace command
    (lines 103-731) *)

(** The diagnostic collection: what [collection.set(doc.uri, diagnostics)]
    has stored, by document.  A document is identified by its file name. *)
Definition DiagnosticCollection : Type := list (jsstring * list Diagnostic).

(** What the progress notification and the message boxes are asked to
    show.  The report of line 720 carries a percentage and an increment
    computed in floating point from [i] and [files.length]; it is kept as
    the pair it is computed from. *)
Inductive uiEffect : Type :=
| Report (message : jsstring)
| ReportStep (i n : nat)
| ShowWarningMessage (message : jsstring)
| ShowInformationMessage (message : jsstring).

(** How the callback of the command ends: after the loop, at the
    cancellation check, or with the rejection of [openTextDocument]. *)
Inductive outcome : Type := Completed | Cancelled | Rejected.

Record commandRun : Type := mkRun {
  runCollection : DiagnosticCollection;
  runEffects : list uiEffect;
  runOutcome : outcome
}.

(** The variables of [activate] that change: the collection and the
    pending timer, with the document its callback will scan. *)
Record extensionState : Type := mkState {
  collection : DiagnosticCollection;
  debounceTimer : option TextDocument
}.

(** What the host tells the extension: a document was opened, saved or
    changed, or the pending timeout ran. *)
Inductive hostEvent : Type :=
| DidOpenTextDocument (doc : TextDocument)
| DidSaveTextDocument (doc : TextDocument)
| DidChangeTextDocument (doc : TextDocument)
| TimerFired.

Section Activation.

Variable urlOrigin : jsstring -> option jsstring.

(** The settings and the policy file, read again by every scan; they stay
    as they are here. *)
Variable config : Configuration.
Variable policy : Policy.

(** A call of [scanDocument] on the collection: it sets the diagnostics
    of the document, unless it returned at one of its gates. *)
Definition scanInto (coll : DiagnosticCollection) (doc : TextDocument)
    : DiagnosticCollection :=
  match scanDocument urlOrigin config policy doc with
  | Some diagnostics => Raw.assocSet (fileName doc) diagnostics coll
  | None => coll
  end.

(** The hooks (lines 679-691).  A change clears the pending timer and sets
    a new one for its document; the timer, when it runs, scans the
    document it was set for. *)
Definition handle (st : extensionState) (ev : hostEvent) : extensionState :=
  match ev with
  | DidOpenTextDocument doc | DidSaveTextDocument doc =>
      mkState (scanInto (collection st) doc) (debounceTimer st)
  | DidChangeTextDocument doc => mkState (collection st) (Some doc)
  | TimerFired =>
      match debounceTimer st with
      | Some doc => mkState (scanInto (collection st) doc) None
      | None => st
      end
  end.

Definition handleAll (evs : list hostEvent) (st : extensionState)
    : extensionState :=
  fold_left handle evs st.

(** The state [activate] leaves. *)
Definition activated : extensionState := mkState [] None.

(** The command [kanmi.scan] (lines 694-729). *)
Section Command.

(** The files [findFiles] returned are of type [File]. *)
Variable File : Type.

(** [openTextDocument], or [None] where its promise rejects. *)
Variable openTextDocument : File -> option TextDocument.

(** [token.isCancellationRequested] as read at the start of turn [i]. *)
Variable isCancellationRequested : nat -> bool.

(** The [for] loop from turn [i] on, [n] being [files.length]. *)
Fixpoint scanFiles (n i : nat) (files : list File)
    (coll : DiagnosticCollection) (shown : list uiEffect) : commandRun :=
  match files with
  | [] =>
      mkRun coll
        (shown ++ [ShowInformationMessage
                     (msg "Kanmi Levers Guard: Scanned " ++ decNat n
                      ++ msg " files.")])
        Completed
  | file :: files' =>
      if isCancellationRequested i then
        mkRun coll (shown ++ [ShowWarningMessage (msg "Kanmi scan cancelled.")])
          Cancelled
      else
        match openTextDocument file with
        | None => mkRun coll shown Rejected
        | Some doc =>
            scanFiles n (S i) files' (scanInto coll doc)
              (if (i mod 10 =? 0)%nat then shown ++ [ReportStep i n]
               else shown)
        end
  end.

Definition kanmiScan (files : list File) (coll : DiagnosticCollection)
    : commandRun :=
  let n := length files in
  scanFiles n 0 files coll
    [Report (msg "Scanning " ++ decNat n ++ msg " files...")].

End Command.

End Activation.

(** The documents of the events that carry one. *)
Definition eventDocuments (evs : list hostEvent) : list TextDocument :=
  flat_map (fun ev =>
    match ev with
    | DidOpenTextDocument doc | DidSaveTextDocument doc
    | DidChangeTextDocument doc => [doc]
    | TimerFired => []
    end) evs.


Definition isInformation (e : uiEffect) : bool :=
  match e with ShowInformationMessage _ => true | _ => false end.


(** The token is not set at any of the turns before [k]. *)
Definition notCancelledBefore (token : nat -> bool) (k : nat) : Prop :=
  forall i, (i < k)%nat -> token i = false.

(** A workspace of three files, the second a style sheet the scan does not
    read. *)
Definition threeFiles : list TextDocument :=
  [ mkDocument (u "index.html") (u "<title>Home</title>");
    mkDocument (u "site.css") (u "body { margin: 0 }");
    mkDocument (u "app.js") (u "const three = require('three');") ].

(** The [img] tags the scan finds, and what it tests on the attributes of
    one (lines 417-424). *)
Definition imgMatches (doc : TextDocument) : list rmatchres :=
  matchAll true Patterns.imgTag (getText doc).

Definition lacksAlt (m : rmatchres) : bool :=
  negb (test false Patterns.altAttr (group1 m)).

Definition lacksDimensions (m : rmatchres) : bool :=
  negb (test false Patterns.widthAttr (group1 m))
  || negb (test false Patterns.heightAttr (group1 m)).

Definition lacksLoading (m : rmatchres) : bool :=
  negb (test true Patterns.loadingAttr (group1 m)).

Definition imgCodes : list string :=
  ["SEO_IMG_ALT_MISSING"; "PERF_IMG_DIMENSIONS_MISSING";
   "PERF_IMG_LOADING_MISSING"].

(** The [Image] components the scan finds, and what it tests on one
    (lines 463-469). *)
Definition nextImageMatches (doc : TextDocument) : list rmatchres :=
  matchAll true Patterns.nextImage (getText doc).

Definition srcOf (m : rmatchres) : jsstring :=
  match exec false Patterns.srcAttr (group1 m) with
  | Some srcMatch => group1 srcMatch
  | None => []
  end.

Definition namedLikeLcp (m : rmatchres) : bool :=
  test true Patterns.lcpName (srcOf m).

Definition mentionsPriority (m : rmatchres) : bool :=
  test false Patterns.priorityWord (group1 m)
  || test false Patterns.priorityTrue (group1 m).

Definition lacksSizes (m : rmatchres) : bool :=
  negb (test false Patterns.sizesAttr (group1 m)).

(** JSON values that are neither null nor an object. *)
Definition isPrimitiveOrArray (j : Raw.json) : bool :=
  match j with
  | Raw.JNull | Raw.JObj _ => false
  | _ => true
  end.

Definition isObject (j : Raw.json) : bool :=
  match j with Raw.JObj _ => true | _ => false end.

(** A page with three images: complete, bare, and with an empty alt. *)
Definition threeImages : TextDocument :=
  mkDocument (u "index.html")
    (u "<img src='a.png' alt='A' width='1' height='1' loading='lazy'><img src='b.png'><img src='c.png' alt='' width='2'>").

(** A component with two images named like the largest one of a page, and
    one that only mentions priority. *)
Definition heroImages : TextDocument :=
  mkDocument (u "Hero.jsx")
    (u "<Image src='/hero.png' sizes='100vw' /><Image src='/banner.png' sizes='100vw' priority /><Image src='/logo.png' sizes='10vw' priority={false} />").

(** *** The policy file, field by field *)

(** The value a policy object supplies for [section.key], if any. *)
Definition supplied (fields : list (jsstring * Raw.json))
    (section key : jsstring) : option Raw.json :=
  match assoc section fields with
  | Some (Raw.JObj sectionFields) => assoc key sectionFields
  | _ => None
  end.

(** The supplied value, whatever its type; the default when nothing or
    null is supplied. *)
Definition orDefault (dflt : Raw.json) (v : option Raw.json) : Raw.json :=
  match v with
  | None | Some Raw.JNull => dflt
  | Some j => j
  end.

(** The constants of [scanDocument] that hold a policy value: the name of
    the constant, the section and key it is read from, its default. *)
Definition policyConstants (config : Configuration)
    : list (string * (jsstring * jsstring * Raw.json)) :=
  [ ("titleMin", (u "seo", u "titleMin", Raw.JNum 30));
    ("titleMax", (u "seo", u "titleMax", Raw.JNum 60));
    ("descMin", (u "seo", u "metaDescriptionMin", Raw.JNum 50));
    ("descMax", (u "seo", u "metaDescriptionMax", Raw.JNum 160));
    ("requireCanonical",
       (u "seo", u "requireCanonical",
        Raw.JBool (nullish (kanmi_requireCanonical config) true)));
    ("requireTypes", (u "seo", u "requireJsonLdFor", Raw.JArr []));
    ("maxTP",
       (u "perf", u "maxThirdPartyScriptsPerPage",
        Raw.JNum (nullish (kanmi_maxThirdPartyScriptsPerPage config) 6%Z))) ].

(** What each constant is to hold for a policy object: the value supplied
    for its field, or its default. *)
Definition resolution (config : Configuration)
    (fields : list (jsstring * Raw.json)) : list (string * Raw.json) :=
  map (fun c =>
         match c with
         | (name, (section, key, dflt)) =>
             (name, orDefault dflt (supplied fields section key))
         end) (policyConstants config).

(** A value for requireJsonLdFor that is an object with a truthy
    [length]. *)
Definition objectWithLength (requireTypes : Raw.json) : bool :=
  match requireTypes with
  | Raw.JObj fields =>
      match assoc (u "length") fields with
      | Some l => RawScan.truthy l
      | None => false
      end
  | _ => false
  end.

(** The policy object does not give requireJsonLdFor such a value. *)
Definition typesUsable (fields : list (jsstring * Raw.json)) : bool :=
  negb (objectWithLength
          (orDefault (Raw.JArr [])
             (supplied fields (u "seo") (u "requireJsonLdFor")))).

(** The value supplied for a field, if any, is one the language
    converts. *)
Definition suppliedConvertible (fields : list (jsstring * Raw.json))
    (section key : jsstring) : bool :=
  match supplied fields section key with
  | Some v => RawScan.convertible v
  | None => true
  end.

(** A policy object the scan can use throughout: the values of the five
    fields it compares with a count are convertible, and requireJsonLdFor
    is not an object with a truthy length. *)
Definition usable (fields : list (jsstring * Raw.json)) : bool :=
  suppliedConvertible fields (u "seo") (u "titleMin")
  && suppliedConvertible fields (u "seo") (u "titleMax")
  && suppliedConvertible fields (u "seo") (u "metaDescriptionMin")
  && suppliedConvertible fields (u "seo") (u "metaDescriptionMax")
  && suppliedConvertible fields (u "perf") (u "maxThirdPartyScriptsPerPage")
  && typesUsable fields.

(** The conversions on a number are the comparisons of integers and its
    decimal text. *)
Definition numeric (js : RawScan.Conversions) : Prop :=
  forall n z,
    RawScan.geValue js n (Raw.JNum z) = (n >=? z)%Z
    /\ RawScan.leValue js n (Raw.JNum z) = (n <=? z)%Z
    /\ RawScan.gtValue js n (Raw.JNum z) = (n >? z)%Z
    /\ RawScan.templateOf js (Raw.JNum z) = decZ z.

(** The number a boolean or a number converts to; the other values are
    taken here as values that do not spell a number, which is what
    JavaScript makes of an object and of a text such as forty. *)
Definition numberOf (v : Raw.json) : jsnum :=
  match v with
  | Raw.JNum z => Num z
  | Raw.JBool true => Num 1
  | Raw.JBool false => Num 0
  | _ => NaN
  end.

(** The text of a JSON value in a template literal. *)
Fixpoint textOf (v : Raw.json) : jsstring :=
  match v with
  | Raw.JNull => u "null"
  | Raw.JBool true => u "true"
  | Raw.JBool false => u "false"
  | Raw.JNum z => decZ z
  | Raw.JStr s => s
  | Raw.JArr items =>
      join (u ",")
        (map (fun item =>
                match item with
                | Raw.JNull => []
                | _ => textOf item
                end) items)
  | Raw.JObj _ => u "[object Object]"
  end.

(** Conversions for the examples. *)
Definition plainConversions : RawScan.Conversions :=
  RawScan.mkConversions
    (fun n v => match numberOf v with Num z => (n >=? z)%Z | NaN => false end)
    (fun n v => match numberOf v with Num z => (n <=? z)%Z | NaN => false end)
    (fun n v => match numberOf v with Num z => (n >? z)%Z | NaN => false end)
    textOf.

(** The policy files of the examples. *)
Definition titleMinAsText : Raw.json :=
  Raw.JObj [(u "seo", Raw.JObj [(u "titleMin", Raw.JStr (u "forty"))])].

Definition typesAsObject : list (jsstring * Raw.json) :=
  [(u "seo",
    Raw.JObj [(u "requireJsonLdFor", Raw.JObj [(u "length", Raw.JNum 1)])]);
   (u "perf", Raw.JObj [(u "maxThirdPartyScriptsPerPage", Raw.JNum 2)])].

Definition budgetAsObject : list (jsstring * Raw.json) :=
  [(u "perf",
    Raw.JObj [(u "maxThirdPartyScriptsPerPage",
               Raw.JObj [(u "toString", Raw.JNum 1)])])].

Definition titleMaxOnly : list (jsstring * Raw.json) :=
  [(u "seo", Raw.JObj [(u "titleMax", Raw.JNum 70);
                       (u "titleMin", Raw.JNull);
                       (u "requireCanonical", Raw.JStr (u "no"))])].

(** The sum of the table sizes of the listed packages a document
    imports. *)
Definition listedTotal (doc : TextDocument) : Z :=
  fold_right Z.add 0%Z (map sizeOf (importLookups doc)).

(** The value of a constant in a run, if the run declared it. *)
Fixpoint constant (name : string) (l : list (string * Raw.json))
    : option Raw.json :=
  match l with
  | [] => None
  | (name', v) :: l' =>
      if String.eqb name name' then Some v else constant name l'
  end.

(** The diagnostics a run gave to [collection.set], if it reached it. *)
Definition diagnosticsSet (r : RawScan.scanRun) : option (list Diagnostic) :=
  match RawScan.outcome r with
  | RawScan.SetDiagnostics ds => Some ds
  | RawScan.Returned | RawScan.Threw => None
  end.

(** ** Properties *)

(** *** Counting diagnostics by code *)

Lemma countCode_app c ds1 ds2 :
  countCode c (ds1 ++ ds2) = (countCode c ds1 + countCode c ds2)%nat.
Proof. unfold countCode. now rewrite filter_app, length_app. Qed.

Lemma onlyCodes_nil cs : onlyCodes cs [].
Proof. constructor. Qed.

Lemma onlyCodes_app cs ds1 ds2 :
  onlyCodes cs ds1 -> onlyCodes cs ds2 -> onlyCodes cs (ds1 ++ ds2).
Proof. intros H1 H2. apply Forall_app. now split. Qed.

Lemma onlyCodes_one cs r m c s :
  In c cs -> onlyCodes cs [buildDiagnostic r m c s].
Proof. intros H. constructor; [exact H | constructor]. Qed.

Lemma onlyCodes_flat_map cs (A : Type) (f : A -> list Diagnostic) l :
  (forall x, onlyCodes cs (f x)) -> onlyCodes cs (flat_map f l).
Proof.
  intros H. induction l as [|x l IH]; simpl.
  - constructor.
  - apply onlyCodes_app; [apply H | exact IH].
Qed.

Lemma onlyCodes_count0 cs c ds :
  onlyCodes cs ds -> ~ In c cs -> countCode c ds = 0%nat.
Proof.
  intros H Hc. unfold countCode.
  induction H as [|d ds Hd _ IH]; simpl; [reflexivity|].
  unfold hasCode at 1. destruct (String.eqb_spec (code d) c) as [E|E].
  - subst c. contradiction.
  - exact IH.
Qed.

Lemma emits_app_l c ds1 ds2 : emits c ds1 -> emits c (ds1 ++ ds2).
Proof. intros [d [H E]]. exists d. split; [apply in_or_app; now left | exact E]. Qed.

Lemma emits_app_r c ds1 ds2 : emits c ds2 -> emits c (ds1 ++ ds2).
Proof. intros [d [H E]]. exists d. split; [apply in_or_app; now right | exact E]. Qed.

Lemma emits_one r m c s : emits c [buildDiagnostic r m c s].
Proof. eexists. split; [left; reflexivity | reflexivity]. Qed.

Lemma emits_existsb c ds : existsb (hasCode c) ds = true -> emits c ds.
Proof.
  intros H. apply existsb_exists in H. destruct H as [d [Hd Hc]].
  exists d. split; [exact Hd | now apply String.eqb_eq].
Qed.

Lemma emits_countCode c ds : emits c ds <-> (0 < countCode c ds)%nat.
Proof.
  unfold emits, countCode. split.
  - intros [d [Hd Hc]].
    assert (H : In d (filter (hasCode c) ds)).
    { apply filter_In. split; [exact Hd | now apply String.eqb_eq]. }
    destruct (filter (hasCode c) ds); [destruct H | simpl; lia].
  - intros H. destruct (filter (hasCode c) ds) as [|d l] eqn:E;
      [simpl in H; lia|].
    assert (Hd : In d (filter (hasCode c) ds)) by (rewrite E; now left).
    apply filter_In in Hd. destruct Hd as [Hd Hc].
    exists d. split; [exact Hd | now apply String.eqb_eq].
Qed.

(** Solves [onlyCodes cs ds] for a rule made of tests and single pushes. *)
Ltac only_codes :=
  repeat match goal with
  | |- onlyCodes _ [] => apply onlyCodes_nil
  | |- onlyCodes _ (_ ++ _) => apply onlyCodes_app
  | |- onlyCodes _ [buildDiagnostic _ _ _ _] =>
      apply onlyCodes_one; simpl; tauto
  | |- onlyCodes _ (if ?b then _ else _) => destruct b
  | |- onlyCodes _ (match ?x with _ => _ end) => destruct x
  end.

(** *** The codes each rule can push *)

Section RuleCodes.

Variable urlOrigin : jsstring -> option jsstring.
Variable config : Configuration.
Variable policy : Policy.
Variable doc : TextDocument.

Lemma titleRule_codes :
  onlyCodes ["SEO_TITLE_LENGTH"; "SEO_TITLE_MISSING"] (titleRule policy doc).
Proof. unfold titleRule. only_codes. Qed.

Lemma metaDescriptionRule_codes :
  onlyCodes ["SEO_META_DESC_LENGTH"; "SEO_META_DESC_MISSING"]
    (metaDescriptionRule policy doc).
Proof. unfold metaDescriptionRule. only_codes. Qed.

Lemma canonicalRule_codes :
  onlyCodes ["SEO_CANONICAL_MISSING"] (canonicalRule config policy doc).
Proof. unfold canonicalRule. only_codes. Qed.

Lemma jsonLdRule_codes :
  onlyCodes ["SEO_JSONLD_PRODUCT_MISSING"; "SEO_JSONLD_ARTICLE_MISSING"]
    (jsonLdRule policy doc).
Proof. unfold jsonLdRule. only_codes. Qed.

Lemma openGraphRule_codes :
  onlyCodes ["SEO_OG_TAGS_MISSING"] (openGraphRule doc).
Proof. unfold openGraphRule. only_codes. Qed.

Lemma htmlSizeRule_codes :
  onlyCodes ["PERF_HTML_SIZE_LARGE"; "PERF_HTML_SIZE_EXCESSIVE";
             "WRS_HTML_SIZE_APPROACHING_LIMIT"; "WRS_HTML_SIZE_CRITICAL"]
    (htmlSizeRule doc).
Proof. unfold htmlSizeRule. only_codes. Qed.

Lemma domSizeRule_codes :
  onlyCodes ["WRS_DOM_SIZE_WARNING"; "WRS_DOM_SIZE_EXCEEDED"] (domSizeRule doc).
Proof. unfold domSizeRule. only_codes. Qed.

Lemma domDepthRule_codes :
  onlyCodes ["WRS_DOM_DEPTH_WARNING"; "WRS_DOM_DEPTH_EXCEEDED"]
    (domDepthRule doc).
Proof. unfold domDepthRule. only_codes. Qed.

Lemma headOrderRule_codes :
  onlyCodes ["SEO_CHARSET_ORDERING"; "SEO_TITLE_ORDERING";
             "SEO_TITLE_SCRIPT_ORDERING"] (headOrderRule doc).
Proof. unfold headOrderRule. only_codes. Qed.

Lemma imgRule_codes :
  onlyCodes ["SEO_IMG_ALT_MISSING"; "PERF_IMG_DIMENSIONS_MISSING";
             "PERF_IMG_LOADING_MISSING"] (imgRule doc).
Proof.
  unfold imgRule. apply onlyCodes_flat_map. intros m.
  unfold imgStep. only_codes.
Qed.

Lemma nextImageRule_codes :
  onlyCodes ["PERF_NEXTIMG_SIZES_MISSING"; "PERF_NEXTIMG_PRIORITY_MISSING"]
    (nextImageRule doc).
Proof.
  unfold nextImageRule. apply onlyCodes_flat_map. intros m.
  unfold nextImageStep. only_codes.
Qed.

Lemma fontFaceRule_codes :
  onlyCodes ["PERF_FONT_DISPLAY_MISSING"] (fontFaceRule doc).
Proof.
  unfold fontFaceRule. apply onlyCodes_flat_map. intros m.
  unfold fontFaceStep. only_codes.
Qed.

Lemma fontPreloadRule_codes :
  onlyCodes ["PERF_FONT_PRELOAD_EXCESS"] (fontPreloadRule doc).
Proof. unfold fontPreloadRule. only_codes. Qed.

Lemma importStep_codes acc m :
  onlyCodes ["WRS_HEAVY_DEPENDENCY"] (snd acc) ->
  onlyCodes ["WRS_HEAVY_DEPENDENCY"] (snd (importStep doc acc m)).
Proof.
  intros H. unfold importStep.
  destruct (heavyLookup _); simpl; try exact H; only_codes; exact H.
Qed.

Lemma importScan_codes :
  onlyCodes ["WRS_HEAVY_DEPENDENCY"] (snd (importScan doc)).
Proof.
  unfold importScan.
  generalize (matchAll false Patterns.importRegex (getText doc)).
  assert (H : onlyCodes ["WRS_HEAVY_DEPENDENCY"]
                (snd (Num 0, @nil Diagnostic))) by apply onlyCodes_nil.
  revert H. generalize (Num 0, @nil Diagnostic).
  intros acc H l. revert acc H.
  induction l as [|m l IH]; intros acc H; simpl; [exact H|].
  apply IH. now apply importStep_codes.
Qed.

Lemma bundleSizeRule_codes :
  onlyCodes ["WRS_JS_BUNDLE_SIZE_WARNING"; "WRS_JS_BUNDLE_SIZE_EXCEEDED"]
    (bundleSizeRule doc).
Proof. unfold bundleSizeRule. only_codes. Qed.

Lemma scriptRule_codes :
  onlyCodes ["PERF_SCRIPT_BLOCKING"] (scriptRule doc).
Proof.
  unfold scriptRule. apply onlyCodes_flat_map. intros m.
  unfold scriptStep. only_codes.
Qed.

Lemma scriptCountRule_codes :
  onlyCodes ["PERF_SCRIPT_COUNT_EXCEEDED"] (scriptCountRule config policy doc).
Proof. unfold scriptCountRule. only_codes. Qed.

Lemma preconnectRule_codes :
  onlyCodes ["PERF_PRECONNECT_MISSING"] (preconnectRule urlOrigin doc).
Proof. unfold preconnectRule. only_codes. Qed.

End RuleCodes.

Create HintDb rule_codes.
#[local] Hint Resolve titleRule_codes metaDescriptionRule_codes
  canonicalRule_codes jsonLdRule_codes openGraphRule_codes htmlSizeRule_codes
  domSizeRule_codes domDepthRule_codes headOrderRule_codes imgRule_codes
  nextImageRule_codes fontFaceRule_codes fontPreloadRule_codes
  importScan_codes bundleSizeRule_codes scriptRule_codes
  scriptCountRule_codes preconnectRule_codes : rule_codes.

(** A rule that cannot push the code pushes it zero times. *)
Ltac count0 :=
  eapply onlyCodes_count0;
  [ solve [eauto with rule_codes] | simpl; intuition discriminate ].

Lemma onlyCodes_in cs ds d :
  onlyCodes cs ds -> In d ds -> In (code d) cs.
Proof. intros H Hd. unfold onlyCodes in H. rewrite Forall_forall in H. auto. Qed.

(** A diagnostic of a rule that cannot push its code: absurd. *)
Ltac wrong_rule H E :=
  exfalso; eapply onlyCodes_in in H; [| solve [eauto with rule_codes]];
  rewrite E in H; simpl in H; intuition discriminate.

(** *** The gates of [scanDocument] *)

Lemma scanDocument_Some urlOrigin config policy doc ds :
  scanDocument urlOrigin config policy doc = Some ds ->
  ds = diagnosticsOf urlOrigin config policy doc
  /\ test false Patterns.supportedFile (fileName doc) = true
  /\ tooLarge doc = false.
Proof.
  unfold scanDocument.
  destruct (test false Patterns.supportedFile (fileName doc)); simpl;
    [|discriminate].
  destruct (tooLarge doc); [discriminate|].
  intros H. injection H as <-. auto.
Qed.

Lemma scanDocument_scanned urlOrigin config policy doc :
  test false Patterns.supportedFile (fileName doc) = true ->
  tooLarge doc = false ->
  scanDocument urlOrigin config policy doc
  = Some (diagnosticsOf urlOrigin config policy doc).
Proof. intros H1 H2. unfold scanDocument. now rewrite H1, H2. Qed.

Lemma byteLength_filler n : byteLength (filler n) = n.
Proof.
  unfold filler. rewrite <- (N2Nat.id n) at 2.
  induction (N.to_nat n) as [|k IH]; [reflexivity|].
  cbn [repeat byteLength]. change (97 <? 128) with true. cbv iota.
  rewrite IH. lia.
Qed.

(** In the whole list only the rule of a code counts for it. *)
Ltac count_others :=
  unfold diagnosticsOf; rewrite !countCode_app;
  repeat match goal with
  | |- context [countCode ?c ?r] =>
      let H := fresh in
      assert (H : countCode c r = 0%nat) by count0;
      rewrite H; clear H
  end; lia.

(** A diagnostic of the whole list, by the rule that pushed it. *)
Lemma in_diagnosticsOf urlOrigin config policy doc d :
  In d (diagnosticsOf urlOrigin config policy doc) ->
  In d (titleRule policy doc) \/ In d (metaDescriptionRule policy doc)
  \/ In d (canonicalRule config policy doc) \/ In d (jsonLdRule policy doc)
  \/ In d (openGraphRule doc) \/ In d (htmlSizeRule doc)
  \/ In d (domSizeRule doc) \/ In d (domDepthRule doc)
  \/ In d (headOrderRule doc) \/ In d (imgRule doc)
  \/ In d (nextImageRule doc) \/ In d (fontFaceRule doc)
  \/ In d (fontPreloadRule doc) \/ In d (snd (importScan doc))
  \/ In d (bundleSizeRule doc) \/ In d (scriptRule doc)
  \/ In d (scriptCountRule config policy doc)
  \/ In d (preconnectRule urlOrigin doc).
Proof. unfold diagnosticsOf. rewrite !in_app_iff. tauto. Qed.

Ltac by_rule H :=
  apply in_diagnosticsOf in H;
  repeat match type of H with _ \/ _ => destruct H as [H|H] end.

(** *** HTML payload size *)

(** The cascade of lines 273-312, by the byte length it is given. *)
Lemma htmlSizeRule_bands doc :
  let b := byteLength (getText doc) in
  map code (htmlSizeRule doc) =
    if b <=? 102400 then []
    else if b <=? 153600 then ["PERF_HTML_SIZE_LARGE"]
    else if b <=? 10240000 then ["PERF_HTML_SIZE_EXCESSIVE"]
    else if b <=? 14336000 then ["WRS_HTML_SIZE_APPROACHING_LIMIT"]
    else ["WRS_HTML_SIZE_APPROACHING_LIMIT"; "WRS_HTML_SIZE_CRITICAL"].
Proof.
  intros b. unfold htmlSizeRule, sizeKBgt, sizeKBle, htmlBytes. fold b.
  change (100 * 1024) with 102400. change (150 * 1024) with 153600.
  change (10000 * 1024) with 10240000. change (14000 * 1024) with 14336000.
  destruct (N.leb_spec b 102400);
    [ destruct (N.ltb_spec 102400 b); [lia|];
      destruct (N.ltb_spec 153600 b); [lia|];
      destruct (N.ltb_spec 10240000 b); [lia|];
      destruct (N.ltb_spec 14336000 b); [lia|]; reflexivity |].
  destruct (N.ltb_spec 102400 b); [|lia].
  destruct (N.leb_spec b 153600);
    [ destruct (N.ltb_spec 14336000 b); [lia|]; reflexivity |].
  destruct (N.ltb_spec 153600 b); [|lia].
  destruct (N.leb_spec b 10240000);
    [ destruct (N.ltb_spec 14336000 b); [lia|]; reflexivity |].
  destruct (N.ltb_spec 10240000 b); [|lia].
  destruct (N.leb_spec b 14336000);
    [ destruct (N.ltb_spec 14336000 b); [lia|]; reflexivity |].
  destruct (N.ltb_spec 14336000 b); [|lia]. reflexivity.
Qed.

Lemma countCode_size_approaching urlOrigin config policy doc :
  countCode "WRS_HTML_SIZE_APPROACHING_LIMIT"
    (diagnosticsOf urlOrigin config policy doc)
  = countCode "WRS_HTML_SIZE_APPROACHING_LIMIT" (htmlSizeRule doc).
Proof. count_others. Qed.

Lemma countCode_size_critical urlOrigin config policy doc :
  countCode "WRS_HTML_SIZE_CRITICAL"
    (diagnosticsOf urlOrigin config policy doc)
  = countCode "WRS_HTML_SIZE_CRITICAL" (htmlSizeRule doc).
Proof. count_others. Qed.

Lemma countCode_by_codes c ds :
  countCode c ds = count_occ string_dec (map code ds) c.
Proof.
  unfold countCode. induction ds as [|d ds IH]; [reflexivity|].
  cbn [filter map count_occ]. unfold hasCode at 1.
  destruct (String.eqb_spec (code d) c) as [E|E];
    destruct (string_dec (code d) c) as [E'|E']; try contradiction;
    cbn [length]; now rewrite IH.
Qed.

(** C1.  Every document of more than 500KB, so every document of more
    than 14MB, is skipped at the size gate: [scanDocument] returns before
    any diagnostic is built.  The cascade of lines 273-312, had it been
    reached with more than 14000KB, pushes exactly
    WRS_HTML_SIZE_APPROACHING_LIMIT and WRS_HTML_SIZE_CRITICAL; as it is,
    no document that is scanned gets either of them. *)
Theorem size_gate_hides_top_tiers urlOrigin config policy doc :
  (500 * 1024 < byteLength (getText doc) ->
   scanDocument urlOrigin config policy doc = None)
  /\ (14000 * 1024 < byteLength (getText doc) ->
      map code (htmlSizeRule doc)
      = ["WRS_HTML_SIZE_APPROACHING_LIMIT"; "WRS_HTML_SIZE_CRITICAL"])
  /\ (forall ds,
        scanDocument urlOrigin config policy doc = Some ds ->
        countCode "WRS_HTML_SIZE_APPROACHING_LIMIT" ds = 0%nat
        /\ countCode "WRS_HTML_SIZE_CRITICAL" ds = 0%nat).
Proof.
  assert (Gate : 500 * 1024 < byteLength (getText doc) ->
                 scanDocument urlOrigin config policy doc = None).
  { intros H. unfold scanDocument, tooLarge.
    destruct (test false Patterns.supportedFile (fileName doc)); cbn [negb];
      [|reflexivity].
    destruct (N.ltb_spec (500 * 1024) (byteLength (getText doc)));
      [reflexivity | lia]. }
  split; [exact Gate | split].
  - intros H. rewrite htmlSizeRule_bands. cbv zeta.
    repeat match goal with
    | |- context [?a <=? ?b] => destruct (N.leb_spec a b); try lia
    end.
    reflexivity.
  - intros ds Hs.
    assert (Small : byteLength (getText doc) <= 500 * 1024).
    { destruct (N.le_gt_cases (byteLength (getText doc)) (500 * 1024))
        as [L|G]; [exact L|].
      rewrite (Gate G) in Hs. discriminate Hs. }
    apply scanDocument_Some in Hs. destruct Hs as [-> _].
    rewrite countCode_size_approaching, countCode_size_critical.
    rewrite !countCode_by_codes, htmlSizeRule_bands. cbv zeta.
    repeat match goal with
    | |- context [?a <=? ?b] => destruct (N.leb_spec a b); try lia
    end; split; reflexivity.
Qed.

Lemma size_gate_hides_top_tiers_witness :
  let doc := mkDocument (u "big.html") (filler 15204352) in
  14000 * 1024 < byteLength (getText doc)
  /\ scanDocument noOrigin noSettings emptyPolicy doc = None
  /\ map code (htmlSizeRule doc)
     = ["WRS_HTML_SIZE_APPROACHING_LIMIT"; "WRS_HTML_SIZE_CRITICAL"]
  /\ scanDocument noOrigin noSettings emptyPolicy (pageWithTitle 5)
     = Some (diagnosticsOf noOrigin noSettings emptyPolicy (pageWithTitle 5))
  /\ countCode "WRS_HTML_SIZE_CRITICAL"
       (diagnosticsOf noOrigin noSettings emptyPolicy (pageWithTitle 5))
     = 0%nat.
Proof.
  intros doc.
  assert (H : 14000 * 1024 < byteLength (getText doc)).
  { unfold doc. cbn [getText mkDocument]. rewrite byteLength_filler. lia. }
  assert (S : scanDocument noOrigin noSettings emptyPolicy (pageWithTitle 5)
    = Some (diagnosticsOf noOrigin noSettings emptyPolicy (pageWithTitle 5)))
    by (vm_compute; reflexivity).
  destruct (size_gate_hides_top_tiers noOrigin noSettings emptyPolicy doc)
    as (Gate & Cascade & _).
  destruct (size_gate_hides_top_tiers noOrigin noSettings emptyPolicy
              (pageWithTitle 5)) as (_ & _ & Scanned).
  split; [exact H | split; [apply Gate; lia | split; [exact (Cascade H)|]]].
  split; [exact S | exact (proj2 (Scanned _ S))].
Defined.

(** *** Title length *)

Lemma countCode_title_length urlOrigin config policy doc :
  countCode "SEO_TITLE_LENGTH" (diagnosticsOf urlOrigin config policy doc)
  = countCode "SEO_TITLE_LENGTH" (titleRule policy doc).
Proof. count_others. Qed.

Lemma in_title_length urlOrigin config policy doc d :
  In d (diagnosticsOf urlOrigin config policy doc) ->
  code d = "SEO_TITLE_LENGTH" -> In d (titleRule policy doc).
Proof. intros H E. by_rule H; first [exact H | wrong_rule H E]. Qed.

(** The title rule when the document has a title element: one warning
    when the trimmed length is outside the interval, nothing otherwise. *)
Lemma titleRule_with_title policy doc n :
  trimmedTitleLength doc = Some n ->
  (within n (resolvedTitleMin policy) (resolvedTitleMax policy) = true ->
     titleRule policy doc = [])
  /\ (within n (resolvedTitleMin policy) (resolvedTitleMax policy) = false ->
     exists r msg_,
       titleRule policy doc
       = [buildDiagnostic r msg_ "SEO_TITLE_LENGTH" Warning]).
Proof.
  unfold trimmedTitleLength, titleRule.
  destruct (exec true Patterns.title (getText doc)) as [m|]; [|discriminate].
  intros H. injection H as <-. split; intros W; rewrite W.
  - reflexivity.
  - cbn [negb]. eauto.
Qed.

(** C2.  For a document that is scanned and has a title element, with
    the interval [titleMin, titleMax] of the policy not empty: a trimmed
    title of exactly titleMin or exactly titleMax characters gives no
    SEO_TITLE_LENGTH diagnostic; one of titleMin - 1 or titleMax + 1
    characters gives exactly one, a warning. *)
Theorem title_length_inclusive urlOrigin config policy doc ds n :
  scanDocument urlOrigin config policy doc = Some ds ->
  trimmedTitleLength doc = Some n ->
  let lo := resolvedTitleMin policy in
  let hi := resolvedTitleMax policy in
  ((lo <= hi)%Z -> n = lo \/ n = hi ->
     countCode "SEO_TITLE_LENGTH" ds = 0%nat)
  /\ (n = (lo - 1)%Z \/ n = (hi + 1)%Z ->
     countCode "SEO_TITLE_LENGTH" ds = 1%nat
     /\ forall d, In d ds -> code d = "SEO_TITLE_LENGTH" ->
                  severity d = Warning).
Proof.
  intros Hs Hm lo hi.
  apply scanDocument_Some in Hs. destruct Hs as [-> _].
  destruct (titleRule_with_title policy doc Hm) as [Hin Hout].
  fold lo hi in Hin, Hout.
  split.
  - intros Hle Hn. rewrite countCode_title_length, Hin; [reflexivity|].
    unfold within. destruct Hn as [-> | ->]; apply andb_true_intro; split;
      first [apply Z.geb_le | apply Z.leb_le]; lia.
  - intros Hn.
    assert (W : within n lo hi = false).
    { unfold within. apply andb_false_iff.
      destruct Hn as [-> | ->]; [left | right].
      - destruct (Z.geb_spec (lo - 1) lo); [lia | reflexivity].
      - apply Z.leb_gt. lia. }
    destruct (Hout W) as (r & msg_ & E). split.
    + rewrite countCode_title_length, E. reflexivity.
    + intros d Hd Hc. apply in_title_length in Hd; [|exact Hc].
      rewrite E in Hd. destruct Hd as [<- | []]. reflexivity.
Qed.

Lemma title_length_inclusive_witness :
  (scanDocument noOrigin noSettings emptyPolicy (pageWithTitle 30)
   = Some (diagnosticsOf noOrigin noSettings emptyPolicy (pageWithTitle 30))
   /\ trimmedTitleLength (pageWithTitle 30) = Some 30%Z
   /\ countCode "SEO_TITLE_LENGTH"
        (diagnosticsOf noOrigin noSettings emptyPolicy (pageWithTitle 30))
      = 0%nat)
  /\ (scanDocument noOrigin noSettings emptyPolicy (pageWithTitle 61)
      = Some (diagnosticsOf noOrigin noSettings emptyPolicy (pageWithTitle 61))
      /\ trimmedTitleLength (pageWithTitle 61) = Some 61%Z
      /\ countCode "SEO_TITLE_LENGTH"
           (diagnosticsOf noOrigin noSettings emptyPolicy (pageWithTitle 61))
         = 1%nat).
Proof.
  assert (S30 : scanDocument noOrigin noSettings emptyPolicy (pageWithTitle 30)
    = Some (diagnosticsOf noOrigin noSettings emptyPolicy (pageWithTitle 30)))
    by (vm_compute; reflexivity).
  assert (L30 : trimmedTitleLength (pageWithTitle 30) = Some 30%Z)
    by (vm_compute; reflexivity).
  assert (S61 : scanDocument noOrigin noSettings emptyPolicy (pageWithTitle 61)
    = Some (diagnosticsOf noOrigin noSettings emptyPolicy (pageWithTitle 61)))
    by (vm_compute; reflexivity).
  assert (L61 : trimmedTitleLength (pageWithTitle 61) = Some 61%Z)
    by (vm_compute; reflexivity).
  split; (split; [assumption | split; [assumption|]]).
  - apply (proj1 (title_length_inclusive _ _ _ _ S30 L30)).
    + vm_compute. discriminate.
    + left. reflexivity.
  - apply (proj2 (title_length_inclusive _ _ _ _ S61 L61)).
    right. reflexivity.
Defined.

(** The page [<head><title>Short</title></head>] under the default
    policy: one title-length warning, no missing-title warning. *)
Example short_title_page :
  option_map (map code)
    (scanDocument noOrigin noSettings emptyPolicy
       (mkDocument (u "index.html") (u "<head><title>Short</title></head>")))
  = Some ["SEO_TITLE_LENGTH"; "SEO_META_DESC_MISSING";
          "SEO_CANONICAL_MISSING"; "SEO_OG_TAGS_MISSING"].
Proof. vm_compute. reflexivity. Qed.

(** *** Open Graph *)

Lemma countCode_og urlOrigin config policy doc :
  countCode "SEO_OG_TAGS_MISSING" (diagnosticsOf urlOrigin config policy doc)
  = countCode "SEO_OG_TAGS_MISSING" (openGraphRule doc).
Proof. count_others. Qed.

Lemma in_og urlOrigin config policy doc d :
  In d (diagnosticsOf urlOrigin config policy doc) ->
  code d = "SEO_OG_TAGS_MISSING" -> In d (openGraphRule doc).
Proof. intros H E. by_rule H; first [exact H | wrong_rule H E]. Qed.

(** The missing tags are the tags whose pattern finds nothing, in the
    order of the four. *)
Lemma missingOg_spec doc :
  missingOg doc
  = map u (filter (fun name =>
                     negb (test true (Patterns.og name) (getText doc)))
                  ogNames).
Proof.
  unfold missingOg, ogTags. fold ogNames.
  induction ogNames as [|name l IH]; [reflexivity|].
  cbn [map filter snd].
  destruct (test true (Patterns.og name) (getText doc)); cbn [negb map fst];
    now rewrite IH.
Qed.

(** C7.  For a document that is scanned and has a head section: when at
    least 3 of the 4 og: tags are missing there is exactly one
    SEO_OG_TAGS_MISSING finding, an information whose message lists the
    missing tags, which are exactly the tags whose pattern finds nothing;
    when at most 2 are missing (so with exactly 2 present) there is none. *)
Theorem open_graph_threshold urlOrigin config policy doc ds :
  scanDocument urlOrigin config policy doc = Some ds ->
  test true Patterns.headOpen (getText doc) = true ->
  let missing :=
    map u (filter (fun name =>
                     negb (test true (Patterns.og name) (getText doc)))
                  ogNames) in
  ((3 <= length missing)%nat ->
     countCode "SEO_OG_TAGS_MISSING" ds = 1%nat
     /\ forall d, In d ds -> code d = "SEO_OG_TAGS_MISSING" ->
          severity d = Information /\ message d = ogMessage missing)
  /\ ((length missing < 3)%nat ->
      countCode "SEO_OG_TAGS_MISSING" ds = 0%nat).
Proof.
  intros Hs Hh missing.
  apply scanDocument_Some in Hs. destruct Hs as [-> _].
  assert (E : openGraphRule doc =
    if (3 <=? length missing)%nat then
      [buildDiagnostic startRange (ogMessage missing)
         "SEO_OG_TAGS_MISSING" Information]
    else []).
  { unfold openGraphRule. rewrite Hh, missingOg_spec. fold missing.
    rewrite andb_true_r. reflexivity. }
  split.
  - intros H3. apply Nat.leb_le in H3. rewrite H3 in E. split.
    + rewrite countCode_og, E. reflexivity.
    + intros d Hd Hc. apply in_og in Hd; [|exact Hc].
      rewrite E in Hd. destruct Hd as [<- | []]. split; reflexivity.
  - intros H2. apply Nat.leb_gt in H2. rewrite H2 in E.
    rewrite countCode_og, E. reflexivity.
Qed.

Lemma open_graph_threshold_witness :
  let two := pageWithHead "index.html"
    ["<meta property='og:title' content='T'>";
     "<meta property='og:image' content='i.png'>"] in
  let one := pageWithHead "index.html"
    ["<meta property='og:url' content='https://e.org/'>"] in
  (scanDocument noOrigin noSettings emptyPolicy two
   = Some (diagnosticsOf noOrigin noSettings emptyPolicy two)
   /\ test true Patterns.headOpen (getText two) = true
   /\ countCode "SEO_OG_TAGS_MISSING"
        (diagnosticsOf noOrigin noSettings emptyPolicy two) = 0%nat)
  /\ (scanDocument noOrigin noSettings emptyPolicy one
      = Some (diagnosticsOf noOrigin noSettings emptyPolicy one)
      /\ test true Patterns.headOpen (getText one) = true
      /\ countCode "SEO_OG_TAGS_MISSING"
           (diagnosticsOf noOrigin noSettings emptyPolicy one) = 1%nat).
Proof.
  intros two one.
  assert (S2 : scanDocument noOrigin noSettings emptyPolicy two
    = Some (diagnosticsOf noOrigin noSettings emptyPolicy two))
    by (vm_compute; reflexivity).
  assert (H2 : test true Patterns.headOpen (getText two) = true)
    by (vm_compute; reflexivity).
  assert (S1 : scanDocument noOrigin noSettings emptyPolicy one
    = Some (diagnosticsOf noOrigin noSettings emptyPolicy one))
    by (vm_compute; reflexivity).
  assert (H1 : test true Patterns.headOpen (getText one) = true)
    by (vm_compute; reflexivity).
  split; (split; [assumption | split; [assumption|]]).
  - apply (proj2 (open_graph_threshold _ _ _ _ S2 H2)).
    vm_compute. lia.
  - apply (proj1 (open_graph_threshold _ _ _ _ S1 H1)).
    vm_compute. lia.
Defined.

(** *** Missing title *)

Lemma countCode_title_missing urlOrigin config policy doc :
  countCode "SEO_TITLE_MISSING" (diagnosticsOf urlOrigin config policy doc)
  = countCode "SEO_TITLE_MISSING" (titleRule policy doc).
Proof. count_others. Qed.

Lemma isNextJs_next_head doc :
  includes (getText doc) (u "next/head") = true -> isNextJs doc = true.
Proof. intros H. unfold isNextJs. now rewrite H. Qed.

(** C8.  For a document that is scanned: SEO_TITLE_MISSING is pushed,
    once, exactly when there is no title element, there is a head section,
    the text has none of the Next.js markers and the file is not a .jsx or
    .tsx file; so a file that contains next/head and has no title element
    gets none. *)
Theorem title_missing_suppression urlOrigin config policy doc ds :
  scanDocument urlOrigin config policy doc = Some ds ->
  let conditions :=
    match exec true Patterns.title (getText doc) with
    | Some _ => false
    | None => test true Patterns.headOpen (getText doc)
              && negb (isNextJs doc) && negb (isJsxFile doc)
    end in
  countCode "SEO_TITLE_MISSING" ds = (if conditions then 1 else 0)%nat
  /\ (includes (getText doc) (u "next/head") = true ->
      countCode "SEO_TITLE_MISSING" ds = 0%nat).
Proof.
  intros Hs conditions.
  apply scanDocument_Some in Hs. destruct Hs as [-> _].
  assert (E : countCode "SEO_TITLE_MISSING" (titleRule policy doc)
              = (if conditions then 1 else 0)%nat).
  { unfold titleRule, conditions.
    destruct (exec true Patterns.title (getText doc)) as [m|].
    - destruct (negb _); reflexivity.
    - destruct (_ && _); reflexivity. }
  rewrite countCode_title_missing, E. split; [reflexivity|].
  intros Hn. apply isNextJs_next_head in Hn. unfold conditions.
  destruct (exec true Patterns.title (getText doc)); [reflexivity|].
  rewrite Hn. cbn [negb]. rewrite andb_false_r. reflexivity.
Qed.

Lemma title_missing_suppression_witness :
  let page := mkDocument (u "pages/index.js")
    (u "import Head from 'next/head'; export default () => <Head><head></head></Head>") in
  scanDocument noOrigin noSettings emptyPolicy page
  = Some (diagnosticsOf noOrigin noSettings emptyPolicy page)
  /\ includes (getText page) (u "next/head") = true
  /\ countCode "SEO_TITLE_MISSING"
       (diagnosticsOf noOrigin noSettings emptyPolicy page) = 0%nat.
Proof.
  intros page.
  assert (S : scanDocument noOrigin noSettings emptyPolicy page
    = Some (diagnosticsOf noOrigin noSettings emptyPolicy page))
    by (vm_compute; reflexivity).
  assert (N : includes (getText page) (u "next/head") = true)
    by (vm_compute; reflexivity).
  split; [exact S | split; [exact N|]].
  exact (proj2 (title_missing_suppression _ _ _ _ S) N).
Defined.

(** *** Policy fields that are never read *)

(** C10.  Two policies that agree on every field but perf.lcpImageKB and
    perf.requireFontDisplaySwap give the same result on every document:
    the two fields have no effect, on the font rules or elsewhere. *)
Theorem unused_policy_fields urlOrigin config p1 p2 doc :
  agreeOffLcpAndFontSwap p1 p2 ->
  scanDocument urlOrigin config p1 doc = scanDocument urlOrigin config p2 doc.
Proof.
  intros [Hseo Hperf].
  unfold scanDocument, diagnosticsOf, titleRule, metaDescriptionRule,
    canonicalRule, jsonLdRule, scriptCountRule, resolvedTitleMin,
    resolvedTitleMax, resolvedDescMin, resolvedDescMax,
    resolvedRequireCanonical, resolvedMaxTP.
  rewrite Hseo, Hperf. reflexivity.
Qed.

Lemma unused_policy_fields_witness :
  let p1 := withLcpAndFontSwap (Some 350%Z) (Some true) emptyPolicy in
  let p2 := withLcpAndFontSwap (Some 1%Z) (Some false) emptyPolicy in
  let page := mkDocument (u "fonts.html")
    (u "<style>@font-face { font-family: F; src: url(f.woff2); }</style>") in
  agreeOffLcpAndFontSwap p1 p2
  /\ scanDocument noOrigin noSettings p1 page
     = scanDocument noOrigin noSettings p2 page
  /\ emits "PERF_FONT_DISPLAY_MISSING"
       (diagnosticsOf noOrigin noSettings p2 page).
Proof.
  intros p1 p2 page.
  assert (A : agreeOffLcpAndFontSwap p1 p2) by (split; reflexivity).
  split; [exact A | split].
  - exact (unused_policy_fields noOrigin noSettings page A).
  - apply emits_existsb. vm_compute. reflexivity.
Defined.

(** *** Ranges *)

Lemma lineLengthsFrom_head s : forall cur,
  exists len rest_, lineLengthsFrom s cur = len :: rest_ /\ (cur <= len)%nat.
Proof.
  induction s as [|c s IH]; intros cur; cbn [lineLengthsFrom].
  - eauto.
  - destruct (c =? 10); [eauto|].
    destruct (c =? 13).
    + destruct s as [|d s']; [eauto|]. destruct (d =? 10); eauto.
    + destruct (IH (S cur)) as (len & r & E & L).
      exists len, r. split; [exact E | lia].
Qed.

(** The position computed for an offset is on a line of the text, at most
    at its end. *)
Lemma positionFrom_valid n : forall s, (length s <= n)%nat ->
  forall off ln col,
  exists i len,
    line (positionFrom s off ln col) = (ln + i)%nat
    /\ nth_error (lineLengthsFrom s col) i = Some len
    /\ (character (positionFrom s off ln col) <= len)%nat.
Proof.
  assert (Stay : forall s ln col,
    exists i len,
      line (mkPosition ln col) = (ln + i)%nat
      /\ nth_error (lineLengthsFrom s col) i = Some len
      /\ (character (mkPosition ln col) <= len)%nat).
  { intros s ln col. destruct (lineLengthsFrom_head s col) as (len & r & E & L).
    exists 0%nat, len. rewrite E. cbn. repeat split; [lia | exact L]. }
  assert (Next : forall (t : jsstring) cur p ln,
    (exists i len,
       line p = (S ln + i)%nat
       /\ nth_error (lineLengthsFrom t 0) i = Some len
       /\ (character p <= len)%nat) ->
    exists i len,
      line p = (ln + i)%nat
      /\ nth_error (cur :: lineLengthsFrom t 0) i = Some len
      /\ (character p <= len)%nat).
  { intros t cur p ln (i & len & E1 & E2 & E3).
    exists (S i), len. repeat split; [lia | exact E2 | exact E3]. }
  induction n as [|n IH]; intros s Hlen off ln col.
  - destruct s; [|simpl in Hlen; lia].
    destruct off; apply Stay.
  - destruct s as [|c s]; [destruct off; apply Stay|].
    destruct off as [|off]; [apply Stay|].
    simpl in Hlen. cbn [positionFrom lineLengthsFrom].
    destruct (c =? 10).
    { apply Next. apply IH. lia. }
    destruct (c =? 13).
    + destruct s as [|d s'].
      { apply Next. apply IH. simpl. lia. }
      destruct (d =? 10) eqn:Ed.
      * destruct off as [|off'].
        -- exists 0%nat, col. cbn. repeat split; lia.
        -- apply Next. apply IH. simpl in Hlen. lia.
      * apply Next. apply IH. lia.
    + destruct (IH s ltac:(lia) off ln (S col)) as (i & len & E1 & E2 & E3).
      exists i, len. repeat split; assumption.
Qed.

Lemma mkDocument_wellFormed name text : wellFormed (mkDocument name text).
Proof.
  intros off. unfold validPosition, lineLengths. cbn [getText positionAt mkDocument].
  destruct (positionFrom_valid (n := length text) text (le_n _) off 0 0)
    as (i & len & E1 & E2 & E3).
  exists len. rewrite E1. split; assumption.
Qed.

Lemma mkRange_valid text a b :
  validPosition text a -> validPosition text b -> validRange text (mkRange a b).
Proof.
  intros Ha Hb. unfold mkRange. destruct (isBefore b a); split; assumption.
Qed.

Lemma matchRange_valid doc m :
  wellFormed doc -> validRange (getText doc) (matchRange doc m).
Proof. intros W. apply mkRange_valid; apply W. Qed.

(** The fixed range is inside the text exactly when the first line has a
    character. *)
Lemma startRange_valid text :
  validRange text startRange <-> (1 <= firstLineLength text)%nat.
Proof.
  unfold validRange, validPosition, firstLineLength, lineLengths.
  cbn [startRange mkRange isBefore rstart rend line character].
  destruct (lineLengthsFrom_head text 0) as (len & r & E & _).
  rewrite E. cbn. split.
  - intros [_ [l [H1 H2]]]. injection H1 as <-. exact H2.
  - intros H. split; exists len; split; [reflexivity | lia | reflexivity | exact H].
Qed.

Lemma rangesOk_nil doc : rangesOk doc [].
Proof. constructor. Qed.

Lemma rangesOk_app doc ds1 ds2 :
  rangesOk doc ds1 -> rangesOk doc ds2 -> rangesOk doc (ds1 ++ ds2).
Proof. intros H1 H2. apply Forall_app. now split. Qed.

Lemma rangesOk_start doc m c s :
  rangesOk doc [buildDiagnostic startRange m c s].
Proof. constructor; [left; reflexivity | constructor]. Qed.

Lemma rangesOk_valid doc r m c s :
  validRange (getText doc) r -> rangesOk doc [buildDiagnostic r m c s].
Proof. intros H. constructor; [right; exact H | constructor]. Qed.

Lemma rangesOk_flat_map doc (f : rmatchres -> list Diagnostic) l :
  (forall x, rangesOk doc (f x)) -> rangesOk doc (flat_map f l).
Proof.
  intros H. induction l as [|x l IH]; simpl.
  - constructor.
  - apply rangesOk_app; [apply H | exact IH].
Qed.

(** Solves [rangesOk doc ds] for a rule, given that the document is well
    formed. *)
Ltac ranges_ok W :=
  repeat match goal with
  | |- rangesOk _ [] => apply rangesOk_nil
  | |- rangesOk _ (_ ++ _) => apply rangesOk_app
  | |- rangesOk _ [buildDiagnostic startRange _ _ _] => apply rangesOk_start
  | |- rangesOk _ [buildDiagnostic (matchRange _ _) _ _ _] =>
      apply rangesOk_valid, matchRange_valid, W
  | |- rangesOk _ [buildDiagnostic (mkRange _ _) _ _ _] =>
      apply rangesOk_valid, mkRange_valid; apply W
  | |- rangesOk _ (if ?b then _ else _) => destruct b
  | |- rangesOk _ (match ?x with _ => _ end) => destruct x
  end.

Lemma importScan_ranges doc :
  wellFormed doc -> rangesOk doc (snd (importScan doc)).
Proof.
  intros W. unfold importScan.
  generalize (matchAll false Patterns.importRegex (getText doc)).
  assert (H : rangesOk doc (snd (Num 0, @nil Diagnostic)))
    by apply rangesOk_nil.
  revert H. generalize (Num 0, @nil Diagnostic).
  intros acc H l. revert acc H.
  induction l as [|m l IH]; intros acc H; simpl; [exact H|].
  apply IH. unfold importStep.
  destruct (heavyLookup _); simpl; try exact H;
    (apply rangesOk_app; [exact H | ranges_ok W]).
Qed.

Lemma diagnosticsOf_ranges urlOrigin config policy doc :
  wellFormed doc ->
  rangesOk doc (diagnosticsOf urlOrigin config policy doc).
Proof.
  intros W. unfold diagnosticsOf, rangesOk. rewrite !Forall_app.
  repeat split;
    match goal with |- Forall _ ?l => change (rangesOk doc l) end.
  - unfold titleRule. ranges_ok W.
  - unfold metaDescriptionRule. ranges_ok W.
  - unfold canonicalRule. ranges_ok W.
  - unfold jsonLdRule. ranges_ok W.
  - unfold openGraphRule. ranges_ok W.
  - unfold htmlSizeRule. ranges_ok W.
  - unfold domSizeRule. ranges_ok W.
  - unfold domDepthRule. ranges_ok W.
  - unfold headOrderRule. ranges_ok W.
  - unfold imgRule. apply rangesOk_flat_map. intros m.
    unfold imgStep. ranges_ok W.
  - unfold nextImageRule. apply rangesOk_flat_map. intros m.
    unfold nextImageStep. ranges_ok W.
  - unfold fontFaceRule. apply rangesOk_flat_map. intros m.
    unfold fontFaceStep. ranges_ok W.
  - unfold fontPreloadRule. ranges_ok W.
  - now apply importScan_ranges.
  - unfold bundleSizeRule. ranges_ok W.
  - unfold scriptRule. apply rangesOk_flat_map. intros m.
    unfold scriptStep. ranges_ok W.
  - unfold scriptCountRule. ranges_ok W.
  - unfold preconnectRule. ranges_ok W.
Qed.

(** C9, as the code has it.  For a document whose [positionAt] keeps its
    contract and that is scanned: the range of every diagnostic is the
    fixed start-of-document range or lies within the text; the fixed range
    lies within the text exactly when the first line has at least one
    character; so in such a document every range lies within the text. *)
Theorem ranges_within_bounds urlOrigin config policy doc ds :
  wellFormed doc ->
  scanDocument urlOrigin config policy doc = Some ds ->
  (forall d, In d ds ->
     range d = startRange \/ validRange (getText doc) (range d))
  /\ (validRange (getText doc) startRange
      <-> (1 <= firstLineLength (getText doc))%nat)
  /\ ((1 <= firstLineLength (getText doc))%nat ->
      forall d, In d ds -> validRange (getText doc) (range d)).
Proof.
  intros W Hs. apply scanDocument_Some in Hs. destruct Hs as [-> _].
  pose proof (diagnosticsOf_ranges urlOrigin config policy W) as R.
  unfold rangesOk in R. rewrite Forall_forall in R.
  split; [exact R | split; [apply startRange_valid|]].
  intros L d Hd. destruct (R d Hd) as [E | V]; [|exact V].
  rewrite E. now apply startRange_valid.
Qed.

Lemma ranges_within_bounds_witness :
  wellFormed (pageWithTitle 5)
  /\ scanDocument noOrigin noSettings emptyPolicy (pageWithTitle 5)
     = Some (diagnosticsOf noOrigin noSettings emptyPolicy (pageWithTitle 5))
  /\ (1 <= firstLineLength (getText (pageWithTitle 5)))%nat
  /\ forall d,
       In d (diagnosticsOf noOrigin noSettings emptyPolicy (pageWithTitle 5)) ->
       validRange (getText (pageWithTitle 5)) (range d).
Proof.
  assert (W : wellFormed (pageWithTitle 5)) by apply mkDocument_wellFormed.
  assert (S : scanDocument noOrigin noSettings emptyPolicy (pageWithTitle 5)
    = Some (diagnosticsOf noOrigin noSettings emptyPolicy (pageWithTitle 5)))
    by (vm_compute; reflexivity).
  assert (L : (1 <= firstLineLength (getText (pageWithTitle 5)))%nat)
    by (vm_compute; lia).
  split; [exact W | split; [exact S | split; [exact L|]]].
  exact (proj2 (proj2 (@ranges_within_bounds _ _ _ _ _ W S)) L).
Defined.

(** C9, as stated, fails on the empty document: the scan gives it the
    missing-description warning at line 0, characters 0 to 1, and the text
    has no character. *)
Lemma range_outside_empty_document :
  wellFormed emptyPage
  /\ scanDocument noOrigin noSettings emptyPolicy emptyPage
     = Some (diagnosticsOf noOrigin noSettings emptyPolicy emptyPage)
  /\ ~ (forall d,
          In d (diagnosticsOf noOrigin noSettings emptyPolicy emptyPage) ->
          validRange (getText emptyPage) (range d)).
Proof.
  split; [apply mkDocument_wellFormed | split; [vm_compute; reflexivity|]].
  intros H.
  assert (Hd : In (buildDiagnostic startRange
      (msg "Missing meta description. Add a 50–160 character description to improve click‑through rate.")
      "SEO_META_DESC_MISSING" Warning)
      (diagnosticsOf noOrigin noSettings emptyPolicy emptyPage)).
  { vm_compute. left. reflexivity. }
  apply H in Hd. cbn [range buildDiagnostic] in Hd.
  apply startRange_valid in Hd. vm_compute in Hd. lia.
Qed.

(** *** Policy resolution *)

Lemma str_eqb_eq a b : str_eqb a b = true <-> a = b.
Proof.
  unfold str_eqb. destruct (list_eq_dec N.eq_dec a b); split; congruence.
Qed.

Lemma str_eqb_refl a : str_eqb a a = true.
Proof. now apply str_eqb_eq. Qed.

Lemma str_eqb_neq a b : a <> b -> str_eqb a b = false.
Proof.
  intros H. destruct (str_eqb a b) eqn:E; [|reflexivity].
  apply str_eqb_eq in E. contradiction.
Qed.

Lemma assoc_assocSet_same (A : Type) k (v : A) l :
  assoc k (Raw.assocSet k v l) = Some v.
Proof.
  induction l as [|[k' v'] l IH]; cbn [Raw.assocSet assoc].
  - now rewrite str_eqb_refl.
  - destruct (str_eqb k k') eqn:E; cbn [assoc].
    + now rewrite str_eqb_refl.
    + now rewrite E.
Qed.

Lemma assoc_assocSet_other (A : Type) k k' (v : A) l :
  k <> k' -> assoc k (Raw.assocSet k' v l) = assoc k l.
Proof.
  intros H. induction l as [|[k2 v2] l IH]; cbn [Raw.assocSet assoc].
  - now rewrite (str_eqb_neq H).
  - destruct (str_eqb k' k2) eqn:E; cbn [assoc].
    + apply str_eqb_eq in E. subst k2. now rewrite (str_eqb_neq H).
    + now rewrite IH.
Qed.

Module RawFacts.
Import Raw.

(** A field of a policy object resolves to the value supplied for it, or
    to its default. *)
Lemma resolveField_object section key dflt fields :
  resolveField section key dflt (JObj fields)
  = Some (orDefault dflt (supplied fields section key)).
Proof.
  unfold resolveField, supplied, optMember. cbn [member].
  destruct (assoc section fields) as [[| | | | |sf]|]; try reflexivity.
  cbn [member]. destruct (assoc key sf) as [[]|]; reflexivity.
Qed.

(** A policy that is not null and not an object has no field. *)
Lemma resolveField_primitive section key dflt j :
  isPrimitiveOrArray j = true ->
  resolveField section key dflt j = Some dflt.
Proof. destruct j; try discriminate; reflexivity. Qed.

(** On a policy of the declared type the reads of this layer are the
    reads of [scanDocument]. *)
Lemma reads_of_typed_policy config p :
  readTitleMin (encode p) = Some (JNum (resolvedTitleMin p))
  /\ readTitleMax (encode p) = Some (JNum (resolvedTitleMax p))
  /\ readMetaDescriptionMin (encode p) = Some (JNum (resolvedDescMin p))
  /\ readMetaDescriptionMax (encode p) = Some (JNum (resolvedDescMax p))
  /\ readRequireCanonical config (encode p)
     = Some (JBool (resolvedRequireCanonical config p))
  /\ readMaxThirdPartyScriptsPerPage config (encode p)
     = Some (JNum (resolvedMaxTP config p)).
Proof.
  destruct p as [s pf]. repeat split.
  1-5: destruct s as [[[a|] [b|] [c|] [d|] [e|] [f|]]|];
    destruct pf as [pf|]; reflexivity.
  destruct s as [s|]; destruct pf as [[[g|] [h|] [i|]]|]; reflexivity.
Qed.

Lemma readRequireJsonLdFor_typed p :
  readRequireJsonLdFor (encode p)
  = Some (JArr (map JStr (nullish (optChain (seo p) requireJsonLdFor) []))).
Proof.
  destruct p as [s pf].
  destruct s as [[[a|] [b|] [c|] [d|] [e|] [f|]]|];
    destruct pf as [pf|]; reflexivity.
Qed.

End RawFacts.

Lemma convertible_orDefault fields section key dflt :
  suppliedConvertible fields section key = true ->
  RawScan.convertible dflt = true ->
  RawScan.convertible (orDefault dflt (supplied fields section key)) = true.
Proof.
  unfold suppliedConvertible, orDefault.
  destruct (supplied fields section key) as [[]|]; auto.
Qed.

Lemma not_convertible_orDefault fields section key dflt :
  suppliedConvertible fields section key = false ->
  RawScan.convertible (orDefault dflt (supplied fields section key)) = false.
Proof.
  unfold suppliedConvertible, orDefault.
  destruct (supplied fields section key) as [[]|]; auto; discriminate.
Qed.

(** Unfolds the reads of a run on a policy object. *)
Ltac object_reads :=
  unfold RawScan.pastTheGates, Raw.readTitleMin, Raw.readTitleMax,
    Raw.readMetaDescriptionMin, Raw.readMetaDescriptionMax,
    Raw.readRequireCanonical, Raw.readRequireJsonLdFor,
    Raw.readMaxThirdPartyScriptsPerPage;
  rewrite !RawFacts.resolveField_object; cbn [RawScan.declare].

Section RawRun.

Variable urlOrigin : jsstring -> option jsstring.
Variable config : Configuration.
Variable js : RawScan.Conversions.
Variable doc : TextDocument.

Lemma withinValues_converts n min max :
  RawScan.convertible min = true -> RawScan.convertible max = true ->
  RawScan.withinValues js n min max
  = Some (RawScan.geValue js n min && RawScan.leValue js n max).
Proof.
  intros Hmin Hmax. unfold RawScan.withinValues, RawScan.compared.
  rewrite Hmin, Hmax. destruct (RawScan.geValue js n min); reflexivity.
Qed.

Lemma titleRule_converts min max :
  RawScan.convertible min = true -> RawScan.convertible max = true ->
  exists ds, RawScan.titleRule js doc min max = Some ds.
Proof.
  intros Hmin Hmax. unfold RawScan.titleRule. cbv zeta.
  destruct (exec true Patterns.title (getText doc)); [|eauto].
  rewrite withinValues_converts by assumption.
  unfold RawScan.inTemplate. rewrite Hmin, Hmax.
  destruct (_ && _); eauto.
Qed.

Lemma metaDescriptionRule_converts min max :
  RawScan.convertible min = true -> RawScan.convertible max = true ->
  exists ds, RawScan.metaDescriptionRule js doc min max = Some ds.
Proof.
  intros Hmin Hmax. unfold RawScan.metaDescriptionRule. cbv zeta.
  destruct (exec true Patterns.metaDescription (getText doc)); [|eauto].
  rewrite withinValues_converts by assumption.
  unfold RawScan.inTemplate. rewrite Hmin, Hmax.
  destruct (_ && _); eauto.
Qed.

Lemma scriptCountRule_converts maxTP :
  RawScan.convertible maxTP = true ->
  exists ds, RawScan.scriptCountRule js doc maxTP = Some ds.
Proof.
  intros H. unfold RawScan.scriptCountRule, RawScan.compared,
    RawScan.inTemplate. rewrite H.
  destruct (RawScan.gtValue js _ maxTP); eauto.
Qed.

(** The comparison of line 634 is reached by every run that comes to it:
    it throws on a value that is not convertible. *)
Lemma scriptCountRule_throws maxTP :
  RawScan.convertible maxTP = false ->
  RawScan.scriptCountRule js doc maxTP = None.
Proof.
  intros H. unfold RawScan.scriptCountRule, RawScan.compared. now rewrite H.
Qed.

(** The call of [includes] throws exactly on an object with a truthy
    length. *)
Lemma jsonLdRule_throws requireTypes :
  RawScan.jsonLdRule doc requireTypes = None
  <-> objectWithLength requireTypes = true.
Proof.
  unfold RawScan.jsonLdRule, objectWithLength.
  destruct requireTypes as [| b | z | s | items | fields];
    cbn [RawScan.lengthTruthy RawScan.includesOf];
    try (split; [discriminate | discriminate]).
  - destruct s; split; discriminate.
  - destruct items; split; discriminate.
  - destruct (assoc (u "length") fields) as [l|]; [|split; discriminate].
    destruct (RawScan.truthy l); split; try discriminate; reflexivity.
Qed.

(** Past the gates, on a usable policy object, every constant is declared
    with the value its field resolves to, and the run reaches
    [collection.set]. *)
Lemma pastTheGates_usable fields :
  usable fields = true ->
  RawScan.consts (RawScan.pastTheGates urlOrigin config js (Raw.JObj fields) doc)
  = resolution config fields
  /\ exists ds,
       RawScan.outcome
         (RawScan.pastTheGates urlOrigin config js (Raw.JObj fields) doc)
       = RawScan.SetDiagnostics ds.
Proof.
  intros U. unfold usable in U. rewrite !andb_true_iff in U.
  destruct U as (((((C1 & C2) & C3) & C4) & C5) & T).
  unfold typesUsable in T. apply negb_true_iff in T.
  object_reads.
  destruct (@titleRule_converts _ _
              (@convertible_orDefault fields _ _ (Raw.JNum 30) C1 eq_refl)
              (@convertible_orDefault fields _ _ (Raw.JNum 60) C2 eq_refl))
    as [d1 ->].
  destruct (@metaDescriptionRule_converts _ _
              (@convertible_orDefault fields _ _ (Raw.JNum 50) C3 eq_refl)
              (@convertible_orDefault fields _ _ (Raw.JNum 160) C4 eq_refl))
    as [d2 ->].
  destruct (RawScan.jsonLdRule doc
              (orDefault (Raw.JArr [])
                 (supplied fields (u "seo") (u "requireJsonLdFor"))))
    as [jsonLd|] eqn:E; [|apply jsonLdRule_throws in E; congruence].
  destruct (@scriptCountRule_converts _
              (@convertible_orDefault fields _ _
                 (Raw.JNum (nullish (kanmi_maxThirdPartyScriptsPerPage config)
                              6%Z)) C5 eq_refl))
    as [d5 ->].
  cbn [RawScan.pushes RawScan.declare RawScan.consts RawScan.outcome].
  split; [reflexivity | eauto].
Qed.

(** When the value of requireJsonLdFor is an object with a truthy length,
    the run throws, at the call of [includes] if not before, and maxTP
    is not declared. *)
Lemma pastTheGates_types_throw fields :
  typesUsable fields = false ->
  let run := RawScan.pastTheGates urlOrigin config js (Raw.JObj fields) doc in
  RawScan.outcome run = RawScan.Threw
  /\ constant "maxTP" (RawScan.consts run) = None.
Proof.
  intros U run. unfold typesUsable in U. apply negb_false_iff in U.
  apply jsonLdRule_throws in U. unfold run. object_reads.
  destruct (RawScan.titleRule js doc _ _); cbn [RawScan.pushes];
    [|split; reflexivity].
  cbn [RawScan.declare].
  destruct (RawScan.metaDescriptionRule js doc _ _); cbn [RawScan.pushes];
    [|split; reflexivity].
  cbn [RawScan.declare]. rewrite U. split; reflexivity.
Qed.

(** When the value of maxThirdPartyScriptsPerPage is not convertible, the
    run throws, at the comparison of line 634 if not before. *)
Lemma pastTheGates_budget_throws fields :
  suppliedConvertible fields (u "perf") (u "maxThirdPartyScriptsPerPage")
  = false ->
  RawScan.outcome
    (RawScan.pastTheGates urlOrigin config js (Raw.JObj fields) doc)
  = RawScan.Threw.
Proof.
  intros C. object_reads.
  destruct (RawScan.titleRule js doc _ _); cbn [RawScan.pushes];
    [|reflexivity].
  cbn [RawScan.declare].
  destruct (RawScan.metaDescriptionRule js doc _ _); cbn [RawScan.pushes];
    [|reflexivity].
  cbn [RawScan.declare].
  destruct (RawScan.jsonLdRule doc _); cbn [RawScan.pushes]; [|reflexivity].
  cbn [RawScan.declare].
  rewrite (@scriptCountRule_throws _ (@not_convertible_orDefault fields _ _ _ C)).
  reflexivity.
Qed.

Lemma scanDocument_pastTheGates policy :
  test false Patterns.supportedFile (fileName doc) = true ->
  tooLarge doc = false ->
  RawScan.scanDocument urlOrigin config js policy doc
  = RawScan.pastTheGates urlOrigin config js policy doc.
Proof. intros H1 H2. unfold RawScan.scanDocument. now rewrite H1, H2. Qed.

(** A policy that is neither null nor an object is read like the empty
    object. *)
Lemma pastTheGates_primitive j :
  isPrimitiveOrArray j = true ->
  RawScan.pastTheGates urlOrigin config js j doc
  = RawScan.pastTheGates urlOrigin config js (Raw.JObj []) doc.
Proof.
  intros H.
  unfold RawScan.pastTheGates, Raw.readTitleMin, Raw.readTitleMax,
    Raw.readMetaDescriptionMin, Raw.readMetaDescriptionMax,
    Raw.readRequireCanonical, Raw.readRequireJsonLdFor,
    Raw.readMaxThirdPartyScriptsPerPage.
  rewrite !(RawFacts.resolveField_primitive _ _ _ j H).
  reflexivity.
Qed.

(** So is a policy object whose sections are not objects. *)
Lemma pastTheGates_sections fields :
  (forall section v, assoc section fields = Some v -> isObject v = false) ->
  RawScan.pastTheGates urlOrigin config js (Raw.JObj fields) doc
  = RawScan.pastTheGates urlOrigin config js (Raw.JObj []) doc.
Proof.
  intros H.
  assert (S : forall section key, supplied fields section key = None).
  { intros section key. unfold supplied.
    destruct (assoc section fields) as [v|] eqn:E; [|reflexivity].
    specialize (H _ _ E). destruct v; try reflexivity; discriminate. }
  unfold RawScan.pastTheGates, Raw.readTitleMin, Raw.readTitleMax,
    Raw.readMetaDescriptionMin, Raw.readMetaDescriptionMax,
    Raw.readRequireCanonical, Raw.readRequireJsonLdFor,
    Raw.readMaxThirdPartyScriptsPerPage.
  rewrite !RawFacts.resolveField_object, !S. reflexivity.
Qed.

(** On a policy of the declared type, with the conversions of numbers,
    the rules of this layer are the rules of [scanDocument] and the run
    ends as [scanDocument] does. *)
Lemma scan_of_typed_policy p :
  numeric js ->
  RawScan.outcome
    (RawScan.scanDocument urlOrigin config js (Raw.encode p) doc)
  = match scanDocument urlOrigin config p doc with
    | Some ds => RawScan.SetDiagnostics ds
    | None => RawScan.Returned
    end.
Proof.
  intros Nm. unfold RawScan.scanDocument, scanDocument.
  destruct (negb (test false Patterns.supportedFile (fileName doc)));
    [reflexivity|].
  destruct (tooLarge doc); [reflexivity|].
  unfold RawScan.pastTheGates.
  destruct (RawFacts.reads_of_typed_policy config p)
    as (R1 & R2 & R3 & R4 & R5 & R7).
  rewrite R1, R2, R3, R4, R5, R7, RawFacts.readRequireJsonLdFor_typed.
  cbn [RawScan.declare].
  set (types := nullish (optChain (seo p) requireJsonLdFor) []).
  assert (W : forall n a b,
            RawScan.withinValues js n (Raw.JNum a) (Raw.JNum b)
            = Some (within n a b)).
  { intros n a b. rewrite withinValues_converts by reflexivity.
    unfold within.
    destruct (Nm n a) as (-> & _). destruct (Nm n b) as (_ & -> & _).
    reflexivity. }
  assert (T : forall z, RawScan.inTemplate js (Raw.JNum z) = Some (decZ z)).
  { intros z. unfold RawScan.inTemplate. cbn [RawScan.convertible].
    now destruct (Nm 0%Z z) as (_ & _ & _ & ->). }
  assert (I : forall x,
            existsb (fun item => match item with
                                 | Raw.JStr s => str_eqb s x
                                 | _ => false
                                 end) (map Raw.JStr types)
            = has types x).
  { intros x. unfold has. induction types as [|t ts IH]; [reflexivity|].
    cbn [map existsb]. rewrite IH. f_equal.
    destruct (list_eq_dec N.eq_dec t x) as [->|Hne].
    - now rewrite !str_eqb_refl.
    - rewrite (str_eqb_neq Hne).
      symmetry. apply str_eqb_neq. congruence. }
  assert (J : RawScan.jsonLdRule doc (Raw.JArr (map Raw.JStr types))
              = Some (jsonLdRule p doc)).
  { unfold RawScan.jsonLdRule, jsonLdRule. fold types.
    cbn [RawScan.lengthTruthy RawScan.includesOf]. rewrite !I.
    destruct types; reflexivity. }
  assert (E1 : RawScan.titleRule js doc (Raw.JNum (resolvedTitleMin p))
                 (Raw.JNum (resolvedTitleMax p)) = Some (titleRule p doc)).
  { unfold RawScan.titleRule, titleRule. cbv zeta.
    destruct (exec true Patterns.title (getText doc)); [|reflexivity].
    rewrite W, !T. destruct (within _ _ _); reflexivity. }
  assert (E2 : RawScan.metaDescriptionRule js doc
                 (Raw.JNum (resolvedDescMin p)) (Raw.JNum (resolvedDescMax p))
               = Some (metaDescriptionRule p doc)).
  { unfold RawScan.metaDescriptionRule, metaDescriptionRule. cbv zeta.
    destruct (exec true Patterns.metaDescription (getText doc));
      [|reflexivity].
    rewrite W, !T. destruct (within _ _ _); reflexivity. }
  assert (E3 : RawScan.canonicalRule doc
                 (Raw.JBool (resolvedRequireCanonical config p))
               = canonicalRule config p doc) by reflexivity.
  assert (E5 : RawScan.scriptCountRule js doc
                 (Raw.JNum (resolvedMaxTP config p))
               = Some (scriptCountRule config p doc)).
  { unfold RawScan.scriptCountRule, scriptCountRule, RawScan.compared.
    cbn [RawScan.convertible].
    destruct (Nm (Z.of_nat (scriptCount doc)) (resolvedMaxTP config p))
      as (_ & _ & -> & _).
    rewrite T. destruct (_ >? _)%Z; reflexivity. }
  rewrite E1, E2, J, E5.
  cbn [RawScan.pushes RawScan.declare RawScan.outcome].
  rewrite E3. reflexivity.
Qed.

End RawRun.

Lemma constant_resolution config fields name section key dflt :
  In (name, (section, key, dflt)) (policyConstants config) ->
  constant name (resolution config fields)
  = Some (orDefault dflt (supplied fields section key)).
Proof.
  unfold policyConstants. cbn [In].
  intros [H | [H | [H | [H | [H | [H | [H | []]]]]]]];
    injection H as <- <- <- <-; reflexivity.
Qed.

(** C4, as the code has it.  The policy is read field by field, without a
    check of type.  For a policy file that holds a JSON object the scan
    can use throughout (the values given to the five fields it compares
    with a count are values the language converts, and requireJsonLdFor
    is not given an object with a truthy length): the scan of a document
    that passes the gates declares its seven policy constants, in order,
    and reaches [collection.set]; each constant holds the value the
    object supplies for its field, whatever the type of that value, and
    its default only when nothing or null is supplied; and two such
    policy objects that supply the same for a field give its constant the
    same value, whatever they supply for the other fields.  Without a
    readable, parsable policy file every constant holds its default and
    the scan reaches [collection.set]. *)
Theorem policy_resolution urlOrigin config js doc fields :
  test false Patterns.supportedFile (fileName doc) = true ->
  tooLarge doc = false ->
  usable fields = true ->
  let scan := fun source =>
    RawScan.scanDocument urlOrigin config js (Raw.readPolicy source) doc in
  let run := scan (Raw.Parsed (Raw.JObj fields)) in
  (RawScan.consts run = resolution config fields
   /\ exists ds, RawScan.outcome run = RawScan.SetDiagnostics ds)
  /\ (forall name section key dflt,
        In (name, (section, key, dflt)) (policyConstants config) ->
        constant name (RawScan.consts run)
        = Some (match supplied fields section key with
                | None | Some Raw.JNull => dflt
                | Some v => v
                end))
  /\ (forall fields' name section key dflt,
        In (name, (section, key, dflt)) (policyConstants config) ->
        usable fields' = true ->
        supplied fields' section key = supplied fields section key ->
        constant name
          (RawScan.consts (scan (Raw.Parsed (Raw.JObj fields'))))
        = constant name (RawScan.consts run))
  /\ (forall source,
        source = Raw.NoFolder \/ source = Raw.Unreadable
        \/ source = Raw.Unparsable ->
        RawScan.consts (scan source) = resolution config []
        /\ exists ds, RawScan.outcome (scan source) = RawScan.SetDiagnostics ds).
Proof.
  intros Hf Hs U scan run.
  assert (R : forall fs, usable fs = true ->
            RawScan.consts (scan (Raw.Parsed (Raw.JObj fs)))
            = resolution config fs
            /\ exists ds, RawScan.outcome (scan (Raw.Parsed (Raw.JObj fs)))
                          = RawScan.SetDiagnostics ds).
  { intros fs Ufs. unfold scan. cbn [Raw.readPolicy].
    rewrite scanDocument_pastTheGates by assumption.
    now apply pastTheGates_usable. }
  split; [exact (R fields U) | split; [|split]].
  - intros name section key dflt I. unfold run.
    rewrite (proj1 (R fields U)).
    rewrite (@constant_resolution config fields _ _ _ _ I). reflexivity.
  - intros fields' name section key dflt I U' E. unfold run.
    rewrite (proj1 (R fields U)), (proj1 (R fields' U')).
    rewrite (@constant_resolution config fields _ _ _ _ I).
    rewrite (@constant_resolution config fields' _ _ _ _ I). now rewrite E.
  - intros source H.
    assert (E : Raw.readPolicy source = Raw.JObj [])
      by (destruct H as [-> | [-> | ->]]; reflexivity).
    unfold scan. rewrite E. exact (R [] eq_refl).
Qed.

Lemma policy_resolution_witness :
  let doc := pageWithTitle 35 in
  let run := RawScan.scanDocument noOrigin noSettings plainConversions
               (Raw.readPolicy (Raw.Parsed (Raw.JObj titleMaxOnly))) doc in
  (test false Patterns.supportedFile (fileName doc) = true
   /\ tooLarge doc = false /\ usable titleMaxOnly = true)
  /\ RawScan.consts run
     = [("titleMin", Raw.JNum 30); ("titleMax", Raw.JNum 70);
        ("descMin", Raw.JNum 50); ("descMax", Raw.JNum 160);
        ("requireCanonical", Raw.JStr (u "no"));
        ("requireTypes", Raw.JArr []); ("maxTP", Raw.JNum 6)]
  /\ constant "titleMax" (RawScan.consts run) = Some (Raw.JNum 70).
Proof.
  intros doc run.
  assert (Hf : test false Patterns.supportedFile (fileName doc) = true)
    by (vm_compute; reflexivity).
  assert (Hs : tooLarge doc = false) by (vm_compute; reflexivity).
  assert (U : usable titleMaxOnly = true) by reflexivity.
  destruct (@policy_resolution noOrigin noSettings plainConversions doc
              titleMaxOnly Hf Hs U) as ((C & _) & V & _).
  split; [auto | split].
  - unfold run. rewrite C. reflexivity.
  - apply (V "titleMax" (u "seo") (u "titleMax") (Raw.JNum 60)).
    right. left. reflexivity.
Defined.

(** C4, as stated, fails twice.  A policy file that gives titleMin the
    text forty: the constant holds that text, not the default 30, and a
    title of 35 characters, inside the default interval, is reported.  A
    policy file that gives requireJsonLdFor an object with a length: the
    scan throws at the call of [includes], and maxThirdPartyScriptsPerPage,
    which the file supplies, is never read. *)
Lemma wrong_type_not_defaulted :
  let scan := fun policy =>
    RawScan.scanDocument noOrigin noSettings plainConversions
      (Raw.readPolicy (Raw.Parsed policy)) (pageWithTitle 35) in
  (constant "titleMin" (RawScan.consts (scan titleMinAsText))
   = Some (Raw.JStr (u "forty"))
   /\ constant "titleMin" (RawScan.consts (scan titleMinAsText))
      <> Some (Raw.JNum 30)
   /\ option_map (countCode "SEO_TITLE_LENGTH")
        (diagnosticsSet (scan titleMinAsText)) = Some 1%nat
   /\ option_map (countCode "SEO_TITLE_LENGTH")
        (diagnosticsSet (scan (Raw.JObj []))) = Some 0%nat)
  /\ (supplied typesAsObject (u "perf") (u "maxThirdPartyScriptsPerPage")
      = Some (Raw.JNum 2)
      /\ RawScan.outcome (scan (Raw.JObj typesAsObject)) = RawScan.Threw
      /\ constant "maxTP" (RawScan.consts (scan (Raw.JObj typesAsObject)))
         = None).
Proof.
  intros scan. split; [split; [|split; [|split]] | split; [|split]].
  - vm_compute. reflexivity.
  - vm_compute. discriminate.
  - vm_compute. reflexivity.
  - vm_compute. reflexivity.
  - reflexivity.
  - vm_compute. reflexivity.
  - vm_compute. reflexivity.
Qed.

(** *** Dependency cost *)

Lemma split_segment seg :
  noSlash seg = true -> split 47 seg = [seg].
Proof.
  induction seg as [|c seg IH]; [reflexivity|].
  cbn [noSlash forallb]. intros H. apply andb_prop in H. destruct H as [Hc Hs].
  cbn [split]. destruct (c =? 47); [discriminate|].
  fold (noSlash seg) in Hs. now rewrite (IH Hs).
Qed.

Lemma split_segment_slash seg rest_ :
  noSlash seg = true -> split 47 (seg ++ 47 :: rest_) = seg :: split 47 rest_.
Proof.
  induction seg as [|c seg IH]; [reflexivity|].
  cbn [noSlash forallb]. intros H. apply andb_prop in H. destruct H as [Hc Hs].
  cbn [app split]. destruct (c =? 47); [discriminate|].
  fold (noSlash seg) in Hs. now rewrite (IH Hs).
Qed.

(** Splitting a path at its slashes gives back its segments. *)
Lemma split_join segs :
  segs <> [] -> Forall (fun seg => noSlash seg = true) segs ->
  split 47 (join (u "/") segs) = segs.
Proof.
  intros Hne H. induction H as [|seg segs Hs Hrest IH]; [contradiction|].
  destruct segs as [|seg' segs'].
  - cbn [join]. now apply split_segment.
  - change (join (u "/") (seg :: seg' :: segs'))
      with (seg ++ 47 :: join (u "/") (seg' :: segs')).
    rewrite (@split_segment_slash seg _ Hs), IH; [reflexivity | discriminate].
Qed.

Lemma countCode_bundle_error urlOrigin config policy doc :
  countCode "WRS_JS_BUNDLE_SIZE_EXCEEDED"
    (diagnosticsOf urlOrigin config policy doc)
  = countCode "WRS_JS_BUNDLE_SIZE_EXCEEDED" (bundleSizeRule doc).
Proof. count_others. Qed.

Lemma countCode_bundle_warning urlOrigin config policy doc :
  countCode "WRS_JS_BUNDLE_SIZE_WARNING"
    (diagnosticsOf urlOrigin config policy doc)
  = countCode "WRS_JS_BUNDLE_SIZE_WARNING" (bundleSizeRule doc).
Proof. count_others. Qed.

(** *** The matcher *)

Lemma follows_refl st : follows st st = true.
Proof. unfold follows. now rewrite Nat.leb_refl, Nat.eqb_refl. Qed.

Lemma follows_trans a b c :
  follows a b = true -> follows b c = true -> follows a c = true.
Proof.
  unfold follows. intros H1 H2.
  apply andb_prop in H1. destruct H1 as [L1 E1].
  apply andb_prop in H2. destruct H2 as [L2 E2].
  apply Nat.leb_le in L1. apply Nat.leb_le in L2.
  apply Nat.eqb_eq in E1. apply Nat.eqb_eq in E2.
  apply andb_true_intro. split; [apply Nat.leb_le | apply Nat.eqb_eq]; lia.
Qed.

Lemma follows_advance st c s' :
  rest st = c :: s' -> follows st (advance st c s') = true.
Proof.
  intros H. unfold follows. cbn [advance pos rest]. rewrite H. cbn [length].
  apply andb_true_intro. split; [apply Nat.leb_le | apply Nat.eqb_eq]; lia.
Qed.

Lemma follows_setCap st i v st' :
  follows st (setCap i v st') = follows st st'.
Proof. destruct i as [|[|[|i]]]; reflexivity. Qed.

Lemma starLoop_ext body g : 
  (forall st k1 k2, (forall s, k1 s = k2 s) -> body st k1 = body st k2) ->
  forall n st k1 k2, (forall s, k1 s = k2 s) ->
  starLoop body g k1 n st = starLoop body g k2 n st.
Proof.
  intros Hb. induction n as [|n IH]; intros st k1 k2 H; cbn [starLoop].
  - apply H.
  - rewrite (H st).
    rewrite (Hb st _ (fun st' => if (pos st <? pos st')%nat
                                 then starLoop body g k2 n st' else None)).
    + reflexivity.
    + intros s. destruct (pos st <? pos s)%nat; [now apply IH | reflexivity].
Qed.

Lemma rmatch_ext ci r : forall st k1 k2,
  (forall s, k1 s = k2 s) -> rmatch ci r st k1 = rmatch ci r st k2.
Proof.
  induction r as [ | c | neg items | | | | r1 IH1 r2 IH2 | r1 IH1 r2 IH2
                 | g r IH | i r IH ]; intros st k1 k2 H; cbn [rmatch].
  - apply H.
  - unfold oneChar. destruct (rest st); [reflexivity|].
    destruct (chrMatches _ _ _); [apply H | reflexivity].
  - unfold oneChar. destruct (rest st); [reflexivity|].
    destruct (clsMatches _ _ _ _); [apply H | reflexivity].
  - unfold oneChar. destruct (rest st); [reflexivity|].
    destruct (negb _); [apply H | reflexivity].
  - destruct (xorb _ _); [apply H | reflexivity].
  - destruct (rest st); [apply H | reflexivity].
  - apply IH1. intros s. now apply IH2.
  - rewrite (IH1 st k1 k2 H), (IH2 st k1 k2 H). reflexivity.
  - apply starLoop_ext; [exact IH | exact H].
  - apply IH. intros s. apply H.
Qed.

Lemma starLoop_none body g :
  (forall st k, (forall s, k s = None) -> body st k = None) ->
  forall n st k, (forall s, k s = None) -> starLoop body g k n st = None.
Proof.
  intros Hb. induction n as [|n IH]; intros st k H; cbn [starLoop].
  - apply H.
  - rewrite (H st), Hb.
    + now destruct g.
    + intros s. destruct (pos st <? pos s)%nat; [now apply IH | reflexivity].
Qed.

Lemma rmatch_none ci r : forall st k,
  (forall s, k s = None) -> rmatch ci r st k = None.
Proof.
  induction r as [ | c | neg items | | | | r1 IH1 r2 IH2 | r1 IH1 r2 IH2
                 | g r IH | i r IH ]; intros st k H; cbn [rmatch].
  - apply H.
  - unfold oneChar. destruct (rest st); [reflexivity|].
    destruct (chrMatches _ _ _); [apply H | reflexivity].
  - unfold oneChar. destruct (rest st); [reflexivity|].
    destruct (clsMatches _ _ _ _); [apply H | reflexivity].
  - unfold oneChar. destruct (rest st); [reflexivity|].
    destruct (negb _); [apply H | reflexivity].
  - destruct (xorb _ _); [apply H | reflexivity].
  - destruct (rest st); [apply H | reflexivity].
  - apply IH1. intros s. now apply IH2.
  - now rewrite (IH1 st k H), (IH2 st k H).
  - apply starLoop_none; [exact IH | exact H].
  - apply IH. intros s. apply H.
Qed.

Lemma guard_eq st k s :
  guard st k s = if follows st s then k s else None.
Proof. reflexivity. Qed.

Lemma guard_trans a b k s :
  follows a b = true -> guard b (guard a k) s = guard b k s.
Proof.
  intros H. unfold guard. destruct (follows b s) eqn:E; [|reflexivity].
  now rewrite (follows_trans a b s H E).
Qed.

Lemma starLoop_guard body g st0 :
  (forall st k1 k2, (forall s, k1 s = k2 s) -> body st k1 = body st k2) ->
  (forall st k, body st k = body st (guard st k)) ->
  forall n st k, follows st0 st = true ->
  starLoop body g k n st = starLoop body g (guard st0 k) n st.
Proof.
  intros Hext Hb. induction n as [|n IH]; intros st k F; cbn [starLoop].
  - unfold guard. now rewrite F.
  - assert (E :
      body st (fun st' => if (pos st <? pos st')%nat
                          then starLoop body g k n st' else None)
      = body st (fun st' => if (pos st <? pos st')%nat
                            then starLoop body g (guard st0 k) n st'
                            else None)).
    { rewrite Hb. symmetry. rewrite Hb. symmetry.
      apply Hext. intros s. rewrite !guard_eq.
      destruct (follows st s) eqn:Fs; [|reflexivity].
      destruct (pos st <? pos s)%nat; [|reflexivity].
      apply IH. now apply follows_trans with st. }
    rewrite E, guard_eq, F. reflexivity.
Qed.

Lemma rmatch_guard ci r : forall st k,
  rmatch ci r st k = rmatch ci r st (guard st k).
Proof.
  induction r as [ | c | neg items | | | | r1 IH1 r2 IH2 | r1 IH1 r2 IH2
                 | g r IH | i r IH ]; intros st k; cbn [rmatch].
  - unfold guard. now rewrite follows_refl.
  - unfold oneChar. destruct (rest st) as [|x s'] eqn:E; [reflexivity|].
    destruct (chrMatches _ _ _); [|reflexivity].
    unfold guard. now rewrite (follows_advance st E).
  - unfold oneChar. destruct (rest st) as [|x s'] eqn:E; [reflexivity|].
    destruct (clsMatches _ _ _ _); [|reflexivity].
    unfold guard. now rewrite (follows_advance st E).
  - unfold oneChar. destruct (rest st) as [|x s'] eqn:E; [reflexivity|].
    destruct (negb _); [|reflexivity].
    unfold guard. now rewrite (follows_advance st E).
  - unfold guard. now rewrite follows_refl.
  - unfold guard. now rewrite follows_refl.
  - rewrite IH1. symmetry. rewrite IH1. symmetry.
    apply rmatch_ext. intros s. rewrite !guard_eq.
    destruct (follows st s) eqn:F; [|reflexivity].
    rewrite IH2. symmetry. rewrite IH2. symmetry.
    apply rmatch_ext. intros s'. symmetry. now apply guard_trans.
  - now rewrite <- IH1, <- IH2.
  - apply starLoop_guard; [apply rmatch_ext | exact IH | apply follows_refl].
  - rewrite IH. symmetry. rewrite IH. symmetry.
    apply rmatch_ext. intros s. rewrite !guard_eq.
    rewrite follows_setCap. now destruct (follows st s).
Qed.

(** The bound on the iterations of a quantifier is never what stops it:
    any bound that is at least the number of characters left gives the
    same result. *)
Lemma starLoop_bound ci r g k : forall n m st,
  (m <= n)%nat -> (length (rest st) <= m)%nat ->
  starLoop (rmatch ci r) g k m st
  = starLoop (rmatch ci r) g k (length (rest st)) st.
Proof.
  induction n as [|n IH]; intros m st Hm Hl.
  - assert (m = 0%nat) by lia. subst m.
    assert (E : length (rest st) = 0%nat) by lia. now rewrite E.
  - destruct m as [|m].
    { assert (E : length (rest st) = 0%nat) by lia. now rewrite E. }
    assert (Again : forall l, (length (rest st) <= S l)%nat -> (l <= n)%nat ->
      rmatch ci r st
        (fun st' => if (pos st <? pos st')%nat
                    then starLoop (rmatch ci r) g k l st' else None)
      = rmatch ci r st
          (fun st' => if (pos st <? pos st')%nat
                      then starLoop (rmatch ci r) g k (length (rest st')) st'
                      else None)).
    { intros l Hl1 Hl2.
      rewrite rmatch_guard. symmetry. rewrite rmatch_guard. symmetry.
      apply rmatch_ext. intros s. rewrite !guard_eq.
      destruct (follows st s) eqn:F; [|reflexivity].
      destruct (pos st <? pos s)%nat eqn:P; [|reflexivity].
      apply IH; [exact Hl2|].
      unfold follows in F. apply andb_prop in F. destruct F as [_ F].
      apply Nat.eqb_eq in F. apply Nat.ltb_lt in P. lia. }
    destruct (length (rest st)) as [|l] eqn:L.
    + cbn [starLoop].
      rewrite rmatch_guard, (@rmatch_none ci r st).
      * now destruct g, (k st).
      * intros s. rewrite guard_eq.
        destruct (follows st s) eqn:F; [|reflexivity].
        destruct (pos st <? pos s)%nat eqn:P; [|reflexivity].
        unfold follows in F. apply andb_prop in F. destruct F as [_ F].
        apply Nat.eqb_eq in F. apply Nat.ltb_lt in P. lia.
    + cbn [starLoop].
      rewrite (Again m) by lia. rewrite (Again l) by lia. reflexivity.
Qed.

Lemma rmatch_Star_bound ci g r st k n :
  (length (rest st) <= n)%nat ->
  starLoop (rmatch ci r) g k n st = rmatch ci (Star g r) st k.
Proof. intros H. cbn [rmatch]. now apply starLoop_bound with (n := n). Qed.

(** *** The matcher on tags *)

Lemma consume_app st cs1 cs2 :
  consume st (cs1 ++ cs2) = consume (consume st cs1) cs2.
Proof.
  revert st. induction cs1 as [|c cs1 IH]; intros st; [reflexivity|].
  cbn [app consume]. apply IH.
Qed.

Lemma consume_pos st cs : pos (consume st cs) = (pos st + length cs)%nat.
Proof.
  revert st. induction cs as [|c cs IH]; intros st; cbn [consume length].
  - lia.
  - rewrite IH. cbn [advance pos]. lia.
Qed.

Lemma consume_rest st cs tl_ :
  rest st = cs ++ tl_ -> rest (consume st cs) = tl_.
Proof.
  revert st. induction cs as [|c cs IH]; intros st H; cbn [consume].
  - exact H.
  - apply IH. rewrite H. reflexivity.
Qed.

Lemma consume_caps st cs :
  cap1 (consume st cs) = cap1 st /\ cap2 (consume st cs) = cap2 st.
Proof.
  revert st. induction cs as [|c cs IH]; intros st; cbn [consume].
  - split; reflexivity.
  - destruct (IH (advance st c (tl (rest st)))) as [H1 H2].
    rewrite H1, H2. split; reflexivity.
Qed.

(** One character that the class accepts. *)
Lemma oneChar_ok ok st k c tl_ :
  rest st = c :: tl_ -> ok c = true ->
  oneChar ok st k = k (consume st [c]).
Proof.
  intros H Hc. unfold oneChar. rewrite H, Hc. cbn [consume].
  rewrite H. reflexivity.
Qed.

Lemma oneChar_stop ok st k :
  match rest st with [] => True | x :: _ => ok x = false end ->
  oneChar ok st k = None.
Proof.
  intros H. unfold oneChar. destruct (rest st) as [|x t]; [reflexivity|].
  now rewrite H.
Qed.

(** A greedy [*] over a class reads the whole run of characters of the
    class when what follows the quantifier matches after it. *)
Lemma starLoop_greedy_run ok cs tl_ : forall n st k res,
  rest st = cs ++ tl_ ->
  forallb ok cs = true ->
  match tl_ with [] => True | x :: _ => ok x = false end ->
  (length cs <= n)%nat ->
  k (consume st cs) = Some res ->
  starLoop (oneChar ok) true k n st = Some res.
Proof.
  induction cs as [|c cs IH]; intros n st k res Hrest Hok Hstop Hn Hk.
  - cbn [consume] in Hk. destruct n as [|n]; cbn [starLoop]; [exact Hk|].
    rewrite oneChar_stop; [exact Hk|]. now rewrite Hrest.
  - destruct n as [|n]; [cbn in Hn; lia|].
    cbn [forallb] in Hok. apply andb_prop in Hok. destruct Hok as [Hc Hcs].
    cbn [starLoop].
    rewrite (@oneChar_ok ok st _ c (cs ++ tl_) Hrest Hc).
    cbn [consume advance pos].
    assert (L : (pos st <? S (pos st))%nat = true) by (apply Nat.ltb_lt; lia).
    rewrite L.
    rewrite (IH n (advance st c (tl (rest st))) k res); [reflexivity | | | | |].
    + rewrite Hrest. reflexivity.
    + exact Hcs.
    + exact Hstop.
    + cbn in Hn. lia.
    + exact Hk.
Qed.

(** A greedy [*] over a class fails when what follows it fails after
    every prefix of the run. *)
Lemma starLoop_greedy_fail ok cs tl_ : forall n st k,
  rest st = cs ++ tl_ ->
  forallb ok cs = true ->
  match tl_ with [] => True | x :: _ => ok x = false end ->
  (forall i, (i <= length cs)%nat -> k (consume st (firstn i cs)) = None) ->
  starLoop (oneChar ok) true k n st = None.
Proof.
  induction cs as [|c cs IH]; intros n st k Hrest Hok Hstop Hk.
  - pose proof (Hk 0%nat (Nat.le_0_l _)) as H0. cbn in H0.
    destruct n as [|n]; cbn [starLoop]; [exact H0|].
    rewrite oneChar_stop; [exact H0|]. now rewrite Hrest.
  - pose proof (Hk 0%nat (Nat.le_0_l _)) as H0. cbn in H0.
    destruct n as [|n]; cbn [starLoop]; [exact H0|].
    cbn [forallb] in Hok. apply andb_prop in Hok. destruct Hok as [Hc Hcs].
    rewrite (@oneChar_ok ok st _ c (cs ++ tl_) Hrest Hc).
    cbn [consume advance pos].
    assert (L : (pos st <? S (pos st))%nat = true) by (apply Nat.ltb_lt; lia).
    rewrite L.
    rewrite (IH n (advance st c (tl (rest st))) k); [exact H0 | | | |].
    + rewrite Hrest. reflexivity.
    + exact Hcs.
    + exact Hstop.
    + intros i Hi. apply (Hk (S i)). cbn. lia.
Qed.

Lemma rmatch_Chr_ok ci pat st k c tl_ :
  rest st = c :: tl_ -> chrMatches ci pat c = true ->
  rmatch ci (Chr pat) st k = k (consume st [c]).
Proof. intros H Hc. cbn [rmatch]. now apply oneChar_ok with (tl_ := tl_). Qed.

Lemma rmatch_Chr_no ci pat st k :
  match rest st with [] => True | x :: _ => chrMatches ci pat x = false end ->
  rmatch ci (Chr pat) st k = None.
Proof. intros H. cbn [rmatch]. now apply oneChar_stop. Qed.

Lemma rmatch_Cls_ok ci neg items st k c tl_ :
  rest st = c :: tl_ -> clsMatches ci neg items c = true ->
  rmatch ci (Cls neg items) st k = k (consume st [c]).
Proof. intros H Hc. cbn [rmatch]. now apply oneChar_ok with (tl_ := tl_). Qed.

Lemma rmatch_Cls_no ci neg items st k :
  match rest st with
  | [] => True
  | x :: _ => clsMatches ci neg items x = false
  end ->
  rmatch ci (Cls neg items) st k = None.
Proof. intros H. cbn [rmatch]. now apply oneChar_stop. Qed.

Lemma rmatch_Star_cls_run ci neg items cs tl_ st k res :
  rest st = cs ++ tl_ ->
  forallb (clsMatches ci neg items) cs = true ->
  match tl_ with [] => True | x :: _ => clsMatches ci neg items x = false end ->
  k (consume st cs) = Some res ->
  rmatch ci (Star true (Cls neg items)) st k = Some res.
Proof.
  intros Hrest Hok Hstop Hk. cbn [rmatch].
  change (fun st0 k0 => oneChar (clsMatches ci neg items) st0 k0)
    with (oneChar (clsMatches ci neg items)).
  apply starLoop_greedy_run with (cs := cs) (tl_ := tl_); try assumption.
  rewrite Hrest, length_app. lia.
Qed.

Lemma letter_spec c :
  clsMatches false false [CRange 97 122; CRange 65 90] c = isLetter c.
Proof.
  unfold clsMatches, clsHas, isLetter, isLowerAscii, isUpperAscii. cbn.
  rewrite !orb_false_r. reflexivity.
Qed.

Lemma alnum_spec c :
  clsMatches false false [CRange 97 122; CRange 65 90; CRange 48 57] c
  = isAlnum c.
Proof.
  unfold clsMatches, clsHas, isAlnum, isLetter, isLowerAscii, isUpperAscii,
    isDigit. cbn.
  rewrite !orb_false_r. now rewrite orb_assoc.
Qed.

Lemma notGt_spec c : clsMatches false true [CChar 62] c = negb (c =? 62).
Proof.
  unfold clsMatches, clsHas. cbn. rewrite !orb_false_r. reflexivity.
Qed.


Lemma rmatch_Seq ci a b st k :
  rmatch ci (Seq a b) st k = rmatch ci a st (fun st' => rmatch ci b st' k).
Proof. reflexivity. Qed.

Lemma rmatch_Grp ci i r st k :
  rmatch ci (Grp i r) st k
  = rmatch ci r st
      (fun st' => k (setCap i (firstn (pos st' - pos st) (rest st)) st')).
Proof. reflexivity. Qed.

Lemma rmatch_Opt_skip ci r st k :
  rmatch ci r st k = None -> rmatch ci (Opt r) st k = k st.
Proof. intros H. unfold Opt. cbn [rmatch]. now rewrite H. Qed.

Lemma forallb_eq (A : Type) (f g : A -> bool) l :
  (forall x, f x = g x) -> forallb f l = forallb g l.
Proof.
  intros H. induction l as [|x l IH]; cbn; [reflexivity|].
  now rewrite H, IH.
Qed.

Lemma tagAttrs_inv attrs :
  tagAttrs attrs = true ->
  forallb (fun x => negb (x =? 62)) attrs = true
  /\ match attrs with [] => True | x :: _ => isAlnum x = false end
  /\ (attrs <> [] -> last attrs 0 <> 47).
Proof.
  destruct attrs as [|a t]; [intros _; repeat split; congruence|].
  unfold tagAttrs. intros H.
  apply andb_prop in H. destruct H as [H H3].
  apply andb_prop in H. destruct H as [H1 H2].
  repeat split.
  - exact H2.
  - now apply negb_true_iff.
  - intros _. apply negb_true_iff in H3. now apply N.eqb_neq.
Qed.

Lemma letter_not_slash c : isLetter c = true -> chrMatches false 47 c = false.
Proof.
  unfold isLetter, isLowerAscii, isUpperAscii, chrMatches, canon. intros H.
  apply N.eqb_neq. intros <-. discriminate H.
Qed.

Lemma tagRegex_open_state p pv name attrs tl_ :
  tagName name = true -> tagAttrs attrs = true ->
  exists res,
    rmatch false Patterns.tagRegex
      (MState p pv (openTagText name attrs ++ tl_) None None) Some = Some res
    /\ pos res = (p + length (openTagText name attrs))%nat
    /\ cap1 res = Some name /\ cap2 res = None.
Proof.
  intros Hn Ha. destruct name as [|c cs]; [discriminate|].
  cbn [tagName] in Hn. apply andb_prop in Hn. destruct Hn as [Hc Hcs].
  destruct (@tagAttrs_inv attrs Ha) as (Hgt & Hhd & _).
  set (st0 := MState p pv (openTagText (c :: cs) attrs ++ tl_) None None).
  set (st1 := consume st0 [60]).
  set (st2 := consume (consume st1 [c]) cs).
  set (st3 := setCap 1 (firstn (pos st2 - pos st1) (rest st1)) st2).
  set (st4 := consume st3 attrs).
  assert (R1 : rest st1 = c :: cs ++ attrs ++ 62 :: tl_).
  { unfold st1, st0, openTagText. cbn. now rewrite <- !app_assoc. }
  assert (R2 : rest st2 = attrs ++ 62 :: tl_).
  { unfold st2. rewrite <- (consume_app st1 [c] cs).
    apply consume_rest. exact R1. }
  assert (R4 : rest st4 = 62 :: tl_).
  { unfold st4. apply consume_rest. exact R2. }
  exists (consume st4 [62]). split; [|split; [|split]].
  - unfold Patterns.tagRegex. cbn [Seqs].
    rewrite rmatch_Seq.
    rewrite (@rmatch_Chr_ok false 60 st0 _ 60
               (c :: (cs ++ attrs ++ [62]) ++ tl_));
      [|reflexivity|reflexivity].
    fold st1. rewrite rmatch_Seq.
    rewrite rmatch_Opt_skip;
      [|apply rmatch_Chr_no; rewrite R1; now apply letter_not_slash].
    rewrite rmatch_Seq, rmatch_Grp, rmatch_Seq.
    unfold Patterns.letter.
    rewrite (@rmatch_Cls_ok false false _ st1 _ c _ R1);
      [|now rewrite letter_spec].
    unfold Patterns.alnum.
    apply rmatch_Star_cls_run with (cs := cs) (tl_ := attrs ++ 62 :: tl_).
    + apply consume_rest with (cs := [c]). exact R1.
    + rewrite (@forallb_eq _ _ _ cs alnum_spec). exact Hcs.
    + destruct attrs as [|a t]; cbn [app]; rewrite alnum_spec;
        [reflexivity | exact Hhd].
    + fold st2. fold st3. rewrite rmatch_Seq. unfold Patterns.notGt.
      apply rmatch_Star_cls_run with (cs := attrs) (tl_ := 62 :: tl_).
      * exact R2.
      * rewrite (@forallb_eq _ _ _ attrs notGt_spec). exact Hgt.
      * rewrite notGt_spec. reflexivity.
      * fold st4. now rewrite (@rmatch_Chr_ok false 62 st4 _ 62 tl_ R4).
  - rewrite consume_pos. unfold st4. rewrite consume_pos.
    change (pos st3) with (pos st2). unfold st2.
    rewrite !consume_pos. unfold st1. rewrite consume_pos.
    unfold openTagText. cbn [pos st0]. rewrite !length_app. cbn [length]. lia.
  - destruct (consume_caps st4 [62]) as [-> _].
    unfold st4. destruct (consume_caps st3 attrs) as [-> _].
    change (cap1 st3) with (Some (firstn (pos st2 - pos st1) (rest st1))).
    f_equal. rewrite R1. unfold st2. rewrite !consume_pos.
    replace (pos st1 + length [c] + length cs - pos st1)%nat
      with (length (c :: cs)) by (cbn [length]; lia).
    change (c :: cs ++ attrs ++ 62 :: tl_)
      with ((c :: cs) ++ attrs ++ 62 :: tl_).
    rewrite firstn_app, Nat.sub_diag, firstn_all. cbn [firstn].
    now rewrite app_nil_r.
  - destruct (consume_caps st4 [62]) as [_ ->].
    unfold st4. destruct (consume_caps st3 attrs) as [_ ->].
    change (cap2 st3) with (cap2 st2). unfold st2.
    destruct (consume_caps (consume st1 [c]) cs) as [_ ->].
    reflexivity.
Qed.

Lemma firstn_length_app (A : Type) (a b : list A) :
  firstn (length a) (a ++ b) = a.
Proof. rewrite firstn_app, Nat.sub_diag, firstn_all. cbn. apply app_nil_r. Qed.

Lemma tagRegex_open p pv name attrs tl_ :
  tagName name = true -> tagAttrs attrs = true ->
  matchAt false Patterns.tagRegex p pv (openTagText name attrs ++ tl_)
  = Some (Match p (openTagText name attrs) (Some name) None).
Proof.
  intros Hn Ha.
  destruct (@tagRegex_open_state p pv name attrs tl_ Hn Ha)
    as (res & E & Hp & H1 & H2).
  unfold matchAt. rewrite E, Hp, H1, H2.
  replace (p + length (openTagText name attrs) - p)%nat
    with (length (openTagText name attrs)) by lia.
  now rewrite firstn_length_app.
Qed.

(** Where the text does not start with [<] a pattern that starts with
    [<] finds nothing. *)
Lemma matchAt_not_lt ci r p pv s :
  match s with [] => True | x :: _ => x <> 60 end ->
  matchAt ci (Seq (Chr 60) r) p pv s = None.
Proof.
  intros H. unfold matchAt. rewrite rmatch_Seq, rmatch_Chr_no; [reflexivity|].
  cbn [rest]. destruct s as [|x t]; [exact I|].
  unfold chrMatches, canon. apply N.eqb_neq.
  destruct ci; [|congruence].
  unfold upperAscii. change (isLowerAscii 60) with false. cbv iota.
  unfold isLowerAscii. intros E.
  destruct (andb (97 <=? x) (x <=? 122)) eqn:L; [|congruence].
  apply andb_prop in L. destruct L as [L1 L2].
  apply N.leb_le in L1. apply N.leb_le in L2. lia.
Qed.

Lemma matchAllFrom_skip ci r pre : forall s p pv,
  matchAllFrom ci r (length pre) p pv (pre ++ s)
  = matchAllFrom ci r 0 (p + length pre) (prevAfter pv pre) s.
Proof.
  induction pre as [|c pre IH]; intros s p pv.
  - cbn [length app prevAfter fold_left]. now rewrite Nat.add_0_r.
  - cbn [length app matchAllFrom]. rewrite IH. cbn [prevAfter fold_left].
    f_equal. lia.
Qed.

Lemma matchAllFrom_plain ci r t : forall s p pv,
  plainText t = true ->
  matchAllFrom ci (Seq (Chr 60) r) 0 p pv (t ++ s)
  = matchAllFrom ci (Seq (Chr 60) r) 0 (p + length t) (prevAfter pv t) s.
Proof.
  induction t as [|c t IH]; intros s p pv H.
  - cbn [length app prevAfter fold_left]. now rewrite Nat.add_0_r.
  - cbn [plainText forallb] in H. apply andb_prop in H. destruct H as [Hc Ht].
    cbn [length app matchAllFrom].
    rewrite matchAt_not_lt;
      [|apply negb_true_iff in Hc; now apply N.eqb_neq].
    rewrite (IH s (S p) (Some c) Ht). cbn [prevAfter fold_left].
    f_equal. lia.
Qed.

Lemma matchAllFrom_end ci r p pv :
  matchAllFrom ci (Seq (Chr 60) r) 0 p pv [] = [].
Proof. cbn [matchAllFrom]. now rewrite matchAt_not_lt. Qed.

(** After a match of a whole tag the search resumes behind the tag. *)
Lemma matchAllFrom_tag ci r p pv tag s m :
  matchAt ci r p pv (tag ++ s) = Some m -> matched m = tag -> tag <> [] ->
  exists p' pv',
    matchAllFrom ci r 0 p pv (tag ++ s) = m :: matchAllFrom ci r 0 p' pv' s.
Proof.
  intros Hm Ht Hne. destruct tag as [|c tag]; [congruence|].
  cbn [app matchAllFrom]. cbn [app] in Hm. rewrite Hm, Ht.
  cbn [length Nat.pred]. rewrite matchAllFrom_skip. eauto.
Qed.

Lemma alnum_not_slash z : isAlnum z = true -> z <> 47.
Proof. intros H E. subst z. discriminate H. Qed.

Lemma tagName_alnum name z :
  tagName name = true -> In z name -> isAlnum z = true.
Proof.
  destruct name as [|c cs]; [discriminate|]. cbn [tagName]. intros H Hz.
  apply andb_prop in H. destruct H as [Hc Hcs]. destruct Hz as [<- | Hz].
  - unfold isAlnum. now rewrite Hc.
  - rewrite forallb_forall in Hcs. now apply Hcs.
Qed.

(** The character before the closing [>] of an opening tag is not a
    slash. *)
Lemma tag_body_last name attrs :
  tagName name = true -> tagAttrs attrs = true ->
  exists body z, name ++ attrs = body ++ [z] /\ z <> 47.
Proof.
  intros Hn Ha. destruct (@tagAttrs_inv attrs Ha) as (_ & _ & Hl).
  destruct attrs as [|a t].
  - assert (Hne : name <> []) by (destruct name; [discriminate | congruence]).
    destruct (exists_last Hne) as (body & z & E).
    exists body, z. rewrite app_nil_r. split; [exact E|].
    apply alnum_not_slash, (@tagName_alnum name z Hn).
    rewrite E. apply in_or_app. right. now left.
  - assert (Hne : a :: t <> []) by congruence.
    destruct (exists_last Hne) as (body & z & E).
    exists (name ++ body), z. rewrite E, app_assoc. split; [reflexivity|].
    specialize (Hl Hne). rewrite E, last_last in Hl. exact Hl.
Qed.

Lemma openTag_not_selfclosed name attrs :
  tagName name = true -> tagAttrs attrs = true ->
  endsWith (openTagText name attrs) (u "/>") = false.
Proof.
  intros Hn Ha. destruct (@tag_body_last name attrs Hn Ha) as (body & z & E & Hz).
  unfold endsWith, openTagText. change (u "/>") with [47; 62].
  replace ([60] ++ name ++ attrs ++ [62]) with ((60 :: body) ++ [z; 62]).
  - rewrite rev_app_distr. cbn [rev app startsWith].
    rewrite N.eqb_refl. cbn [andb].
    apply N.eqb_neq in Hz. now rewrite Hz.
  - cbn [app]. f_equal. rewrite app_assoc, E, <- app_assoc. reflexivity.
Qed.

Lemma openTag_not_closing name attrs :
  tagName name = true ->
  startsWith (openTagText name attrs) (u "</") = false.
Proof.
  intros Hn. destruct name as [|c cs]; [discriminate|].
  assert (Hc : c <> 47).
  { apply alnum_not_slash, (@tagName_alnum (c :: cs) c Hn). now left. }
  unfold openTagText. change (u "</") with [60; 47].
  cbn [app startsWith]. rewrite N.eqb_refl. cbn [andb].
  apply N.eqb_neq in Hc. now rewrite Hc.
Qed.

Lemma depthStep_open st p name attrs :
  tagName name = true -> tagAttrs attrs = true -> isVoidName name = false ->
  depthStep st (Match p (openTagText name attrs) (Some name) None)
  = mkDepth (Z.max (maxDepth st) (currentDepth st + 1)) (currentDepth st + 1).
Proof.
  intros Hn Ha Hv. unfold depthStep. cbn [matched group1 g1].
  unfold isVoidName in Hv. rewrite Hv.
  rewrite (@openTag_not_selfclosed name attrs Hn Ha).
  rewrite (@openTag_not_closing name attrs Hn). reflexivity.
Qed.

(** The depth after a document of nested opening tags and text. *)
Lemma depth_of_nesting ps : forall p pv d,
  forallb nestingPiece ps = true ->
  fold_left depthStep
    (matchAllFrom false Patterns.tagRegex 0 p pv (renderAll ps))
    (mkDepth d d)
  = mkDepth (d + Z.of_nat (length (filter isOpenTag ps)))
            (d + Z.of_nat (length (filter isOpenTag ps))).
Proof.
  induction ps as [|[name attrs|name|t] ps IH]; intros p pv d H.
  - unfold renderAll, Patterns.tagRegex. cbn [flat_map Seqs].
    rewrite matchAllFrom_end. cbn. now rewrite Z.add_0_r.
  - cbn [forallb nestingPiece] in H. apply andb_prop in H.
    destruct H as [H Hps]. apply andb_prop in H. destruct H as [H Hv].
    apply andb_prop in H. destruct H as [Hn Ha].
    apply negb_true_iff in Hv.
    change (renderAll (OpenTag name attrs :: ps))
      with (openTagText name attrs ++ renderAll ps).
    destruct (@matchAllFrom_tag false Patterns.tagRegex p pv
                (openTagText name attrs) (renderAll ps) _
                (@tagRegex_open p pv name attrs (renderAll ps) Hn Ha)
                eq_refl ltac:(discriminate)) as (p' & pv' & E).
    rewrite E. cbn [fold_left]. rewrite (@depthStep_open _ p name attrs Hn Ha Hv).
    cbn [maxDepth currentDepth].
    replace (Z.max d (d + 1)) with (d + 1)%Z by lia.
    rewrite (IH p' pv' (d + 1)%Z Hps). cbn [filter isOpenTag length].
    f_equal; lia.
  - discriminate H.
  - cbn [forallb nestingPiece] in H. apply andb_prop in H.
    destruct H as [Ht Hps].
    change (renderAll (PlainText t :: ps)) with (t ++ renderAll ps).
    unfold Patterns.tagRegex. cbn [Seqs]. rewrite matchAllFrom_plain by exact Ht.
    apply (IH _ _ d Hps).
Qed.

(** The running depth is never negative. *)
Lemma depthStates_nonneg ms : forall st,
  (0 <= currentDepth st)%Z ->
  Forall (fun s => (0 <= currentDepth s)%Z) (depthStates st ms).
Proof.
  induction ms as [|m ms IH]; intros st H; cbn [depthStates].
  - constructor; [exact H | constructor].
  - constructor; [exact H|]. apply IH. unfold depthStep.
    destruct (_ || _); [exact H|].
    destruct (startsWith _ _); cbn [currentDepth]; lia.
Qed.

Lemma notSlashGt_spec c :
  clsMatches false true [CChar 47; CChar 62] c
  = negb (c =? 47) && negb (c =? 62).
Proof.
  unfold clsMatches, clsHas. cbn. rewrite !orb_false_r.
  destruct (c =? 47), (c =? 62); reflexivity.
Qed.

Lemma alnum_not_gt z : isAlnum z = true -> z <> 62.
Proof. intros H E. subst z. discriminate H. Qed.

Lemma openingTag_open_state p pv name attrs tl_ :
  tagName name = true -> tagAttrs attrs = true ->
  forallb (fun x => negb (x =? 47)) attrs = true ->
  exists res,
    rmatch false Patterns.openingTag
      (MState p pv (openTagText name attrs ++ tl_) None None) Some = Some res
    /\ pos res = (p + length (openTagText name attrs))%nat
    /\ cap1 res = None /\ cap2 res = None.
Proof.
  intros Hn Ha Hs. pose proof Hn as Hn'.
  destruct name as [|c cs]; [discriminate|].
  cbn [tagName] in Hn. apply andb_prop in Hn. destruct Hn as [Hc Hcs].
  destruct (@tagAttrs_inv attrs Ha) as (Hgt & _ & _).
  set (st0 := MState p pv (openTagText (c :: cs) attrs ++ tl_) None None).
  set (st1 := consume st0 [60]).
  set (st2 := consume st1 [c]).
  set (st3 := consume st2 (cs ++ attrs)).
  assert (R1 : rest st1 = c :: (cs ++ attrs) ++ 62 :: tl_).
  { unfold st1, st0, openTagText. cbn. now rewrite <- !app_assoc. }
  assert (R2 : rest st2 = (cs ++ attrs) ++ 62 :: tl_).
  { unfold st2. apply consume_rest with (cs := [c]). exact R1. }
  assert (R3 : rest st3 = 62 :: tl_).
  { unfold st3. apply consume_rest. exact R2. }
  exists (consume st3 [62]). split; [|split; [|split]].
  - unfold Patterns.openingTag. cbn [Seqs].
    rewrite rmatch_Seq.
    rewrite (@rmatch_Chr_ok false 60 st0 _ 60
               (c :: (cs ++ attrs ++ [62]) ++ tl_));
      [|reflexivity|reflexivity].
    fold st1. rewrite rmatch_Seq.
    rewrite (@rmatch_Cls_ok false false _ st1 _ c _ R1);
      [|now rewrite letter_spec].
    fold st2. rewrite rmatch_Seq.
    apply rmatch_Star_cls_run with (cs := cs ++ attrs) (tl_ := 62 :: tl_).
    + exact R2.
    + rewrite (@forallb_eq _ _ _ (cs ++ attrs) notSlashGt_spec).
      rewrite forallb_app. apply andb_true_intro. split.
      * apply forallb_forall. intros z Hz.
        assert (Hz' : isAlnum z = true).
        { apply (@tagName_alnum (c :: cs) z Hn'). now right. }
        apply andb_true_intro.
        split; apply negb_true_iff, N.eqb_neq;
          [now apply alnum_not_slash | now apply alnum_not_gt].
      * apply forallb_forall. intros z Hz.
        rewrite forallb_forall in Hgt, Hs.
        now rewrite (Hgt z Hz), (Hs z Hz).
    + rewrite notSlashGt_spec. reflexivity.
    + fold st3. now rewrite (@rmatch_Chr_ok false 62 st3 _ 62 tl_ R3).
  - rewrite consume_pos. unfold st3, st2, st1. rewrite !consume_pos.
    unfold openTagText. cbn [pos st0]. rewrite !length_app. cbn [length]. lia.
  - destruct (consume_caps st3 [62]) as [-> _]. unfold st3.
    destruct (consume_caps st2 (cs ++ attrs)) as [-> _]. reflexivity.
  - destruct (consume_caps st3 [62]) as [_ ->]. unfold st3.
    destruct (consume_caps st2 (cs ++ attrs)) as [_ ->]. reflexivity.
Qed.

Lemma openingTag_open p pv name attrs tl_ :
  tagName name = true -> tagAttrs attrs = true ->
  forallb (fun x => negb (x =? 47)) attrs = true ->
  matchAt false Patterns.openingTag p pv (openTagText name attrs ++ tl_)
  = Some (Match p (openTagText name attrs) None None).
Proof.
  intros Hn Ha Hs.
  destruct (@openingTag_open_state p pv name attrs tl_ Hn Ha Hs)
    as (res & E & Hp & H1 & H2).
  unfold matchAt. rewrite E, Hp, H1, H2.
  replace (p + length (openTagText name attrs) - p)%nat
    with (length (openTagText name attrs)) by lia.
  now rewrite firstn_length_app.
Qed.

(** The element counter finds nothing at the [<] of a closing tag. *)
Lemma openingTag_close p pv s :
  matchAt false Patterns.openingTag p pv (60 :: 47 :: s) = None.
Proof. reflexivity. Qed.

Lemma closeTag_tail_plain name :
  tagName name = true -> plainText (47 :: name ++ [62]) = true.
Proof.
  intros Hn. unfold plainText. cbn [forallb]. rewrite forallb_app.
  cbn [forallb]. rewrite andb_true_r. cbn [andb negb N.eqb].
  apply forallb_forall. intros z Hz.
  apply negb_true_iff, N.eqb_neq. intros ->.
  pose proof (@tagName_alnum name 60 Hn Hz) as H. discriminate H.
Qed.

(** The element count of a document of tags without a slash inside:
    the number of its opening tags. *)
Lemma count_of_slashFree ps : forall p pv,
  forallb slashFreePiece ps = true ->
  length (matchAllFrom false Patterns.openingTag 0 p pv (renderAll ps))
  = length (filter isOpenTag ps).
Proof.
  induction ps as [|[name attrs|name|t] ps IH]; intros p pv H.
  - unfold renderAll, Patterns.openingTag. cbn [flat_map Seqs].
    now rewrite matchAllFrom_end.
  - cbn [forallb slashFreePiece] in H. apply andb_prop in H.
    destruct H as [H Hps]. apply andb_prop in H. destruct H as [H Hs].
    apply andb_prop in H. destruct H as [Hn Ha].
    change (renderAll (OpenTag name attrs :: ps))
      with (openTagText name attrs ++ renderAll ps).
    destruct (@matchAllFrom_tag false Patterns.openingTag p pv
                (openTagText name attrs) (renderAll ps) _
                (@openingTag_open p pv name attrs (renderAll ps) Hn Ha Hs)
                eq_refl ltac:(discriminate)) as (p' & pv' & E).
    rewrite E. cbn [length filter isOpenTag]. now rewrite (IH p' pv' Hps).
  - cbn [forallb slashFreePiece] in H. apply andb_prop in H.
    destruct H as [Hn Hps].
    change (renderAll (CloseTag name :: ps))
      with (60 :: (47 :: name ++ [62]) ++ renderAll ps).
    cbn [matchAllFrom]. change ((47 :: name ++ [62]) ++ renderAll ps)
      with (47 :: (name ++ [62]) ++ renderAll ps) at 1.
    rewrite openingTag_close.
    unfold Patterns.openingTag. cbn [Seqs].
    rewrite matchAllFrom_plain by now apply closeTag_tail_plain.
    cbn [filter isOpenTag]. apply (IH _ _ Hps).
  - cbn [forallb slashFreePiece] in H. apply andb_prop in H.
    destruct H as [Ht Hps].
    change (renderAll (PlainText t :: ps)) with (t ++ renderAll ps).
    unfold Patterns.openingTag. cbn [Seqs].
    rewrite matchAllFrom_plain by exact Ht.
    cbn [filter isOpenTag]. apply (IH _ _ Hps).
Qed.

(** *** DOM depth *)

(** The depth when every tag the tracker finds opens an element. *)
Lemma depth_of_opening_matches ms : forall d,
  forallb opensElement ms = true ->
  fold_left depthStep ms (mkDepth d d)
  = mkDepth (d + Z.of_nat (length ms)) (d + Z.of_nat (length ms)).
Proof.
  induction ms as [|m ms IH]; intros d H.
  - cbn. now rewrite Z.add_0_r.
  - cbn [forallb] in H. apply andb_prop in H. destruct H as [Hm Hms].
    unfold opensElement in Hm. apply andb_prop in Hm. destruct Hm as [H1 H2].
    apply negb_true_iff in H1. apply negb_true_iff in H2.
    cbn [fold_left]. unfold depthStep at 2. rewrite H1, H2.
    cbn [maxDepth currentDepth].
    replace (Z.max d (d + 1)) with (d + 1)%Z by lia.
    rewrite (IH (d + 1)%Z Hms). cbn [length]. f_equal; lia.
Qed.

(** C3.  On every input the running depth is never negative, at any
    point of the pass; and for a document of N opening tags of elements
    that are not void, with text between them and no closing tag, the
    result is N.  The last part is also stated on the tags the tracker
    finds: when each of them opens an element, the result is their
    number. *)
Theorem depth_tracker :
  (forall html,
     Forall (fun st => (0 <= currentDepth st)%Z) (depthTrace html))
  /\ (forall ps,
        forallb nestingPiece ps = true ->
        calculateMaxDOMDepth (renderAll ps)
        = Z.of_nat (length (filter isOpenTag ps)))
  /\ (forall html,
        forallb opensElement (tagMatches html) = true ->
        calculateMaxDOMDepth html = Z.of_nat (length (tagMatches html))).
Proof.
  split; [|split].
  - intros html. unfold depthTrace. apply depthStates_nonneg. cbn. lia.
  - intros ps H. unfold calculateMaxDOMDepth, tagMatches, matchAll, depthInit.
    rewrite (@depth_of_nesting ps 0%nat None 0%Z H). reflexivity.
  - intros html H. unfold calculateMaxDOMDepth, depthInit.
    rewrite (@depth_of_opening_matches (tagMatches html) 0%Z H). reflexivity.
Qed.

Lemma depth_tracker_witness :
  let page := [OpenTag (u "html") (u " lang='en'"); OpenTag (u "body") [];
               PlainText (u "Hello "); OpenTag (u "div") (u " id='main'");
               OpenTag (u "span") []] in
  forallb nestingPiece page = true
  /\ calculateMaxDOMDepth (renderAll page) = 4%Z
  /\ forallb opensElement (tagMatches (u "<ul><li><a href='x'>")) = true
  /\ calculateMaxDOMDepth (u "<ul><li><a href='x'>") = 3%Z.
Proof.
  intros page.
  assert (N : forallb nestingPiece page = true) by (vm_compute; reflexivity).
  assert (O : forallb opensElement (tagMatches (u "<ul><li><a href='x'>"))
              = true) by (vm_compute; reflexivity).
  destruct depth_tracker as (_ & Hn & Ho).
  split; [exact N | split; [exact (Hn page N) | split; [exact O|]]].
  exact (Ho _ O).
Defined.

(** *** DOM size *)

Lemma countCode_dom_warning urlOrigin config policy doc :
  countCode "WRS_DOM_SIZE_WARNING" (diagnosticsOf urlOrigin config policy doc)
  = countCode "WRS_DOM_SIZE_WARNING" (domSizeRule doc).
Proof. count_others. Qed.

Lemma countCode_dom_exceeded urlOrigin config policy doc :
  countCode "WRS_DOM_SIZE_EXCEEDED" (diagnosticsOf urlOrigin config policy doc)
  = countCode "WRS_DOM_SIZE_EXCEEDED" (domSizeRule doc).
Proof. count_others. Qed.

Lemma in_dom_size urlOrigin config policy doc d :
  In d (diagnosticsOf urlOrigin config policy doc) ->
  code d = "WRS_DOM_SIZE_WARNING" \/ code d = "WRS_DOM_SIZE_EXCEEDED" ->
  In d (domSizeRule doc).
Proof.
  intros H [E|E]; by_rule H; first [exact H | wrong_rule H E].
Qed.

Lemma filter_isOpenTag_divs n : length (filter isOpenTag (divs n)) = n.
Proof.
  unfold divs. induction n as [|n IH]; [reflexivity|].
  cbn [repeat filter isOpenTag length]. now rewrite IH.
Qed.

Lemma slashFree_divs n : forallb slashFreePiece (divs n) = true.
Proof.
  unfold divs. induction n as [|n IH]; [reflexivity|].
  cbn [repeat forallb]. now rewrite IH.
Qed.

(** C5, as the code has it.  The element counter counts the opening tags
    written without a slash, void elements included: in a document made of
    opening tags whose attributes have no slash, of closing tags and of
    text, the count is the number of opening tags.  A scanned document
    with more than 800 such matches gets the informational finding, one
    with more than 1500 gets both findings; so does a page of 1600 opening
    tags. *)
Theorem element_count :
  (forall doc ps,
     getText doc = renderAll ps ->
     forallb slashFreePiece ps = true ->
     totalElements doc = length (filter isOpenTag ps))
  /\ (forall urlOrigin config policy doc ds,
        scanDocument urlOrigin config policy doc = Some ds ->
        ((800 < totalElements doc)%nat ->
           countCode "WRS_DOM_SIZE_WARNING" ds = 1%nat)
        /\ ((1500 < totalElements doc)%nat ->
           countCode "WRS_DOM_SIZE_WARNING" ds = 1%nat
           /\ countCode "WRS_DOM_SIZE_EXCEEDED" ds = 1%nat)
        /\ (forall d, In d ds ->
              (code d = "WRS_DOM_SIZE_WARNING" -> severity d = Information)
              /\ (code d = "WRS_DOM_SIZE_EXCEEDED" -> severity d = Error)))
  /\ (forall urlOrigin config policy ds,
        scanDocument urlOrigin config policy
          (mkDocument (u "index.html") (renderAll (divs 1600))) = Some ds ->
        countCode "WRS_DOM_SIZE_WARNING" ds = 1%nat
        /\ countCode "WRS_DOM_SIZE_EXCEEDED" ds = 1%nat).
Proof.
  assert (Count : forall doc ps,
     getText doc = renderAll ps ->
     forallb slashFreePiece ps = true ->
     totalElements doc = length (filter isOpenTag ps)).
  { intros doc ps E H. unfold totalElements, matchAll. rewrite E.
    now apply count_of_slashFree. }
  assert (Rule : forall urlOrigin config policy doc ds,
        scanDocument urlOrigin config policy doc = Some ds ->
        ((800 < totalElements doc)%nat ->
           countCode "WRS_DOM_SIZE_WARNING" ds = 1%nat)
        /\ ((1500 < totalElements doc)%nat ->
           countCode "WRS_DOM_SIZE_WARNING" ds = 1%nat
           /\ countCode "WRS_DOM_SIZE_EXCEEDED" ds = 1%nat)
        /\ (forall d, In d ds ->
              (code d = "WRS_DOM_SIZE_WARNING" -> severity d = Information)
              /\ (code d = "WRS_DOM_SIZE_EXCEEDED" -> severity d = Error))).
  { intros urlOrigin config policy doc ds Hs.
    apply scanDocument_Some in Hs. destruct Hs as [-> _].
    split; [|split].
    - intros H. rewrite countCode_dom_warning. unfold domSizeRule.
      apply Nat.ltb_lt in H. rewrite H.
      destruct (1500 <? totalElements doc)%nat; reflexivity.
    - intros H. rewrite countCode_dom_warning, countCode_dom_exceeded.
      unfold domSizeRule.
      assert (H8 : (800 <? totalElements doc)%nat = true)
        by (apply Nat.ltb_lt; lia).
      apply Nat.ltb_lt in H. rewrite H, H8. split; reflexivity.
    - intros d Hd. split; intros Hc.
      + apply in_dom_size in Hd; [|now left]. unfold domSizeRule in Hd.
        apply in_app_or in Hd. destruct Hd as [Hd|Hd];
          [destruct (800 <? totalElements doc)%nat
          |destruct (1500 <? totalElements doc)%nat];
          try destruct Hd as [<- | []]; try destruct Hd;
          first [reflexivity | discriminate Hc].
      + apply in_dom_size in Hd; [|now right]. unfold domSizeRule in Hd.
        apply in_app_or in Hd. destruct Hd as [Hd|Hd];
          [destruct (800 <? totalElements doc)%nat
          |destruct (1500 <? totalElements doc)%nat];
          try destruct Hd as [<- | []]; try destruct Hd;
          first [reflexivity | discriminate Hc]. }
  split; [exact Count | split; [exact Rule|]].
  intros urlOrigin config policy ds Hs.
  destruct (Rule _ _ _ _ _ Hs) as (_ & H15 & _). apply H15.
  rewrite (Count (mkDocument (u "index.html") (renderAll (divs 1600)))
             (divs 1600) eq_refl (slashFree_divs 1600)).
  rewrite filter_isOpenTag_divs. lia.
Qed.

Lemma element_count_witness :
  let page := mkDocument (u "index.html") (renderAll (divs 1600)) in
  let mixed := [OpenTag (u "p") []; PlainText (u "a"); OpenTag (u "br") [];
                OpenTag (u "meta") (u " charset='UTF-8'");
                CloseTag (u "p")] in
  (forallb slashFreePiece mixed = true
   /\ totalElements (mkDocument (u "index.html") (renderAll mixed)) = 3%nat)
  /\ scanDocument noOrigin noSettings emptyPolicy page
     = Some (diagnosticsOf noOrigin noSettings emptyPolicy page)
  /\ countCode "WRS_DOM_SIZE_WARNING"
       (diagnosticsOf noOrigin noSettings emptyPolicy page) = 1%nat
  /\ countCode "WRS_DOM_SIZE_EXCEEDED"
       (diagnosticsOf noOrigin noSettings emptyPolicy page) = 1%nat.
Proof.
  intros page mixed.
  assert (M : forallb slashFreePiece mixed = true) by (vm_compute; reflexivity).
  assert (S : scanDocument noOrigin noSettings emptyPolicy page
    = Some (diagnosticsOf noOrigin noSettings emptyPolicy page)).
  { apply scanDocument_scanned; vm_compute; reflexivity. }
  destruct element_count as (Hc & _ & Hp).
  split; [split; [exact M|] | split; [exact S|]].
  - exact (Hc (mkDocument (u "index.html") (renderAll mixed)) mixed eq_refl M).
  - exact (Hp _ _ _ _ S).
Defined.

(** C5, as stated, fails on void elements: the counter counts [<br>] and
    a [<meta>] tag like any opening tag. *)
Lemma void_element_counted :
  totalElements (mkDocument (u "index.html") (u "<br>")) = 1%nat
  /\ totalElements
       (mkDocument (u "index.html")
          (u "<meta charset=" ++ quoted "UTF-8" ++ u ">")) = 1%nat
  /\ totalElements (mkDocument (u "index.html") (u "<br>")) <> 0%nat.
Proof.
  split; [vm_compute; reflexivity | split; [vm_compute; reflexivity|]].
  vm_compute. discriminate.
Qed.

(** An opening tag with a slash in an attribute is not counted, and a
    tag closed with [/>] is not either. *)
Example slash_inside_tag_not_counted :
  totalElements (mkDocument (u "index.html") (u "<a href='/about'>")) = 0%nat
  /\ totalElements (mkDocument (u "index.html") (u "<br/>")) = 0%nat.
Proof. split; vm_compute; reflexivity. Qed.

(** ** Further properties *)

Lemma countCode_cons c d ds :
  countCode c (d :: ds)
  = ((if String.eqb (code d) c then 1 else 0) + countCode c ds)%nat.
Proof.
  unfold countCode. cbn [filter]. unfold hasCode at 1.
  destruct (String.eqb (code d) c); reflexivity.
Qed.

Lemma countCode_nil c : countCode c [] = 0%nat.
Proof. reflexivity. Qed.

(** Counts a code in a rule made of tests and single pushes. *)
Ltac count_rule :=
  repeat match goal with
  | |- context [if ?b then _ :: _ else _] => destruct b
  | |- context [if ?b then [] else _] => destruct b
  | |- context [match ?x with Some _ => _ | None => _ end] => destruct x
  end;
  rewrite ?countCode_app, ?countCode_cons, ?countCode_nil;
  cbn [code buildDiagnostic];
  repeat match goal with
  | |- context [String.eqb ?a ?b] =>
      let v := eval vm_compute in (String.eqb a b) in
      change (String.eqb a b) with v
  end;
  cbv iota.

(** *** Meta description *)

Lemma countCode_desc_missing urlOrigin config policy doc :
  countCode "SEO_META_DESC_MISSING" (diagnosticsOf urlOrigin config policy doc)
  = countCode "SEO_META_DESC_MISSING" (metaDescriptionRule policy doc).
Proof. count_others. Qed.

Lemma countCode_desc_length urlOrigin config policy doc :
  countCode "SEO_META_DESC_LENGTH" (diagnosticsOf urlOrigin config policy doc)
  = countCode "SEO_META_DESC_LENGTH" (metaDescriptionRule policy doc).
Proof. count_others. Qed.

(** X1.  A scanned document without a description tag gets exactly one
    SEO_META_DESC_MISSING, whatever its file type and framework markers;
    one with a description tag gets none, and gets one
    SEO_META_DESC_LENGTH exactly when the trimmed content is outside
    [metaDescriptionMin, metaDescriptionMax]. *)
Theorem meta_description_rule urlOrigin config policy doc ds :
  scanDocument urlOrigin config policy doc = Some ds ->
  match trimmedDescriptionLength doc with
  | None =>
      countCode "SEO_META_DESC_MISSING" ds = 1%nat
      /\ countCode "SEO_META_DESC_LENGTH" ds = 0%nat
  | Some n =>
      countCode "SEO_META_DESC_MISSING" ds = 0%nat
      /\ countCode "SEO_META_DESC_LENGTH" ds
         = (if within n (resolvedDescMin policy) (resolvedDescMax policy)
            then 0 else 1)%nat
  end.
Proof.
  intros Hs. apply scanDocument_Some in Hs. destruct Hs as [-> _].
  rewrite countCode_desc_missing, countCode_desc_length.
  unfold trimmedDescriptionLength, metaDescriptionRule.
  destruct (exec true Patterns.metaDescription (getText doc)) as [m|].
  - destruct (within _ _ _); split; reflexivity.
  - split; reflexivity.
Qed.

Lemma meta_description_rule_witness :
  scanDocument noOrigin noSettings emptyPolicy plainModule
  = Some (diagnosticsOf noOrigin noSettings emptyPolicy plainModule)
  /\ trimmedDescriptionLength plainModule = None
  /\ countCode "SEO_META_DESC_MISSING"
       (diagnosticsOf noOrigin noSettings emptyPolicy plainModule) = 1%nat.
Proof.
  assert (S : scanDocument noOrigin noSettings emptyPolicy plainModule
    = Some (diagnosticsOf noOrigin noSettings emptyPolicy plainModule))
    by (vm_compute; reflexivity).
  assert (N : trimmedDescriptionLength plainModule = None)
    by (vm_compute; reflexivity).
  split; [exact S | split; [exact N|]].
  pose proof (meta_description_rule _ _ _ _ S) as H.
  rewrite N in H. exact (proj1 H).
Defined.

(** *** Canonical link *)

Lemma countCode_canonical urlOrigin config policy doc :
  countCode "SEO_CANONICAL_MISSING" (diagnosticsOf urlOrigin config policy doc)
  = countCode "SEO_CANONICAL_MISSING" (canonicalRule config policy doc).
Proof. count_others. Qed.

(** X2.  The canonical rule obeys the policy before the setting and the
    setting before the default [true]: with requireCanonical false in the
    policy, or absent from the policy and false in the settings, a scanned
    document never gets SEO_CANONICAL_MISSING; otherwise it gets exactly
    one when no canonical link is found and none when one is. *)
Theorem canonical_rule urlOrigin config policy doc ds :
  scanDocument urlOrigin config policy doc = Some ds ->
  let required :=
    match optChain (seo policy) requireCanonical with
    | Some b => b
    | None =>
        match kanmi_requireCanonical config with
        | Some b => b
        | None => true
        end
    end in
  countCode "SEO_CANONICAL_MISSING" ds
  = (if required && negb (test true Patterns.canonical (getText doc))
     then 1 else 0)%nat.
Proof.
  intros Hs required. apply scanDocument_Some in Hs. destruct Hs as [-> _].
  rewrite countCode_canonical. unfold canonicalRule, resolvedRequireCanonical.
  unfold nullish. fold required. unfold test.
  destruct required; [|reflexivity].
  destruct (exec true Patterns.canonical (getText doc)); reflexivity.
Qed.

Lemma canonical_rule_witness :
  (scanDocument noOrigin (mkConfiguration (Some true) None)
     (canonicalPolicy false) plainModule
   = Some (diagnosticsOf noOrigin (mkConfiguration (Some true) None)
             (canonicalPolicy false) plainModule)
   /\ countCode "SEO_CANONICAL_MISSING"
        (diagnosticsOf noOrigin (mkConfiguration (Some true) None)
           (canonicalPolicy false) plainModule) = 0%nat)
  /\ (scanDocument noOrigin noSettings emptyPolicy plainModule
      = Some (diagnosticsOf noOrigin noSettings emptyPolicy plainModule)
      /\ countCode "SEO_CANONICAL_MISSING"
           (diagnosticsOf noOrigin noSettings emptyPolicy plainModule)
         = 1%nat).
Proof.
  assert (S1 : scanDocument noOrigin (mkConfiguration (Some true) None)
     (canonicalPolicy false) plainModule
   = Some (diagnosticsOf noOrigin (mkConfiguration (Some true) None)
             (canonicalPolicy false) plainModule))
    by (vm_compute; reflexivity).
  assert (S2 : scanDocument noOrigin noSettings emptyPolicy plainModule
      = Some (diagnosticsOf noOrigin noSettings emptyPolicy plainModule))
    by (vm_compute; reflexivity).
  split; (split; [assumption|]).
  - rewrite (canonical_rule _ _ _ _ S1). reflexivity.
  - rewrite (canonical_rule _ _ _ _ S2). vm_compute. reflexivity.
Defined.

(** *** JSON-LD hints *)

Lemma countCode_jsonld_product urlOrigin config policy doc :
  countCode "SEO_JSONLD_PRODUCT_MISSING"
    (diagnosticsOf urlOrigin config policy doc)
  = countCode "SEO_JSONLD_PRODUCT_MISSING" (jsonLdRule policy doc).
Proof. count_others. Qed.

Lemma countCode_jsonld_article urlOrigin config policy doc :
  countCode "SEO_JSONLD_ARTICLE_MISSING"
    (diagnosticsOf urlOrigin config policy doc)
  = countCode "SEO_JSONLD_ARTICLE_MISSING" (jsonLdRule policy doc).
Proof. count_others. Qed.

(** X3.  The JSON-LD hints are opt-in and silenced by any JSON-LD block:
    a scanned document gets neither hint when the policy lists no page
    type (the default) or when the text has a JSON-LD script tag; and a
    hint for a type is pushed only when the policy lists that type. *)
Theorem jsonld_hints urlOrigin config policy doc ds :
  scanDocument urlOrigin config policy doc = Some ds ->
  let types := nullish (optChain (seo policy) requireJsonLdFor) [] in
  (types = [] \/ test false Patterns.jsonLd (getText doc) = true ->
   countCode "SEO_JSONLD_PRODUCT_MISSING" ds = 0%nat
   /\ countCode "SEO_JSONLD_ARTICLE_MISSING" ds = 0%nat)
  /\ (has types (u "Product") = false ->
      countCode "SEO_JSONLD_PRODUCT_MISSING" ds = 0%nat)
  /\ (has types (u "Article") = false ->
      countCode "SEO_JSONLD_ARTICLE_MISSING" ds = 0%nat).
Proof.
  intros Hs types. apply scanDocument_Some in Hs. destruct Hs as [-> _].
  rewrite countCode_jsonld_product, countCode_jsonld_article.
  unfold jsonLdRule. fold types.
  split; [|split].
  - intros [E | J].
    + rewrite E. split; reflexivity.
    + destruct types; [split; reflexivity|]. rewrite J. cbn [negb].
      rewrite !andb_false_r. split; reflexivity.
  - intros H. destruct types; [reflexivity|]. rewrite H. cbn [andb].
    rewrite countCode_app, countCode_nil.
    destruct (_ && _); reflexivity.
  - intros H. destruct types; [reflexivity|]. rewrite H. cbn [andb].
    rewrite countCode_app, countCode_nil.
    destruct (_ && _); reflexivity.
Qed.

Lemma jsonld_hints_witness :
  let shop := mkDocument (u "product.html") (u "<h1>Price list</h1>") in
  (scanDocument noOrigin noSettings emptyPolicy shop
   = Some (diagnosticsOf noOrigin noSettings emptyPolicy shop)
   /\ countCode "SEO_JSONLD_PRODUCT_MISSING"
        (diagnosticsOf noOrigin noSettings emptyPolicy shop) = 0%nat)
  /\ (scanDocument noOrigin noSettings (jsonLdPolicy [u "Product"]) shop
      = Some (diagnosticsOf noOrigin noSettings (jsonLdPolicy [u "Product"])
                shop)
      /\ has (nullish (optChain (seo (jsonLdPolicy [u "Product"]))
                               requireJsonLdFor) []) (u "Article") = false
      /\ countCode "SEO_JSONLD_ARTICLE_MISSING"
           (diagnosticsOf noOrigin noSettings (jsonLdPolicy [u "Product"])
              shop) = 0%nat
      /\ countCode "SEO_JSONLD_PRODUCT_MISSING"
           (diagnosticsOf noOrigin noSettings (jsonLdPolicy [u "Product"])
              shop) = 1%nat).
Proof.
  intros shop.
  assert (S1 : scanDocument noOrigin noSettings emptyPolicy shop
   = Some (diagnosticsOf noOrigin noSettings emptyPolicy shop))
    by (vm_compute; reflexivity).
  assert (S2 : scanDocument noOrigin noSettings (jsonLdPolicy [u "Product"])
                 shop
      = Some (diagnosticsOf noOrigin noSettings (jsonLdPolicy [u "Product"])
                shop)) by (vm_compute; reflexivity).
  split.
  - split; [exact S1|].
    apply (proj1 (jsonld_hints _ _ _ _ S1)). left. reflexivity.
  - split; [exact S2 | split; [reflexivity | split]].
    + apply (proj2 (proj2 (jsonld_hints _ _ _ _ S2))). reflexivity.
    + vm_compute. reflexivity.
Defined.

(** *** HTML payload size, below the gate *)

Lemma countCode_size_large urlOrigin config policy doc :
  countCode "PERF_HTML_SIZE_LARGE" (diagnosticsOf urlOrigin config policy doc)
  = countCode "PERF_HTML_SIZE_LARGE" (htmlSizeRule doc).
Proof. count_others. Qed.

Lemma countCode_size_excessive urlOrigin config policy doc :
  countCode "PERF_HTML_SIZE_EXCESSIVE"
    (diagnosticsOf urlOrigin config policy doc)
  = countCode "PERF_HTML_SIZE_EXCESSIVE" (htmlSizeRule doc).
Proof. count_others. Qed.

(** X4.  For a scanned document the size findings are decided by the
    byte length alone: up to 100KB none, above 100KB and up to 150KB
    exactly the PERF_HTML_SIZE_LARGE warning, above 150KB exactly the
    PERF_HTML_SIZE_EXCESSIVE error; never both. *)
Theorem html_size_below_gate urlOrigin config policy doc ds :
  scanDocument urlOrigin config policy doc = Some ds ->
  let b := byteLength (getText doc) in
  countCode "PERF_HTML_SIZE_LARGE" ds
  = (if (100 * 1024 <? b) && (b <=? 150 * 1024) then 1%nat else 0%nat)
  /\ countCode "PERF_HTML_SIZE_EXCESSIVE" ds
     = (if 150 * 1024 <? b then 1%nat else 0%nat).
Proof.
  intros Hs b. pose proof Hs as Hs'.
  apply scanDocument_Some in Hs. destruct Hs as (-> & _ & Hsmall).
  unfold tooLarge in Hsmall. fold b in Hsmall.
  apply N.ltb_ge in Hsmall.
  rewrite countCode_size_large, countCode_size_excessive.
  rewrite !countCode_by_codes, htmlSizeRule_bands. fold b. cbv zeta.
  change (100 * 1024) with 102400. change (150 * 1024) with 153600.
  change (500 * 1024) with 512000 in Hsmall.
  destruct (N.leb_spec b 102400).
  { destruct (N.ltb_spec 102400 b); [lia|].
    destruct (N.ltb_spec 153600 b); [lia|]. split; reflexivity. }
  destruct (N.ltb_spec 102400 b); [|lia].
  destruct (N.leb_spec b 153600).
  { destruct (N.ltb_spec 153600 b); [lia|]. split; reflexivity. }
  destruct (N.ltb_spec 153600 b); [|lia].
  destruct (N.leb_spec b 10240000); [|lia]. split; reflexivity.
Qed.

Lemma scanned_pageOfSize urlOrigin config policy n :
  n <= 512000 ->
  scanDocument urlOrigin config policy (pageOfSize n)
  = Some (diagnosticsOf urlOrigin config policy (pageOfSize n)).
Proof.
  intros H. apply scanDocument_scanned; [vm_compute; reflexivity|].
  unfold tooLarge, pageOfSize. cbn [getText mkDocument].
  rewrite byteLength_filler. apply N.ltb_ge. exact H.
Qed.

Lemma html_size_below_gate_witness :
  (scanDocument noOrigin noSettings emptyPolicy (pageOfSize 120000)
   = Some (diagnosticsOf noOrigin noSettings emptyPolicy (pageOfSize 120000))
   /\ countCode "PERF_HTML_SIZE_LARGE"
        (diagnosticsOf noOrigin noSettings emptyPolicy (pageOfSize 120000))
      = 1%nat)
  /\ (scanDocument noOrigin noSettings emptyPolicy (pageOfSize 400000)
      = Some (diagnosticsOf noOrigin noSettings emptyPolicy
                (pageOfSize 400000))
      /\ countCode "PERF_HTML_SIZE_EXCESSIVE"
           (diagnosticsOf noOrigin noSettings emptyPolicy (pageOfSize 400000))
         = 1%nat).
Proof.
  assert (S1 := @scanned_pageOfSize noOrigin noSettings emptyPolicy 120000
                  ltac:(lia)).
  assert (S2 := @scanned_pageOfSize noOrigin noSettings emptyPolicy 400000
                  ltac:(lia)).
  split; (split; [assumption|]).
  - rewrite (proj1 (html_size_below_gate _ _ _ _ S1)).
    unfold pageOfSize. cbn [getText mkDocument]. rewrite byteLength_filler.
    reflexivity.
  - rewrite (proj2 (html_size_below_gate _ _ _ _ S2)).
    unfold pageOfSize. cbn [getText mkDocument]. rewrite byteLength_filler.
    reflexivity.
Defined.

(** *** Imports *)

Lemma importStep_fold doc ms : forall acc,
  let lookups :=
    map (fun m => heavyLookup (packageNameOf (importPathOf m))) ms in
  countCode "WRS_HEAVY_DEPENDENCY" (snd (fold_left (importStep doc) ms acc))
  = (countCode "WRS_HEAVY_DEPENDENCY" (snd acc)
     + length (filter (fun e => negb (isAbsent e)) lookups))%nat
  /\ (fst acc = NaN -> fst (fold_left (importStep doc) ms acc) = NaN)
  /\ (existsb isInherited lookups = true ->
      fst (fold_left (importStep doc) ms acc) = NaN)
  /\ (forall t, fst acc = Num t -> existsb isInherited lookups = false ->
      fst (fold_left (importStep doc) ms acc)
      = Num (t + fold_right Z.add 0%Z (map sizeOf lookups))).
Proof.
  induction ms as [|m ms IH]; intros acc lookups.
  - cbn. repeat split; try congruence.
    + lia.
    + intros t H _. rewrite H. f_equal. lia.
  - subst lookups. cbn [map fold_left].
    destruct (IH (importStep doc acc m)) as (C & Nn & I & Sm).
    assert (Step :
      match heavyLookup (packageNameOf (importPathOf m)) with
      | Own size _ =>
          countCode "WRS_HEAVY_DEPENDENCY" (snd (importStep doc acc m))
          = S (countCode "WRS_HEAVY_DEPENDENCY" (snd acc))
          /\ fst (importStep doc acc m)
             = match fst acc with Num t => Num (t + size) | NaN => NaN end
      | Inherited =>
          countCode "WRS_HEAVY_DEPENDENCY" (snd (importStep doc acc m))
          = S (countCode "WRS_HEAVY_DEPENDENCY" (snd acc))
          /\ fst (importStep doc acc m) = NaN
      | Absent => importStep doc acc m = acc
      end).
    { unfold importStep.
      destruct (heavyLookup (packageNameOf (importPathOf m))); cbn [fst snd].
      - rewrite countCode_app, countCode_cons, countCode_nil.
        cbn [code buildDiagnostic String.eqb Ascii.eqb Bool.eqb].
        split; [lia | reflexivity].
      - rewrite countCode_app, countCode_cons, countCode_nil.
        cbn [code buildDiagnostic String.eqb Ascii.eqb Bool.eqb].
        split; [lia | now destruct (fst acc)].
      - reflexivity. }
    destruct (heavyLookup (packageNameOf (importPathOf m))) as [size alt| |].
    + destruct Step as [Sc Sf].
      cbn [filter isAbsent negb length existsb isInherited orb map sizeOf
           fold_right].
      repeat split.
      * rewrite C, Sc. lia.
      * intros H. apply Nn. rewrite Sf, H. reflexivity.
      * exact I.
      * intros t H E. rewrite (Sm (t + size)%Z); [f_equal; lia | | exact E].
        rewrite Sf, H. reflexivity.
    + destruct Step as [Sc Sf].
      cbn [filter isAbsent negb length existsb isInherited orb].
      repeat split.
      * rewrite C, Sc. lia.
      * intros _. now apply Nn.
      * intros _. now apply Nn.
      * intros t _ E. discriminate E.
    + rewrite Step in *.
      cbn [filter isAbsent negb existsb isInherited orb map sizeOf fold_right].
      repeat split; assumption.
Qed.

Lemma countCode_heavy urlOrigin config policy doc :
  countCode "WRS_HEAVY_DEPENDENCY" (diagnosticsOf urlOrigin config policy doc)
  = countCode "WRS_HEAVY_DEPENDENCY" (snd (importScan doc)).
Proof. count_others. Qed.

(** C6.  The package of an import path is made of its first two segments
    when the path starts with [@] and is its first segment otherwise, so
    that an import of @material-ui/core/Button adds the 350KB of
    @material-ui/core to the total.  When no import is named like a
    property of Object.prototype, a scanned document whose listed packages
    add up to more than 1000KB gets the bundle-size error (once), besides
    the warning.  But the lookup of line 556 also answers to the names of
    the properties of Object.prototype, and takes such an import for a
    heavy library without a size: the document that imports xlsx and
    three, 1380KB together, and a module named constructor gets neither
    the error nor the warning. *)
Theorem dependency_cost :
  (forall segs,
     segs <> [] -> Forall (fun seg => noSlash seg = true) segs ->
     let path := join (u "/") segs in
     packageNameOf path
     = if startsWith path (u "@") then join (u "/") (firstn 2 segs)
       else hd [] segs)
  /\ (forall doc total pushed m,
        importPathOf m = u "@material-ui/core/Button" ->
        fst (importStep doc (Num total, pushed) m) = Num (total + 350))
  /\ (forall urlOrigin config policy doc ds,
        scanDocument urlOrigin config policy doc = Some ds ->
        existsb isInherited (importLookups doc) = false ->
        (1000 < listedTotal doc)%Z ->
        countCode "WRS_JS_BUNDLE_SIZE_EXCEEDED" ds = 1%nat
        /\ countCode "WRS_JS_BUNDLE_SIZE_WARNING" ds = 1%nat
        /\ forall d, In d ds -> code d = "WRS_JS_BUNDLE_SIZE_EXCEEDED" ->
                     severity d = Error)
  /\ (forall urlOrigin config policy ds,
        scanDocument urlOrigin config policy poisonedImports = Some ds ->
        (1000 < listedTotal poisonedImports)%Z
        /\ countCode "WRS_JS_BUNDLE_SIZE_EXCEEDED" ds = 0%nat
        /\ countCode "WRS_JS_BUNDLE_SIZE_WARNING" ds = 0%nat).
Proof.
  split; [|split; [|split]].
  - intros segs Hne Hs path. unfold packageNameOf. subst path.
    rewrite (split_join Hne Hs). reflexivity.
  - intros doc total pushed m Hm. unfold importStep. rewrite Hm.
    reflexivity.
  - intros urlOrigin config policy doc ds Hs Hi Hgt.
    apply scanDocument_Some in Hs. destruct Hs as [-> _].
    assert (Ht : totalEstimatedBundleSize doc = Num (listedTotal doc)).
    { unfold totalEstimatedBundleSize, importScan, listedTotal.
      destruct (importStep_fold doc
                  (matchAll false Patterns.importRegex (getText doc))
                  (Num 0, [])) as (_ & _ & _ & S).
      now rewrite (S 0%Z eq_refl Hi). }
    assert (E : exists r1 m1 r2 m2, bundleSizeRule doc =
      [buildDiagnostic r1 m1 "WRS_JS_BUNDLE_SIZE_WARNING" Warning;
       buildDiagnostic r2 m2 "WRS_JS_BUNDLE_SIZE_EXCEEDED" Error]).
    { unfold bundleSizeRule. rewrite Ht.
      destruct (Z.gtb_spec (listedTotal doc) 500); [|lia].
      destruct (Z.gtb_spec (listedTotal doc) 1000); [|lia].
      cbn [app]. eauto 6. }
    destruct E as (r1 & m1 & r2 & m2 & E).
    rewrite countCode_bundle_error, countCode_bundle_warning, E.
    split; [reflexivity | split; [reflexivity|]].
    intros d Hd Hc. by_rule Hd; try wrong_rule Hd Hc.
    rewrite E in Hd. destruct Hd as [<- | [<- | []]];
      [discriminate Hc | reflexivity].
  - intros urlOrigin config policy ds Hs.
    apply scanDocument_Some in Hs. destruct Hs as [-> _].
    split; [vm_compute; reflexivity|].
    assert (T : totalEstimatedBundleSize poisonedImports = NaN).
    { unfold totalEstimatedBundleSize, importScan.
      destruct (importStep_fold poisonedImports
                  (matchAll false Patterns.importRegex
                     (getText poisonedImports))
                  (Num 0, [])) as (_ & _ & I & _).
      apply I. vm_compute. reflexivity. }
    rewrite countCode_bundle_warning, countCode_bundle_error.
    unfold bundleSizeRule. rewrite T. split; reflexivity.
Qed.

Lemma dependency_cost_witness :
  (packageNameOf (u "@material-ui/core/Button") = u "@material-ui/core"
   /\ packageNameOf (u "lodash/fp") = u "lodash")
  /\ (scanDocument noOrigin noSettings emptyPolicy sixImports
      = Some (diagnosticsOf noOrigin noSettings emptyPolicy sixImports)
      /\ listedTotal sixImports = 1178%Z
      /\ countCode "WRS_JS_BUNDLE_SIZE_EXCEEDED"
           (diagnosticsOf noOrigin noSettings emptyPolicy sixImports)
         = 1%nat)
  /\ (scanDocument noOrigin noSettings emptyPolicy poisonedImports
      = Some (diagnosticsOf noOrigin noSettings emptyPolicy poisonedImports)
      /\ listedTotal poisonedImports = 1380%Z
      /\ countCode "WRS_JS_BUNDLE_SIZE_EXCEEDED"
           (diagnosticsOf noOrigin noSettings emptyPolicy poisonedImports)
         = 0%nat).
Proof.
  destruct dependency_cost as (Hname & _ & Hsize & Hbug).
  split; [split | split].
  - apply (Hname [u "@material-ui"; u "core"; u "Button"]);
      [discriminate | repeat constructor].
  - apply (Hname [u "lodash"; u "fp"]);
      [discriminate | repeat constructor].
  - assert (S : scanDocument noOrigin noSettings emptyPolicy sixImports
      = Some (diagnosticsOf noOrigin noSettings emptyPolicy sixImports))
      by (vm_compute; reflexivity).
    assert (T : listedTotal sixImports = 1178%Z) by (vm_compute; reflexivity).
    split; [exact S | split; [exact T|]].
    apply (Hsize _ _ _ _ _ S); [vm_compute; reflexivity | rewrite T; lia].
  - assert (S : scanDocument noOrigin noSettings emptyPolicy poisonedImports
      = Some (diagnosticsOf noOrigin noSettings emptyPolicy poisonedImports))
      by (vm_compute; reflexivity).
    split; [exact S | split; [vm_compute; reflexivity|]].
    apply (Hbug _ _ _ _ S).
Defined.

(** X5.  A scanned document gets one WRS_HEAVY_DEPENDENCY finding for each
    matched import whose package the table knows, repeated imports
    included; and when no import names a property of Object.prototype the
    estimated total is the sum of the table sizes of those imports. *)
Theorem heavy_imports urlOrigin config policy doc ds :
  scanDocument urlOrigin config policy doc = Some ds ->
  countCode "WRS_HEAVY_DEPENDENCY" ds
  = length (filter (fun e => negb (isAbsent e)) (importLookups doc))
  /\ (existsb isInherited (importLookups doc) = false ->
      totalEstimatedBundleSize doc
      = Num (fold_right Z.add 0%Z (map sizeOf (importLookups doc)))).
Proof.
  intros Hs. apply scanDocument_Some in Hs. destruct Hs as [-> _].
  rewrite countCode_heavy. unfold totalEstimatedBundleSize, importScan,
    importLookups.
  destruct (importStep_fold doc
              (matchAll false Patterns.importRegex (getText doc))
              (Num 0, [])) as (C & _ & _ & S).
  split; [exact C|]. intros E. now rewrite (S 0%Z eq_refl E).
Qed.

Lemma heavy_imports_witness :
  scanDocument noOrigin noSettings emptyPolicy sixImports
  = Some (diagnosticsOf noOrigin noSettings emptyPolicy sixImports)
  /\ existsb isInherited (importLookups sixImports) = false
  /\ countCode "WRS_HEAVY_DEPENDENCY"
       (diagnosticsOf noOrigin noSettings emptyPolicy sixImports) = 6%nat
  /\ totalEstimatedBundleSize sixImports = Num (190 + 350 + 166 + 150 + 250 + 72).
Proof.
  assert (S : scanDocument noOrigin noSettings emptyPolicy sixImports
    = Some (diagnosticsOf noOrigin noSettings emptyPolicy sixImports))
    by (vm_compute; reflexivity).
  assert (E : existsb isInherited (importLookups sixImports) = false)
    by (vm_compute; reflexivity).
  destruct (heavy_imports _ _ _ _ S) as (C & T).
  split; [exact S | split; [exact E | split]].
  - rewrite C. vm_compute. reflexivity.
  - rewrite (T E). vm_compute. reflexivity.
Defined.

(** X6.  An import whose package name is a property of Object.prototype
    (constructor, toString, ...) is taken for a heavy library without a
    size: the estimated total becomes NaN, and a scanned document then
    gets neither bundle-size finding, whatever else it imports. *)
Theorem inherited_key_poisons_total urlOrigin config policy doc ds :
  scanDocument urlOrigin config policy doc = Some ds ->
  existsb isInherited (importLookups doc) = true ->
  totalEstimatedBundleSize doc = NaN
  /\ countCode "WRS_JS_BUNDLE_SIZE_WARNING" ds = 0%nat
  /\ countCode "WRS_JS_BUNDLE_SIZE_EXCEEDED" ds = 0%nat.
Proof.
  intros Hs E. apply scanDocument_Some in Hs. destruct Hs as [-> _].
  assert (T : totalEstimatedBundleSize doc = NaN).
  { unfold totalEstimatedBundleSize, importScan.
    destruct (importStep_fold doc
                (matchAll false Patterns.importRegex (getText doc))
                (Num 0, [])) as (_ & _ & I & _).
    now apply I. }
  split; [exact T|].
  rewrite countCode_bundle_warning, countCode_bundle_error.
  unfold bundleSizeRule. rewrite T. split; reflexivity.
Qed.

Lemma inherited_key_poisons_total_witness :
  scanDocument noOrigin noSettings emptyPolicy poisonedImports
  = Some (diagnosticsOf noOrigin noSettings emptyPolicy poisonedImports)
  /\ existsb isInherited (importLookups poisonedImports) = true
  /\ fold_right Z.add 0%Z (map sizeOf (importLookups poisonedImports))
     = 1380%Z
  /\ countCode "WRS_JS_BUNDLE_SIZE_EXCEEDED"
       (diagnosticsOf noOrigin noSettings emptyPolicy poisonedImports)
     = 0%nat.
Proof.
  assert (S : scanDocument noOrigin noSettings emptyPolicy poisonedImports
    = Some (diagnosticsOf noOrigin noSettings emptyPolicy poisonedImports))
    by (vm_compute; reflexivity).
  assert (E : existsb isInherited (importLookups poisonedImports) = true)
    by (vm_compute; reflexivity).
  split; [exact S | split; [exact E | split; [vm_compute; reflexivity|]]].
  exact (proj2 (proj2 (inherited_key_poisons_total _ _ _ _ S E))).
Defined.

(** X7.  The two bundle-size tiers of a scanned document are decided by
    the estimated total: up to 500 neither, above 500 and up to 1000 the
    warning alone, above 1000 both; the error never comes without the
    warning. *)
Theorem bundle_size_tiers urlOrigin config policy doc ds :
  scanDocument urlOrigin config policy doc = Some ds ->
  (countCode "WRS_JS_BUNDLE_SIZE_EXCEEDED" ds
   <= countCode "WRS_JS_BUNDLE_SIZE_WARNING" ds)%nat
  /\ (forall total, totalEstimatedBundleSize doc = Num total ->
      countCode "WRS_JS_BUNDLE_SIZE_WARNING" ds
      = (if (total >? 500)%Z then 1%nat else 0%nat)
      /\ countCode "WRS_JS_BUNDLE_SIZE_EXCEEDED" ds
         = (if (total >? 1000)%Z then 1%nat else 0%nat)).
Proof.
  intros Hs. apply scanDocument_Some in Hs. destruct Hs as [-> _].
  rewrite countCode_bundle_warning, countCode_bundle_error.
  unfold bundleSizeRule.
  destruct (totalEstimatedBundleSize doc) as [t|].
  - split.
    + destruct (Z.gtb_spec t 500) as [G5|L5],
        (Z.gtb_spec t 1000) as [G10|L10]; try lia; cbn; lia.
    + intros total Ht. injection Ht as <-.
      destruct (t >? 500)%Z, (t >? 1000)%Z; split; reflexivity.
  - split; [cbn; lia | intros total H; discriminate H].
Qed.

Lemma bundle_size_tiers_witness :
  let doc := mkDocument (u "viz.js") (u "import * as THREE from 'three';") in
  scanDocument noOrigin noSettings emptyPolicy doc
  = Some (diagnosticsOf noOrigin noSettings emptyPolicy doc)
  /\ totalEstimatedBundleSize doc = Num 580
  /\ countCode "WRS_JS_BUNDLE_SIZE_WARNING"
       (diagnosticsOf noOrigin noSettings emptyPolicy doc) = 1%nat
  /\ countCode "WRS_JS_BUNDLE_SIZE_EXCEEDED"
       (diagnosticsOf noOrigin noSettings emptyPolicy doc) = 0%nat.
Proof.
  intros doc.
  assert (S : scanDocument noOrigin noSettings emptyPolicy doc
    = Some (diagnosticsOf noOrigin noSettings emptyPolicy doc))
    by (vm_compute; reflexivity).
  assert (T : totalEstimatedBundleSize doc = Num 580)
    by (vm_compute; reflexivity).
  split; [exact S | split; [exact T|]].
  exact (proj2 (bundle_size_tiers _ _ _ _ S) 580%Z T).
Defined.

(** *** Scripts *)

Lemma countCode_flat_map_le c (A : Type) (f : A -> list Diagnostic) l :
  (forall x, (countCode c (f x) <= 1)%nat) ->
  (countCode c (flat_map f l) <= length l)%nat.
Proof.
  intros H. induction l as [|x l IH]; [cbn; lia|].
  cbn [flat_map length]. rewrite countCode_app. specialize (H x). lia.
Qed.

Lemma countCode_script_count urlOrigin config policy doc :
  countCode "PERF_SCRIPT_COUNT_EXCEEDED"
    (diagnosticsOf urlOrigin config policy doc)
  = countCode "PERF_SCRIPT_COUNT_EXCEEDED" (scriptCountRule config policy doc).
Proof. count_others. Qed.

Lemma countCode_script_blocking urlOrigin config policy doc :
  countCode "PERF_SCRIPT_BLOCKING" (diagnosticsOf urlOrigin config policy doc)
  = countCode "PERF_SCRIPT_BLOCKING" (scriptRule doc).
Proof. count_others. Qed.

(** X8.  The script budget of a scanned document is the policy's
    maxThirdPartyScriptsPerPage, else the setting, else 6: exactly one
    PERF_SCRIPT_COUNT_EXCEEDED when the number of script tags with a src
    exceeds it, none otherwise; and there are at most as many
    PERF_SCRIPT_BLOCKING findings as such script tags. *)
Theorem script_budget urlOrigin config policy doc ds :
  scanDocument urlOrigin config policy doc = Some ds ->
  let budget :=
    match optChain (perf policy) maxThirdPartyScriptsPerPage with
    | Some n => n
    | None =>
        match kanmi_maxThirdPartyScriptsPerPage config with
        | Some n => n
        | None => 6%Z
        end
    end in
  countCode "PERF_SCRIPT_COUNT_EXCEEDED" ds
  = (if (Z.of_nat (scriptCount doc) >? budget)%Z then 1%nat else 0%nat)
  /\ (countCode "PERF_SCRIPT_BLOCKING" ds <= scriptCount doc)%nat.
Proof.
  intros Hs budget. apply scanDocument_Some in Hs. destruct Hs as [-> _].
  rewrite countCode_script_count, countCode_script_blocking. split.
  - unfold scriptCountRule, resolvedMaxTP, nullish. fold budget.
    destruct (Z.of_nat (scriptCount doc) >? budget)%Z; reflexivity.
  - unfold scriptRule, scriptCount. apply countCode_flat_map_le.
    intros m. unfold scriptStep. destruct (negb _); cbn; lia.
Qed.

Lemma script_budget_witness :
  (scanDocument noOrigin (mkConfiguration None (Some 5%Z))
     (scriptBudgetPolicy 1) twoScripts
   = Some (diagnosticsOf noOrigin (mkConfiguration None (Some 5%Z))
             (scriptBudgetPolicy 1) twoScripts)
   /\ countCode "PERF_SCRIPT_COUNT_EXCEEDED"
        (diagnosticsOf noOrigin (mkConfiguration None (Some 5%Z))
           (scriptBudgetPolicy 1) twoScripts) = 1%nat)
  /\ (scanDocument noOrigin noSettings emptyPolicy twoScripts
      = Some (diagnosticsOf noOrigin noSettings emptyPolicy twoScripts)
      /\ countCode "PERF_SCRIPT_COUNT_EXCEEDED"
           (diagnosticsOf noOrigin noSettings emptyPolicy twoScripts)
         = 0%nat).
Proof.
  assert (S1 : scanDocument noOrigin (mkConfiguration None (Some 5%Z))
     (scriptBudgetPolicy 1) twoScripts
   = Some (diagnosticsOf noOrigin (mkConfiguration None (Some 5%Z))
             (scriptBudgetPolicy 1) twoScripts)) by (vm_compute; reflexivity).
  assert (S2 : scanDocument noOrigin noSettings emptyPolicy twoScripts
      = Some (diagnosticsOf noOrigin noSettings emptyPolicy twoScripts))
    by (vm_compute; reflexivity).
  split; (split; [assumption|]).
  - rewrite (proj1 (script_budget _ _ _ _ S1)). vm_compute. reflexivity.
  - rewrite (proj1 (script_budget _ _ _ _ S2)). vm_compute. reflexivity.
Defined.

(** *** Codes, severities and order *)

Lemma wellTagged_one r m c s :
  In (c, s) codeSeverities -> Forall wellTagged [buildDiagnostic r m c s].
Proof. intros H. constructor; [split; [exact H | reflexivity] | constructor]. Qed.

(** Solves [Forall wellTagged ds] for a rule made of tests and pushes. *)
Ltac well_tagged :=
  repeat match goal with
  | |- Forall wellTagged [] => constructor
  | |- Forall wellTagged (_ ++ _) => apply Forall_app; split
  | |- Forall wellTagged [buildDiagnostic _ _ _ _] =>
      apply wellTagged_one; repeat (first [left; reflexivity | right])
  | |- Forall wellTagged (if ?b then _ else _) => destruct b
  | |- Forall wellTagged (match ?x with _ => _ end) => destruct x
  end.

Lemma wellTagged_flat_map (A : Type) (f : A -> list Diagnostic) l :
  (forall x, Forall wellTagged (f x)) -> Forall wellTagged (flat_map f l).
Proof.
  intros H. induction l as [|x l IH]; cbn [flat_map]; [constructor|].
  apply Forall_app. split; [apply H | exact IH].
Qed.

Lemma importScan_wellTagged doc : Forall wellTagged (snd (importScan doc)).
Proof.
  unfold importScan.
  generalize (matchAll false Patterns.importRegex (getText doc)).
  assert (H : Forall wellTagged (snd (Num 0, @nil Diagnostic)))
    by constructor.
  revert H. generalize (Num 0, @nil Diagnostic).
  intros acc H l. revert acc H.
  induction l as [|m l IH]; intros acc H; cbn [fold_left]; [exact H|].
  apply IH. unfold importStep.
  destruct (heavyLookup _); cbn [snd]; try exact H;
    (apply Forall_app; split; [exact H | well_tagged]).
Qed.

(** X9.  Every diagnostic of a scanned document has the source Kanmi and
    the severity fixed for its code: the code alone tells the severity,
    on every document and under every policy. *)
Theorem code_fixes_severity urlOrigin config policy doc ds :
  scanDocument urlOrigin config policy doc = Some ds ->
  Forall wellTagged ds
  /\ NoDup (map fst codeSeverities)
  /\ forall d1 d2, In d1 ds -> In d2 ds -> code d1 = code d2 ->
       severity d1 = severity d2.
Proof.
  intros Hs. apply scanDocument_Some in Hs. destruct Hs as [-> _].
  assert (W : Forall wellTagged (diagnosticsOf urlOrigin config policy doc)).
  { unfold diagnosticsOf. rewrite !Forall_app. repeat split.
    - unfold titleRule. well_tagged.
    - unfold metaDescriptionRule. well_tagged.
    - unfold canonicalRule. well_tagged.
    - unfold jsonLdRule. well_tagged.
    - unfold openGraphRule. well_tagged.
    - unfold htmlSizeRule. well_tagged.
    - unfold domSizeRule. well_tagged.
    - unfold domDepthRule. well_tagged.
    - unfold headOrderRule. well_tagged.
    - unfold imgRule. apply wellTagged_flat_map. intros m.
      unfold imgStep. well_tagged.
    - unfold nextImageRule. apply wellTagged_flat_map. intros m.
      unfold nextImageStep. well_tagged.
    - unfold fontFaceRule. apply wellTagged_flat_map. intros m.
      unfold fontFaceStep. well_tagged.
    - unfold fontPreloadRule. well_tagged.
    - apply importScan_wellTagged.
    - unfold bundleSizeRule. well_tagged.
    - unfold scriptRule. apply wellTagged_flat_map. intros m.
      unfold scriptStep. well_tagged.
    - unfold scriptCountRule. well_tagged.
    - unfold preconnectRule. well_tagged. }
  assert (ND : NoDup (map fst codeSeverities)).
  { apply (NoDup_count_occ' string_dec). intros c Hc.
    cbn [map fst codeSeverities] in Hc |- *.
    repeat (destruct Hc as [<- | Hc]; [vm_compute; reflexivity|]).
    destruct Hc. }
  split; [exact W | split; [exact ND|]].
  intros d1 d2 H1 H2 E. rewrite Forall_forall in W.
  destruct (W d1 H1) as [I1 _]. destruct (W d2 H2) as [I2 _].
  rewrite E in I1.
  assert (F : forall (l : list (string * DiagnosticSeverity)) c s1 s2,
            NoDup (map fst l) -> In (c, s1) l -> In (c, s2) l -> s1 = s2).
  { induction l as [|[c0 s0] l IH]; intros c s1 s2 Hn Ha Hb; [destruct Ha|].
    cbn [map fst] in Hn. inversion Hn as [|? ? Hnot Hn']. subst.
    destruct Ha as [Ha|Ha], Hb as [Hb|Hb].
    - congruence.
    - injection Ha as -> ->. exfalso. apply Hnot.
      now apply (in_map fst) in Hb.
    - injection Hb as -> ->. exfalso. apply Hnot.
      now apply (in_map fst) in Ha.
    - now apply (IH c). }
  exact (F _ _ _ _ ND I1 I2).
Qed.

Lemma code_fixes_severity_witness :
  scanDocument noOrigin noSettings emptyPolicy sixImports
  = Some (diagnosticsOf noOrigin noSettings emptyPolicy sixImports)
  /\ Forall wellTagged (diagnosticsOf noOrigin noSettings emptyPolicy sixImports).
Proof.
  assert (S : scanDocument noOrigin noSettings emptyPolicy sixImports
    = Some (diagnosticsOf noOrigin noSettings emptyPolicy sixImports))
    by (vm_compute; reflexivity).
  split; [exact S | exact (proj1 (code_fixes_severity _ _ _ _ S))].
Defined.

Lemma ascending_lower a b hi l :
  (a <= b)%nat -> ascending b hi l = true -> ascending a hi l = true.
Proof.
  intros H. destruct l as [|r l]; cbn [ascending]; intros A.
  - apply Nat.leb_le in A. apply Nat.leb_le. lia.
  - apply andb_prop in A. destruct A as [A1 A2]. apply Nat.leb_le in A1.
    rewrite A2, andb_true_r. apply Nat.leb_le. lia.
Qed.

Lemma ascending_bounds lo hi l : ascending lo hi l = true -> (lo <= hi)%nat.
Proof.
  revert lo. induction l as [|r l IH]; intros lo; cbn [ascending]; intros A.
  - now apply Nat.leb_le.
  - apply andb_prop in A. destruct A as [A1 A2]. apply Nat.leb_le in A1.
    apply IH in A2. lia.
Qed.

Lemma ascending_app a b c l1 l2 :
  ascending a b l1 = true -> ascending b c l2 = true ->
  ascending a c (l1 ++ l2) = true.
Proof.
  revert a. induction l1 as [|r l1 IH]; intros a A1 A2; cbn [app].
  - cbn [ascending] in A1. apply Nat.leb_le in A1.
    now apply ascending_lower with b.
  - cbn [ascending] in A1 |- *. apply andb_prop in A1. destruct A1 as [L A1].
    rewrite L. cbn [andb]. now apply IH.
Qed.

Lemma documentLevel_app ds1 ds2 :
  documentLevel (ds1 ++ ds2) = documentLevel ds1 ++ documentLevel ds2.
Proof. unfold documentLevel. now rewrite map_app, filter_app. Qed.

Lemma documentLevel_none cs ds :
  onlyCodes cs ds -> forallb (fun c => negb (isDocumentCode c)) cs = true ->
  documentLevel ds = [].
Proof.
  intros H Hc. rewrite forallb_forall in Hc. unfold documentLevel.
  induction H as [|d ds Hd _ IH]; [reflexivity|].
  cbn [map filter]. specialize (Hc _ Hd). apply negb_true_iff in Hc.
  now rewrite Hc.
Qed.

(** The ranks of the document-level codes of a rule made of tests and
    single pushes. *)
Ltac ranks :=
  repeat match goal with
  | |- context [if ?b then _ :: _ else _] => destruct b
  | |- context [if ?b then [] else _] => destruct b
  | |- context [match ?x with Some _ => _ | None => _ end] => destruct x
  | |- context [match ?x with [] => _ | _ :: _ => _ end] => destruct x
  | |- context [match ?x with Num _ => _ | NaN => _ end] => destruct x
  end;
  unfold documentLevel; cbn [map app code buildDiagnostic];
  vm_compute; reflexivity.

Lemma ascending_count c l : forall lo hi,
  ascending lo hi (map codeRank l) = true ->
  (count_occ string_dec l c <= if (lo <=? codeRank c)%nat then 1 else 0)%nat.
Proof.
  induction l as [|x l IH]; intros lo hi A; cbn [map ascending] in A.
  - cbn. destruct (lo <=? codeRank c)%nat; lia.
  - apply andb_prop in A. destruct A as [L A]. apply Nat.leb_le in L.
    specialize (IH _ _ A). cbn [count_occ].
    destruct (string_dec x c) as [->|N].
    + destruct (Nat.leb_spec (S (codeRank c)) (codeRank c)); [lia|].
      destruct (Nat.leb_spec lo (codeRank c)); lia.
    + destruct (Nat.leb_spec (S (codeRank x)) (codeRank c));
        destruct (Nat.leb_spec lo (codeRank c)); lia.
Qed.

Lemma countCode_documentLevel c ds :
  isDocumentCode c = true ->
  countCode c ds = count_occ string_dec (documentLevel ds) c.
Proof.
  intros H. rewrite countCode_by_codes. unfold documentLevel.
  induction (map code ds) as [|x l IH]; [reflexivity|].
  cbn [count_occ filter]. destruct (string_dec x c) as [->|N].
  - rewrite H. cbn [count_occ]. destruct (string_dec c c); [|contradiction].
    now rewrite IH.
  - destruct (isDocumentCode x); [cbn [count_occ]|]; 
      try (destruct (string_dec x c); [contradiction|]); exact IH.
Qed.

(** X10.  In the result of a scan the findings about the document as a
    whole come in one fixed order, the order of [documentCodes], and each
    at most once; only the findings pushed per image, font block, import
    and script tag can repeat. *)
Theorem document_findings_ordered urlOrigin config policy doc ds :
  scanDocument urlOrigin config policy doc = Some ds ->
  ascending 0 (length documentCodes) (map codeRank (documentLevel ds)) = true
  /\ forall c, isDocumentCode c = true -> (countCode c ds <= 1)%nat.
Proof.
  intros Hs. apply scanDocument_Some in Hs. destruct Hs as [-> _].
  assert (A : ascending 0 24
                (map codeRank
                   (documentLevel (diagnosticsOf urlOrigin config policy doc)))
              = true).
  { unfold diagnosticsOf. rewrite !documentLevel_app, !map_app.
    rewrite (documentLevel_none (imgRule_codes doc) eq_refl).
    rewrite (documentLevel_none (nextImageRule_codes doc) eq_refl).
    rewrite (documentLevel_none (fontFaceRule_codes doc) eq_refl).
    rewrite (documentLevel_none (importScan_codes urlOrigin doc) eq_refl).
    rewrite (documentLevel_none (scriptRule_codes doc) eq_refl).
    cbn [map app].
    apply ascending_app with 2%nat; [unfold titleRule; ranks|].
    apply ascending_app with 4%nat; [unfold metaDescriptionRule; ranks|].
    apply ascending_app with 5%nat; [unfold canonicalRule; ranks|].
    apply ascending_app with 7%nat; [unfold jsonLdRule; ranks|].
    apply ascending_app with 8%nat; [unfold openGraphRule; ranks|].
    apply ascending_app with 12%nat; [unfold htmlSizeRule; ranks|].
    apply ascending_app with 14%nat; [unfold domSizeRule; ranks|].
    apply ascending_app with 16%nat; [unfold domDepthRule; ranks|].
    apply ascending_app with 19%nat; [unfold headOrderRule; ranks|].
    apply ascending_app with 20%nat; [unfold fontPreloadRule; ranks|].
    apply ascending_app with 22%nat; [unfold bundleSizeRule; ranks|].
    apply ascending_app with 23%nat; [unfold scriptCountRule; ranks|].
    unfold preconnectRule; ranks. }
  split; [exact A|].
  intros c Hc. rewrite (@countCode_documentLevel c _ Hc).
  pose proof (@ascending_count c _ _ _ A) as B.
  destruct (0 <=? codeRank c)%nat; lia.
Qed.

Lemma document_findings_ordered_witness :
  scanDocument noOrigin noSettings emptyPolicy (pageWithTitle 5)
  = Some (diagnosticsOf noOrigin noSettings emptyPolicy (pageWithTitle 5))
  /\ isDocumentCode "SEO_CANONICAL_MISSING" = true
  /\ (countCode "SEO_CANONICAL_MISSING"
        (diagnosticsOf noOrigin noSettings emptyPolicy (pageWithTitle 5))
      <= 1)%nat.
Proof.
  assert (S : scanDocument noOrigin noSettings emptyPolicy (pageWithTitle 5)
    = Some (diagnosticsOf noOrigin noSettings emptyPolicy (pageWithTitle 5)))
    by (vm_compute; reflexivity).
  split; [exact S | split; [reflexivity|]].
  exact (proj2 (document_findings_ordered _ _ _ _ S)
           "SEO_CANONICAL_MISSING" eq_refl).
Defined.

(** *** The depth of markup *)

Lemma rmatch_Opt_take ci r st k res :
  rmatch ci r st k = Some res -> rmatch ci (Opt r) st k = Some res.
Proof. intros H. unfold Opt. cbn [rmatch]. now rewrite H. Qed.

Lemma tagRegex_close_state p pv name tl_ :
  tagName name = true ->
  exists res,
    rmatch false Patterns.tagRegex
      (MState p pv (closeTagText name ++ tl_) None None) Some = Some res
    /\ pos res = (p + length (closeTagText name))%nat
    /\ cap1 res = Some name /\ cap2 res = None.
Proof.
  intros Hn. destruct name as [|c cs]; [discriminate|].
  cbn [tagName] in Hn. apply andb_prop in Hn. destruct Hn as [Hc Hcs].
  set (st0 := MState p pv (closeTagText (c :: cs) ++ tl_) None None).
  set (st1 := consume st0 [60]).
  set (st1' := consume st1 [47]).
  set (st2 := consume (consume st1' [c]) cs).
  set (st3 := setCap 1 (firstn (pos st2 - pos st1') (rest st1')) st2).
  assert (R1 : rest st1 = 47 :: c :: cs ++ 62 :: tl_).
  { unfold st1, st0, closeTagText. cbn. now rewrite <- !app_assoc. }
  assert (R1' : rest st1' = c :: cs ++ 62 :: tl_).
  { unfold st1'. apply consume_rest with (cs := [47]). exact R1. }
  assert (R2 : rest st2 = 62 :: tl_).
  { unfold st2. rewrite <- (consume_app st1' [c] cs).
    apply consume_rest. exact R1'. }
  exists (consume st3 [62]). split; [|split; [|split]].
  - unfold Patterns.tagRegex. cbn [Seqs].
    rewrite rmatch_Seq.
    rewrite (@rmatch_Chr_ok false 60 st0 _ 60
               (47 :: (c :: cs ++ [62]) ++ tl_)); [|reflexivity|reflexivity].
    fold st1. rewrite rmatch_Seq.
    apply rmatch_Opt_take.
    rewrite (@rmatch_Chr_ok false 47 st1 _ 47 _ R1); [|reflexivity].
    fold st1'. rewrite rmatch_Seq, rmatch_Grp, rmatch_Seq.
    unfold Patterns.letter.
    rewrite (@rmatch_Cls_ok false false _ st1' _ c _ R1');
      [|now rewrite letter_spec].
    unfold Patterns.alnum.
    apply rmatch_Star_cls_run with (cs := cs) (tl_ := 62 :: tl_).
    + apply consume_rest with (cs := [c]). exact R1'.
    + rewrite (@forallb_eq _ _ _ cs alnum_spec). exact Hcs.
    + rewrite alnum_spec. reflexivity.
    + fold st2. fold st3. rewrite rmatch_Seq. unfold Patterns.notGt.
      apply rmatch_Star_cls_run with (cs := []) (tl_ := 62 :: tl_).
      * exact R2.
      * reflexivity.
      * rewrite notGt_spec. reflexivity.
      * cbn [consume].
        now rewrite (@rmatch_Chr_ok false 62 st3 _ 62 tl_ R2).
  - rewrite consume_pos. change (pos st3) with (pos st2). unfold st2.
    rewrite !consume_pos. unfold st1'. rewrite consume_pos.
    unfold st1. rewrite consume_pos.
    unfold closeTagText. cbn [pos st0]. rewrite !length_app. cbn [length]. lia.
  - destruct (consume_caps st3 [62]) as [-> _].
    change (cap1 st3) with (Some (firstn (pos st2 - pos st1') (rest st1'))).
    f_equal. rewrite R1'. unfold st2. rewrite !consume_pos.
    replace (pos st1' + length [c] + length cs - pos st1')%nat
      with (length (c :: cs)) by (cbn [length]; lia).
    change (c :: cs ++ 62 :: tl_) with ((c :: cs) ++ 62 :: tl_).
    apply firstn_length_app.
  - destruct (consume_caps st3 [62]) as [_ ->].
    change (cap2 st3) with (cap2 st2). unfold st2.
    destruct (consume_caps (consume st1' [c]) cs) as [_ ->].
    reflexivity.
Qed.

Lemma tagRegex_close p pv name tl_ :
  tagName name = true ->
  matchAt false Patterns.tagRegex p pv (closeTagText name ++ tl_)
  = Some (Match p (closeTagText name) (Some name) None).
Proof.
  intros Hn.
  destruct (@tagRegex_close_state p pv name tl_ Hn)
    as (res & E & Hp & H1 & H2).
  unfold matchAt. rewrite E, Hp, H1, H2.
  replace (p + length (closeTagText name) - p)%nat
    with (length (closeTagText name)) by lia.
  now rewrite firstn_length_app.
Qed.

Lemma closeTag_not_selfclosed name :
  tagName name = true -> endsWith (closeTagText name) (u "/>") = false.
Proof.
  intros Hn.
  assert (Hne : name <> []) by (destruct name; [discriminate | congruence]).
  destruct (exists_last Hne) as (body & z & E).
  assert (Hz : z <> 47).
  { apply alnum_not_slash, (@tagName_alnum name z Hn).
    rewrite E. apply in_or_app. right. now left. }
  unfold endsWith, closeTagText. change (u "/>") with [47; 62].
  rewrite E.
  replace ([60; 47] ++ (body ++ [z]) ++ [62])
    with ((60 :: 47 :: body) ++ [z; 62])
    by (cbn [app]; now rewrite <- app_assoc).
  rewrite rev_app_distr. cbn [rev app startsWith].
  rewrite N.eqb_refl. cbn [andb].
  apply N.eqb_neq in Hz. now rewrite Hz.
Qed.

Lemma depthStep_piece_open st p name attrs :
  tagName name = true -> tagAttrs attrs = true ->
  depthStep st (Match p (openTagText name attrs) (Some name) None)
  = pieceStep st (OpenTag name attrs).
Proof.
  intros Hn Ha. unfold depthStep, pieceStep. cbn [matched group1 g1].
  fold (isVoidName name). destruct (isVoidName name); [reflexivity|].
  rewrite (@openTag_not_selfclosed name attrs Hn Ha).
  rewrite (@openTag_not_closing name attrs Hn). reflexivity.
Qed.

Lemma depthStep_piece_close st p name :
  tagName name = true ->
  depthStep st (Match p (closeTagText name) (Some name) None)
  = pieceStep st (CloseTag name).
Proof.
  intros Hn. unfold depthStep, pieceStep. cbn [matched group1 g1].
  fold (isVoidName name). destruct (isVoidName name); [reflexivity|].
  rewrite (@closeTag_not_selfclosed name Hn). cbn [orb].
  unfold closeTagText. change (u "</") with [60; 47].
  cbn [app startsWith]. rewrite !N.eqb_refl.
  destruct (name ++ [62]); reflexivity.
Qed.

(** On markup the loop of the tracker does to the depth what the pieces
    say, one piece after the other. *)
Lemma depth_of_markup ps : forall p pv st,
  forallb markupPiece ps = true ->
  fold_left depthStep
    (matchAllFrom false Patterns.tagRegex 0 p pv (renderAll ps)) st
  = fold_left pieceStep ps st.
Proof.
  induction ps as [|[name attrs|name|t] ps IH]; intros p pv st H.
  - unfold renderAll, Patterns.tagRegex. cbn [flat_map Seqs].
    now rewrite matchAllFrom_end.
  - cbn [forallb markupPiece] in H. apply andb_prop in H.
    destruct H as [H Hps]. apply andb_prop in H. destruct H as [Hn Ha].
    change (renderAll (OpenTag name attrs :: ps))
      with (openTagText name attrs ++ renderAll ps).
    destruct (@matchAllFrom_tag false Patterns.tagRegex p pv
                (openTagText name attrs) (renderAll ps) _
                (@tagRegex_open p pv name attrs (renderAll ps) Hn Ha)
                eq_refl ltac:(discriminate)) as (p' & pv' & E).
    rewrite E. cbn [fold_left].
    rewrite (@depthStep_piece_open st p name attrs Hn Ha).
    apply (IH p' pv' _ Hps).
  - cbn [forallb markupPiece] in H. apply andb_prop in H.
    destruct H as [Hn Hps].
    change (renderAll (CloseTag name :: ps))
      with (closeTagText name ++ renderAll ps).
    destruct (@matchAllFrom_tag false Patterns.tagRegex p pv
                (closeTagText name) (renderAll ps) _
                (@tagRegex_close p pv name (renderAll ps) Hn)
                eq_refl ltac:(discriminate)) as (p' & pv' & E).
    rewrite E. cbn [fold_left].
    rewrite (@depthStep_piece_close st p name Hn).
    apply (IH p' pv' _ Hps).
  - cbn [forallb markupPiece] in H. apply andb_prop in H.
    destruct H as [Ht Hps].
    change (renderAll (PlainText t :: ps)) with (t ++ renderAll ps).
    unfold Patterns.tagRegex. cbn [Seqs].
    rewrite matchAllFrom_plain by exact Ht.
    apply (IH _ _ st Hps).
Qed.

(** X11.  On a text made of opening tags, closing tags and text the
    tracker computes what the tags say: each opening tag of an element
    that is not void adds a level, each of its closing tags removes one
    (never going above the top), tags of void elements count for nothing,
    and the result is the deepest level reached. *)
Theorem depth_follows_markup ps :
  forallb markupPiece ps = true ->
  calculateMaxDOMDepth (renderAll ps)
  = maxDepth (fold_left pieceStep ps depthInit).
Proof.
  intros H. unfold calculateMaxDOMDepth, tagMatches, matchAll.
  now rewrite (@depth_of_markup ps 0%nat None depthInit H).
Qed.

Lemma depth_follows_markup_witness :
  let page := [OpenTag (u "ul") []; OpenTag (u "li") []; OpenTag (u "br") [];
               CloseTag (u "li"); OpenTag (u "li") (u " class='x'");
               PlainText (u "text"); CloseTag (u "li"); CloseTag (u "ul");
               CloseTag (u "ul"); OpenTag (u "p") []] in
  forallb markupPiece page = true
  /\ calculateMaxDOMDepth (renderAll page) = 2%Z.
Proof.
  intros page.
  assert (M : forallb markupPiece page = true) by (vm_compute; reflexivity).
  split; [exact M|]. rewrite (depth_follows_markup page M). reflexivity.
Defined.

Lemma properTree_markup n :
  properTree n = true -> forallb markupPiece (markup n) = true.
Proof.
  induction n as [name attrs children IH|t] using node_rect'; intros H.
  - cbn [properTree] in H. apply andb_prop in H. destruct H as [H Hk].
    apply andb_prop in H. destruct H as [H _].
    apply andb_prop in H. destruct H as [Hn Ha].
    cbn [markup forallb markupPiece]. rewrite Hn, Ha. cbn [andb].
    rewrite forallb_app. cbn [forallb markupPiece]. rewrite Hn.
    rewrite !andb_true_r.
    induction IH as [|k l Hk' _ IHl]; [reflexivity|].
    cbn [forallb] in Hk. apply andb_prop in Hk. destruct Hk as [Hk1 Hk2].
    cbn [flat_map]. rewrite forallb_app, (Hk' Hk1), (IHl Hk2). reflexivity.
  - cbn [properTree] in H. cbn [markup forallb markupPiece].
    now rewrite H.
Qed.

(** Through the markup of a tree the depth goes down by its height and
    comes back. *)
Lemma pieceStep_tree n : forall M d,
  properTree n = true -> (0 <= d <= M)%Z ->
  fold_left pieceStep (markup n) (mkDepth M d)
  = mkDepth (Z.max M (d + height n)) d.
Proof.
  induction n as [name attrs children IH|t] using node_rect';
    intros M d H Hd.
  - cbn [properTree] in H. apply andb_prop in H. destruct H as [H Hk].
    apply andb_prop in H. destruct H as [_ Hv]. apply negb_true_iff in Hv.
    cbn [markup fold_left]. rewrite fold_left_app.
    cbn [pieceStep]. rewrite Hv. cbn [maxDepth currentDepth].
    assert (Kids : forall M', (d + 1 <= M')%Z ->
      fold_left pieceStep (flat_map markup children) (mkDepth M' (d + 1)%Z)
      = mkDepth (Z.max M' (d + 1 + fold_right Z.max 0 (map height children))%Z)
                (d + 1)%Z).
    { induction IH as [|k l Hk' _ IHl]; intros M' HM'.
      - cbn. f_equal. lia.
      - cbn [forallb] in Hk. apply andb_prop in Hk.
        destruct Hk as [Hk1 Hk2].
        cbn [flat_map map fold_right]. rewrite fold_left_app.
        rewrite (Hk' M' (d + 1)%Z Hk1 ltac:(lia)).
        rewrite (IHl Hk2) by lia. f_equal. lia. }
    rewrite Kids by lia. cbn [fold_left pieceStep]. rewrite Hv.
    cbn [maxDepth currentDepth height].
    assert (0 <= fold_right Z.max 0 (map height children))%Z
      by (clear; induction children; cbn [map fold_right]; lia).
    f_equal; lia.
  - cbn. f_equal. lia.
Qed.

(** X12.  For the markup of a tree of elements that are not void, every
    element closed, the result is the height of the tree: the number of
    elements on its longest branch. *)
Theorem depth_of_tree n :
  properTree n = true ->
  calculateMaxDOMDepth (renderAll (markup n)) = height n.
Proof.
  intros H. unfold calculateMaxDOMDepth, tagMatches, matchAll.
  rewrite (@depth_of_markup (markup n) 0%nat None depthInit
             (properTree_markup n H)).
  unfold depthInit. rewrite (@pieceStep_tree n 0%Z 0%Z H ltac:(lia)).
  cbn [maxDepth].
  assert (0 <= height n)%Z.
  { destruct n; cbn [height]; [|lia].
    assert (0 <= fold_right Z.max 0 (map height children))%Z; [|lia].
    clear. induction children; cbn [map fold_right]; lia. }
  lia.
Qed.

Lemma depth_of_tree_witness :
  let page :=
    Element (u "html") []
      [Element (u "head") [] [Element (u "title") [] [TextNode (u "T")]];
       Element (u "body") (u " class='home'")
         [Element (u "main") []
            [Element (u "p") [] [TextNode (u "one")];
             Element (u "p") [] [Element (u "em") [] [TextNode (u "two")]]]]]
  in
  properTree page = true
  /\ calculateMaxDOMDepth (renderAll (markup page)) = 5%Z.
Proof.
  intros page.
  assert (P : properTree page = true) by (vm_compute; reflexivity).
  split; [exact P|]. rewrite (depth_of_tree page P). reflexivity.
Defined.

(** *** Bounds of the depth *)

Lemma depthStep_cases st m :
  depthStep st m = st
  \/ depthStep st m = mkDepth (maxDepth st) (Z.max 0 (currentDepth st - 1))
  \/ depthStep st m
     = mkDepth (Z.max (maxDepth st) (currentDepth st + 1))
               (currentDepth st + 1).
Proof.
  unfold depthStep. destruct (_ || _); [now left|].
  destruct (startsWith _ _); [right; now left | right; now right].
Qed.

Lemma depthStates_bounds ms : forall st,
  (0 <= currentDepth st <= maxDepth st)%Z ->
  let r := maxDepth (fold_left depthStep ms st) in
  Forall (fun s => (currentDepth s <= r)%Z) (depthStates st ms)
  /\ (r = maxDepth st
      \/ Exists (fun s => currentDepth s = r) (depthStates st ms))
  /\ (maxDepth st <= r <= maxDepth st + Z.of_nat (length ms))%Z.
Proof.
  induction ms as [|m ms IH]; intros st H.
  - cbn. split; [|split].
    + constructor; [lia | constructor].
    + now left.
    + lia.
  - cbn [fold_left depthStates length]. cbv zeta.
    assert (H' : (0 <= currentDepth (depthStep st m)
                  <= maxDepth (depthStep st m))%Z
                 /\ (maxDepth st <= maxDepth (depthStep st m)
                     <= maxDepth st + 1)%Z
                 /\ (maxDepth (depthStep st m) = maxDepth st
                     \/ maxDepth (depthStep st m)
                        = currentDepth (depthStep st m))).
    { destruct (depthStep_cases st m) as [-> | [-> | ->]];
        cbn [maxDepth currentDepth]; repeat split; try lia. }
    destruct H' as (Inv & Mono & Att).
    destruct (IH (depthStep st m) Inv) as (F & E & B). cbv zeta in F, E, B.
    set (r := maxDepth (fold_left depthStep ms (depthStep st m))) in *.
    split; [|split].
    + constructor; [lia | exact F].
    + destruct E as [E | E].
      * destruct Att as [A | A]; [left; congruence|].
        right. apply Exists_cons_tl.
        destruct ms; cbn [depthStates]; apply Exists_cons_hd; congruence.
      * right. apply Exists_cons_tl. exact E.
    + lia.
Qed.

(** X13.  The result of the depth tracker is the largest running depth of
    the pass: no point of the pass is deeper and some point is that deep.
    It is never negative and never more than the number of tags found. *)
Theorem depth_is_deepest_point html :
  Forall (fun st => (currentDepth st <= calculateMaxDOMDepth html)%Z)
         (depthTrace html)
  /\ Exists (fun st => currentDepth st = calculateMaxDOMDepth html)
            (depthTrace html)
  /\ (0 <= calculateMaxDOMDepth html
      <= Z.of_nat (length (tagMatches html)))%Z.
Proof.
  unfold calculateMaxDOMDepth, depthTrace.
  destruct (@depthStates_bounds (tagMatches html) depthInit)
    as (F & E & B); [cbn; lia|]. cbv zeta in F, E, B.
  cbn [depthInit maxDepth] in E, B.
  split; [exact F | split; [|cbn [maxDepth depthInit] in B; exact B]].
  destruct E as [E | E]; [|exact E].
  destruct (tagMatches html); cbn [depthStates]; apply Exists_cons_hd;
    cbn [currentDepth depthInit]; now rewrite E.
Qed.

Lemma countCode_depth_warning urlOrigin config policy doc :
  countCode "WRS_DOM_DEPTH_WARNING" (diagnosticsOf urlOrigin config policy doc)
  = countCode "WRS_DOM_DEPTH_WARNING" (domDepthRule doc).
Proof. count_others. Qed.

Lemma countCode_depth_exceeded urlOrigin config policy doc :
  countCode "WRS_DOM_DEPTH_EXCEEDED"
    (diagnosticsOf urlOrigin config policy doc)
  = countCode "WRS_DOM_DEPTH_EXCEEDED" (domDepthRule doc).
Proof. count_others. Qed.

(** X14.  For a scanned document the depth findings are decided by the
    result of the depth tracker alone: one WRS_DOM_DEPTH_WARNING when it
    is above 25, and one WRS_DOM_DEPTH_EXCEEDED beside it when it is above
    32; a depth of 26 to 32 gives the warning only, and a document in
    which at most 25 tags are found gives neither. *)
Theorem dom_depth_budget urlOrigin config policy doc ds :
  scanDocument urlOrigin config policy doc = Some ds ->
  let depth := calculateMaxDOMDepth (getText doc) in
  countCode "WRS_DOM_DEPTH_WARNING" ds
  = (if (depth >? 25)%Z then 1%nat else 0%nat)
  /\ countCode "WRS_DOM_DEPTH_EXCEEDED" ds
     = (if (depth >? 32)%Z then 1%nat else 0%nat)
  /\ ((length (tagMatches (getText doc)) <= 25)%nat ->
      countCode "WRS_DOM_DEPTH_WARNING" ds = 0%nat
      /\ countCode "WRS_DOM_DEPTH_EXCEEDED" ds = 0%nat).
Proof.
  intros Hs depth. apply scanDocument_Some in Hs. destruct Hs as [-> _].
  rewrite countCode_depth_warning, countCode_depth_exceeded.
  assert (W : countCode "WRS_DOM_DEPTH_WARNING" (domDepthRule doc)
              = (if (depth >? 25)%Z then 1%nat else 0%nat)).
  { unfold domDepthRule. fold depth. cbv zeta.
    destruct (depth >? 25)%Z, (depth >? 32)%Z; reflexivity. }
  assert (X : countCode "WRS_DOM_DEPTH_EXCEEDED" (domDepthRule doc)
              = (if (depth >? 32)%Z then 1%nat else 0%nat)).
  { unfold domDepthRule. fold depth. cbv zeta.
    destruct (depth >? 25)%Z, (depth >? 32)%Z; reflexivity. }
  split; [exact W | split; [exact X|]].
  intros Few. rewrite W, X.
  destruct (@depthStates_bounds (tagMatches (getText doc)) depthInit)
    as (_ & _ & B); [cbn; lia|]. cbv zeta in B.
  fold (calculateMaxDOMDepth (getText doc)) in B. fold depth in B.
  cbn [maxDepth depthInit] in B.
  destruct (Z.gtb_spec depth 25); [lia|].
  destruct (Z.gtb_spec depth 32); [lia|]. split; reflexivity.
Qed.

Lemma dom_depth_budget_witness :
  (scanDocument noOrigin noSettings emptyPolicy (nestedPage 30)
   = Some (diagnosticsOf noOrigin noSettings emptyPolicy (nestedPage 30))
   /\ countCode "WRS_DOM_DEPTH_WARNING"
        (diagnosticsOf noOrigin noSettings emptyPolicy (nestedPage 30))
      = 1%nat
   /\ countCode "WRS_DOM_DEPTH_EXCEEDED"
        (diagnosticsOf noOrigin noSettings emptyPolicy (nestedPage 30))
      = 0%nat)
  /\ (scanDocument noOrigin noSettings emptyPolicy (nestedPage 33)
      = Some (diagnosticsOf noOrigin noSettings emptyPolicy (nestedPage 33))
      /\ countCode "WRS_DOM_DEPTH_EXCEEDED"
           (diagnosticsOf noOrigin noSettings emptyPolicy (nestedPage 33))
         = 1%nat).
Proof.
  assert (S1 : scanDocument noOrigin noSettings emptyPolicy (nestedPage 30)
   = Some (diagnosticsOf noOrigin noSettings emptyPolicy (nestedPage 30)))
    by (vm_compute; reflexivity).
  assert (S2 : scanDocument noOrigin noSettings emptyPolicy (nestedPage 33)
   = Some (diagnosticsOf noOrigin noSettings emptyPolicy (nestedPage 33)))
    by (vm_compute; reflexivity).
  split; (split; [assumption|]).
  - split.
    + rewrite (proj1 (dom_depth_budget _ _ _ _ S1)). vm_compute. reflexivity.
    + rewrite (proj1 (proj2 (dom_depth_budget _ _ _ _ S1))).
      vm_compute. reflexivity.
  - rewrite (proj1 (proj2 (dom_depth_budget _ _ _ _ S2))).
    vm_compute. reflexivity.
Defined.

(** *** The gates of the scan *)

Lemma startsWith_iff p : forall s,
  startsWith s p = true <-> exists t, s = p ++ t.
Proof.
  induction p as [|c p IH]; intros s.
  - destruct s; cbn; split; eauto.
  - destruct s as [|x s]; cbn [startsWith].
    + split; [discriminate | intros [t E]; discriminate].
    + rewrite andb_true_iff, N.eqb_eq, IH. split.
      * intros [-> [t ->]]. now exists t.
      * intros [t E]. injection E as -> ->. eauto.
Qed.

Lemma endsWith_iff s e :
  endsWith s e = true <-> exists pre, s = pre ++ e.
Proof.
  unfold endsWith. rewrite startsWith_iff. split.
  - intros [t E]. exists (rev t).
    rewrite <- (rev_involutive s), E, rev_app_distr, rev_involutive.
    reflexivity.
  - intros [pre ->]. exists (rev pre). apply rev_app_distr.
Qed.

Ltac by_chars :=
  repeat (cbv -[N.eqb Nat.sub firstn];
          match goal with
          | |- context [N.eqb ?a ?b] =>
              destruct (N.eqb_spec a b); [subst|]
          | |- context [match ?s with [] => _ | _ :: _ => _ end] =>
              is_var s; destruct s
          end).

Lemma matchAt_supportedFile p pv s :
  matchAt false Patterns.supportedFile p pv s <> None
  <-> In s supportedExtensions.
Proof.
  unfold matchAt, Patterns.supportedFile, supportedExtensions.
  destruct s as [|c0 s]; [cbn; intuition congruence|].
  by_chars; cbv -[N.eqb Nat.sub firstn]; intuition congruence.
Qed.

Lemma execFrom_supportedFile s : forall p pv,
  execFrom false Patterns.supportedFile p pv s <> None
  <-> exists pre ext, s = pre ++ ext /\ In ext supportedExtensions.
Proof.
  induction s as [|c s IH]; intros p pv; cbn [execFrom].
  - pose proof (matchAt_supportedFile p pv []) as M.
    destruct (matchAt false Patterns.supportedFile p pv []).
    + split; [|congruence]. intros _. exists [], []. split; [reflexivity|].
      apply M. congruence.
    + split; [congruence|]. intros (pre & ext & E & I). symmetry in E.
      apply app_eq_nil in E. destruct E as [_ ->]. apply M in I. congruence.
  - pose proof (matchAt_supportedFile p pv (c :: s)) as M.
    destruct (matchAt false Patterns.supportedFile p pv (c :: s)).
    + split; [|congruence]. intros _. exists [], (c :: s).
      split; [reflexivity|]. apply M. congruence.
    + rewrite (IH (S p) (Some c)). split.
      * intros (pre & ext & -> & I). exists (c :: pre), ext. now split.
      * intros (pre & ext & E & I). destruct pre as [|x pre].
        -- cbn [app] in E. subst ext. apply M in I. congruence.
        -- injection E as -> ->. now exists pre, ext.
Qed.

Lemma test_supportedFile name :
  test false Patterns.supportedFile name
  = existsb (endsWith name) supportedExtensions.
Proof.
  apply eq_true_iff_eq. rewrite existsb_exists. unfold test, exec.
  pose proof (execFrom_supportedFile name 0%nat None) as X.
  split.
  - intros H.
    destruct X as [X _].
    destruct X as (pre & ext & E & I).
    { destruct (execFrom false Patterns.supportedFile 0 None name);
        congruence. }
    exists ext. split; [exact I|]. apply endsWith_iff. now exists pre.
  - intros (ext & I & E). apply endsWith_iff in E. destruct E as [pre E].
    destruct X as [_ X].
    destruct (execFrom false Patterns.supportedFile 0 None name);
      [reflexivity|].
    exfalso. apply X; [|reflexivity]. now exists pre, ext.
Qed.


(** *** The preconnect hint *)

Lemma has_In set x : has set x = true <-> In x set.
Proof.
  unfold has. rewrite existsb_exists. split.
  - intros (y & I & E). apply str_eqb_eq in E. now subst.
  - intros I. exists x. split; [exact I | apply str_eqb_refl].
Qed.

Lemma setAdd_NoDup set x : NoDup set -> NoDup (setAdd set x).
Proof.
  intros H. unfold setAdd. destruct (has set x) eqn:E; [exact H|].
  apply NoDup_app; [exact H | repeat constructor; intros [] |].
  intros y I [<- | []]. apply has_In in I. congruence.
Qed.

Lemma setAdd_In set x y : In y (setAdd set x) <-> In y set \/ y = x.
Proof.
  unfold setAdd. destruct (has set x) eqn:E.
  - apply has_In in E. split; [now left | intros [I | ->]; assumption].
  - rewrite in_app_iff. cbn [In]. intuition congruence.
Qed.

Lemma addOrigin_fold urlOrigin ms : forall acc,
  NoDup acc ->
  NoDup (fold_left (addOrigin urlOrigin) ms acc)
  /\ forall o,
       In o (fold_left (addOrigin urlOrigin) ms acc)
       <-> In o acc
           \/ exists src, In src (map group1 ms)
                /\ startsWith src (u "http") = true
                /\ urlOrigin src = Some o.
Proof.
  induction ms as [|m ms IH]; intros acc H; cbn [fold_left map].
  - split; [exact H|]. intros o. split; [now left|].
    intros [I | (src & [] & _)]. exact I.
  - assert (H' : NoDup (addOrigin urlOrigin acc m)).
    { unfold addOrigin. destruct (startsWith _ _); [|exact H].
      destruct (urlOrigin _); [now apply setAdd_NoDup | exact H]. }
    destruct (IH _ H') as [N I]. split; [exact N|].
    intros o. rewrite I. clear I N IH. unfold addOrigin. cbn [In].
    destruct (startsWith (group1 m) (u "http")) eqn:Es.
    + destruct (urlOrigin (group1 m)) as [o'|] eqn:Eo.
      * rewrite setAdd_In. split.
        -- intros [[Ia | ->] | (src & Isrc & P)].
           ++ now left.
           ++ right. exists (group1 m). auto.
           ++ right. exists src. split; [now right | exact P].
        -- intros [Ia | (src & [<- | Isrc] & Hs & Ho)].
           ++ left. now left.
           ++ left. right. congruence.
           ++ right. exists src. auto.
      * split.
        -- intros [Ia | (src & Isrc & P)]; [now left|].
           right. exists src. split; [now right | exact P].
        -- intros [Ia | (src & [<- | Isrc] & Hs & Ho)];
             [now left | congruence | right; exists src; auto].
    + split.
      * intros [Ia | (src & Isrc & P)]; [now left|].
        right. exists src. split; [now right | exact P].
      * intros [Ia | (src & [<- | Isrc] & Hs & Ho)];
          [now left | congruence | right; exists src; auto].
Qed.

Lemma countCode_preconnect urlOrigin config policy doc :
  countCode "PERF_PRECONNECT_MISSING"
    (diagnosticsOf urlOrigin config policy doc)
  = countCode "PERF_PRECONNECT_MISSING" (preconnectRule urlOrigin doc).
Proof. count_others. Qed.

(** X16.  The external domains of a scanned document are the origins of
    the script and stylesheet addresses that start with http and that the
    URL parser accepts, each once however often it is used; the scan
    reports PERF_PRECONNECT_MISSING once when there is at least one such
    origin and no preconnect link, and not otherwise. *)
Theorem preconnect_hint urlOrigin config policy doc ds :
  scanDocument urlOrigin config policy doc = Some ds ->
  let domains := externalDomains urlOrigin doc in
  NoDup domains
  /\ (forall o,
        In o domains
        <-> exists src, In src (externalSources doc)
              /\ startsWith src (u "http") = true
              /\ urlOrigin src = Some o)
  /\ countCode "PERF_PRECONNECT_MISSING" ds
     = (if negb (Nat.eqb (length domains) 0)
           && negb (test true Patterns.preconnect (getText doc))
        then 1%nat else 0%nat).
Proof.
  intros Hs domains. apply scanDocument_Some in Hs. destruct Hs as [-> _].
  destruct (@addOrigin_fold urlOrigin (scriptMatches doc) [] (NoDup_nil _))
    as [N1 I1].
  destruct (@addOrigin_fold urlOrigin
              (matchAll true Patterns.stylesheetHref (getText doc)) _ N1)
    as [N2 I2].
  split; [exact N2 | split].
  - intros o. unfold domains, externalDomains, externalSources.
    rewrite I2, I1, map_app. cbn [In]. split.
    + intros [[[] | (src & I & P)] | (src & I & P)]; exists src;
        (split; [apply in_or_app; auto | exact P]).
    + intros (src & I & P). apply in_app_or in I. destruct I as [I | I].
      * left. right. now exists src.
      * right. now exists src.
  - rewrite countCode_preconnect. unfold preconnectRule. fold domains.
    cbv zeta. destruct domains; [reflexivity|]. cbn [length Nat.eqb negb andb].
    destruct (test true Patterns.preconnect (getText doc)); reflexivity.
Qed.

Lemma preconnect_hint_witness :
  scanDocument originBeforePath noSettings emptyPolicy twoHosts
  = Some (diagnosticsOf originBeforePath noSettings emptyPolicy twoHosts)
  /\ externalDomains originBeforePath twoHosts
     = [u "https://cdn.example.com"; u "https://fonts.example.org"]
  /\ NoDup (externalDomains originBeforePath twoHosts)
  /\ countCode "PERF_PRECONNECT_MISSING"
       (diagnosticsOf originBeforePath noSettings emptyPolicy twoHosts)
     = 1%nat.
Proof.
  assert (S : scanDocument originBeforePath noSettings emptyPolicy twoHosts
    = Some (diagnosticsOf originBeforePath noSettings emptyPolicy twoHosts))
    by (vm_compute; reflexivity).
  split; [exact S | split; [vm_compute; reflexivity | split]].
  - exact (proj1 (preconnect_hint _ _ _ _ S)).
  - rewrite (proj2 (proj2 (preconnect_hint _ _ _ _ S))).
    vm_compute. reflexivity.
Defined.

(** *** The workspace command *)

Section CommandFacts.

Variable urlOrigin : jsstring -> option jsstring.
Variable config : Configuration.
Variable policy : Policy.
Variable File : Type.
Variable openTextDocument : File -> option TextDocument.
Variable token : nat -> bool.


Lemma scanFiles_cancelled n pre : forall i coll shown docs file post,
  map openTextDocument pre = map Some docs ->
  (forall j, (j < length pre)%nat -> token (i + j) = false) ->
  token (i + length pre) = true ->
  scanFiles urlOrigin config policy openTextDocument token n i
    (pre ++ file :: post) coll shown
  = mkRun (fold_left (scanInto urlOrigin config policy) docs coll)
      (shown
       ++ map (fun j => ReportStep j n)
            (filter (fun j => (j mod 10 =? 0)%nat) (seq i (length pre)))
       ++ [ShowWarningMessage (msg "Kanmi scan cancelled.")])
      Cancelled.
Proof.
  induction pre as [|f pre IH]; intros i coll shown docs file post Ho Ht Hc.
  - destruct docs; [|discriminate]. cbn [app scanFiles length] in *.
    rewrite Nat.add_0_r in Hc. now rewrite Hc.
  - destruct docs as [|doc docs]; [discriminate|].
    cbn [map] in Ho. injection Ho as Ho1 Ho2.
    cbn [app scanFiles]. rewrite <- (Nat.add_0_r i) at 1.
    rewrite (Ht 0%nat) by (cbn [length]; lia). rewrite Ho1.
    rewrite (IH (S i) _ _ docs file post Ho2).
    + cbn [fold_left length seq filter].
      destruct (i mod 10 =? 0)%nat; cbn [map app];
        rewrite <- ?app_assoc; reflexivity.
    + intros j Hj. replace (S i + j)%nat with (i + S j)%nat by lia.
      apply Ht. cbn [length]. lia.
    + replace (S i + length pre)%nat with (i + length (f :: pre))%nat
        by (cbn [length]; lia). exact Hc.
Qed.


End CommandFacts.


Lemma filter_other_steps (f : uiEffect -> bool) n js :
  (forall i m, f (ReportStep i m) = false) ->
  filter f (map (fun j => ReportStep j n) js) = [].
Proof.
  intros H. induction js as [|j js IH]; [reflexivity|].
  cbn [map filter]. now rewrite H.
Qed.



(** X18.  When the token is found set at the start of a turn, the files
    before that turn have been scanned, in order, and nothing after: the
    file of that turn and the later ones are not opened, the warning that
    the scan was cancelled is the last thing shown, and no message says
    that files were scanned. *)
Theorem workspace_scan_cancelled urlOrigin config policy (File : Type)
    (openTextDocument : File -> option TextDocument) token
    pre file post docs coll :
  map openTextDocument pre = map Some docs ->
  notCancelledBefore token (length pre) ->
  token (length pre) = true ->
  let run := kanmiScan urlOrigin config policy openTextDocument token
               (pre ++ file :: post) coll in
  runOutcome run = Cancelled
  /\ runCollection run
     = fold_left (scanInto urlOrigin config policy) docs coll
  /\ last (runEffects run) (Report [])
     = ShowWarningMessage (msg "Kanmi scan cancelled.")
  /\ filter isInformation (runEffects run) = [].
Proof.
  intros Ho Ht Hc run. unfold run, kanmiScan. cbv zeta.
  rewrite (@scanFiles_cancelled urlOrigin config policy File openTextDocument
             token (length (pre ++ file :: post)) pre 0%nat coll _ docs
             file post Ho Ht Hc).
  cbn [runOutcome runCollection runEffects].
  split; [reflexivity | split; [reflexivity | split]].
  - rewrite app_assoc. apply last_last.
  - cbn [app filter isInformation]. rewrite filter_app.
    rewrite filter_other_steps by reflexivity. reflexivity.
Qed.

Lemma workspace_scan_cancelled_witness :
  let token := fun i => (i =? 1)%nat in
  let run := kanmiScan noOrigin noSettings emptyPolicy Some token
               threeFiles [] in
  runOutcome run = Cancelled
  /\ map fst (runCollection run) = [u "index.html"]
  /\ filter isInformation (runEffects run) = [].
Proof.
  intros token run.
  assert (Ht : notCancelledBefore token 1).
  { intros i Hi. destruct i; [reflexivity | lia]. }
  destruct (@workspace_scan_cancelled noOrigin noSettings emptyPolicy
              TextDocument Some token
              [mkDocument (u "index.html") (u "<title>Home</title>")]
              (mkDocument (u "site.css") (u "body { margin: 0 }"))
              [mkDocument (u "app.js") (u "const three = require('three');")]
              [mkDocument (u "index.html") (u "<title>Home</title>")] []
              eq_refl Ht eq_refl) as (O & C & _ & I).
  split; [exact O | split; [|exact I]].
  unfold run. change threeFiles with
    ([mkDocument (u "index.html") (u "<title>Home</title>")]
     ++ mkDocument (u "site.css") (u "body { margin: 0 }")
     :: [mkDocument (u "app.js") (u "const three = require('three');")]).
  rewrite C. vm_compute. reflexivity.
Defined.

(** *** The event hooks *)

Lemma handleAll_changes urlOrigin config policy docs : forall st doc,
  handleAll urlOrigin config policy
    (map DidChangeTextDocument (docs ++ [doc])) st
  = mkState (collection st) (Some doc).
Proof.
  unfold handleAll.
  induction docs as [|d docs IH]; intros st doc; [reflexivity|].
  cbn [app map fold_left]. rewrite IH. reflexivity.
Qed.

(** X19.  The change hook keeps one timer for all documents: after any
    number of changes, to one document or to several, the timer scans the
    document of the last change only, and running again it does nothing.
    The documents changed before are not scanned for those changes. *)
Theorem debounce_scans_last_change urlOrigin config policy st docs doc :
  let burst := map DidChangeTextDocument (docs ++ [doc]) in
  handleAll urlOrigin config policy (burst ++ [TimerFired]) st
  = mkState (scanInto urlOrigin config policy (collection st) doc) None
  /\ handleAll urlOrigin config policy (burst ++ [TimerFired; TimerFired]) st
     = handleAll urlOrigin config policy (burst ++ [TimerFired]) st.
Proof.
  intros burst. unfold burst, handleAll. rewrite !fold_left_app.
  fold (handleAll urlOrigin config policy
          (map DidChangeTextDocument (docs ++ [doc])) st).
  rewrite handleAll_changes. split; reflexivity.
Qed.

Lemma assoc_scanInto urlOrigin config policy coll doc f ds :
  assoc f (scanInto urlOrigin config policy coll doc) = Some ds ->
  assoc f coll = Some ds
  \/ (fileName doc = f
      /\ scanDocument urlOrigin config policy doc = Some ds).
Proof.
  unfold scanInto.
  destruct (scanDocument urlOrigin config policy doc) as [ds'|] eqn:E;
    [|now left].
  destruct (list_eq_dec N.eq_dec f (fileName doc)) as [-> | Hne].
  - rewrite assoc_assocSet_same. intros H. injection H as <-. now right.
  - rewrite assoc_assocSet_other by exact Hne. now left.
Qed.

Lemma handleAll_entries urlOrigin config policy evs : forall st seen,
  (forall f ds, assoc f (collection st) = Some ds ->
     exists doc, In doc seen /\ fileName doc = f
       /\ scanDocument urlOrigin config policy doc = Some ds) ->
  (forall d, debounceTimer st = Some d -> In d seen) ->
  forall f ds,
    assoc f (collection (handleAll urlOrigin config policy evs st)) = Some ds ->
    exists doc, In doc (seen ++ eventDocuments evs) /\ fileName doc = f
      /\ scanDocument urlOrigin config policy doc = Some ds.
Proof.
  unfold handleAll.
  induction evs as [|ev evs IH]; intros st seen Hc Ht f ds H.
  - cbn [fold_left eventDocuments flat_map] in *. rewrite app_nil_r.
    now apply Hc.
  - cbn [fold_left] in H.
    assert (Step : exists d1,
      eventDocuments (ev :: evs) = d1 ++ eventDocuments evs
      /\ (forall f ds,
            assoc f (collection (handle urlOrigin config policy st ev))
            = Some ds ->
            exists doc, In doc (seen ++ d1) /\ fileName doc = f
              /\ scanDocument urlOrigin config policy doc = Some ds)
      /\ (forall d,
            debounceTimer (handle urlOrigin config policy st ev) = Some d ->
            In d (seen ++ d1))).
    { destruct ev as [doc | doc | doc |]; cbn [handle].
      - exists [doc]. split; [reflexivity | split].
        + cbn [collection]. intros f' ds' A. apply assoc_scanInto in A.
          destruct A as [A | [A1 A2]].
          * destruct (Hc _ _ A) as (x & I & P). exists x.
            split; [apply in_or_app; now left | exact P].
          * exists doc. split; [apply in_or_app; right; now left | auto].
        + cbn [debounceTimer]. intros d A. apply in_or_app. left. auto.
      - exists [doc]. split; [reflexivity | split].
        + cbn [collection]. intros f' ds' A. apply assoc_scanInto in A.
          destruct A as [A | [A1 A2]].
          * destruct (Hc _ _ A) as (x & I & P). exists x.
            split; [apply in_or_app; now left | exact P].
          * exists doc. split; [apply in_or_app; right; now left | auto].
        + cbn [debounceTimer]. intros d A. apply in_or_app. left. auto.
      - exists [doc]. split; [reflexivity | split].
        + cbn [collection]. intros f' ds' A.
          destruct (Hc _ _ A) as (x & I & P). exists x.
          split; [apply in_or_app; now left | exact P].
        + cbn [debounceTimer]. intros d A. injection A as <-.
          apply in_or_app. right. now left.
      - exists []. split; [reflexivity | split].
        + rewrite app_nil_r.
          destruct (debounceTimer st) as [pending|] eqn:E.
          * cbn [collection]. intros f' ds' A. apply assoc_scanInto in A.
            destruct A as [A | [A1 A2]]; [now apply Hc|].
            exists pending. split; [now apply Ht | auto].
          * exact Hc.
        + rewrite app_nil_r.
          destruct (debounceTimer st) as [pending|] eqn:E.
          * cbn [debounceTimer]. discriminate.
          * intros d A. apply Ht. congruence. }
    destruct Step as (d1 & E1 & Hc' & Ht').
    rewrite E1, app_assoc. apply (IH _ _ Hc' Ht' f ds H).
Qed.

Lemma scanInto_keeps urlOrigin config policy coll doc f :
  assoc f coll <> None ->
  assoc f (scanInto urlOrigin config policy coll doc) <> None.
Proof.
  intros H. unfold scanInto.
  destruct (scanDocument urlOrigin config policy doc) as [ds|]; [|exact H].
  destruct (list_eq_dec N.eq_dec f (fileName doc)) as [-> | Hne].
  - rewrite assoc_assocSet_same. discriminate.
  - now rewrite assoc_assocSet_other.
Qed.

Lemma handleAll_keeps urlOrigin config policy evs f : forall st,
  assoc f (collection st) <> None ->
  assoc f (collection (handleAll urlOrigin config policy evs st)) <> None.
Proof.
  unfold handleAll. induction evs as [|ev evs IH]; intros st H; [exact H|].
  cbn [fold_left]. apply IH.
  destruct ev as [doc | doc | doc |]; cbn [handle collection];
    try (now apply scanInto_keeps); [exact H|].
  destruct (debounceTimer st); [now apply scanInto_keeps | exact H].
Qed.

(** X20.  Whatever the host sends after activation, every entry of the
    diagnostic collection is what the scan of a document of that name,
    carried by one of the events, has set: its name ends in a supported
    extension and its text was at most 500 * 1024 bytes.  And a document
    that has an entry keeps one whatever follows: no hook deletes from the
    collection. *)
Theorem collection_entries_from_scans urlOrigin config policy evs :
  let coll := collection (handleAll urlOrigin config policy evs activated) in
  (forall f ds,
     assoc f coll = Some ds ->
     exists doc,
       In doc (eventDocuments evs) /\ fileName doc = f
       /\ scanDocument urlOrigin config policy doc = Some ds
       /\ existsb (endsWith f) supportedExtensions = true
       /\ byteLength (getText doc) <= 500 * 1024)
  /\ (forall more f,
        assoc f coll <> None ->
        assoc f (collection (handleAll urlOrigin config policy (evs ++ more)
                               activated)) <> None).
Proof.
  intros coll. split.
  - intros f ds H.
    destruct (@handleAll_entries urlOrigin config policy evs activated []
                ltac:(cbn; discriminate) ltac:(cbn; discriminate) f ds H)
      as (doc & I & Ef & Es).
    exists doc. cbn [app] in I. split; [exact I | split; [exact Ef|]].
    split; [exact Es|].
    apply scanDocument_Some in Es. destruct Es as (_ & T & L).
    rewrite test_supportedFile, Ef in T. split; [exact T|].
    unfold tooLarge in L. apply N.ltb_ge in L. exact L.
  - intros more f H. unfold handleAll. rewrite fold_left_app.
    apply handleAll_keeps. exact H.
Qed.

Lemma collection_entries_from_scans_witness :
  let evs := [DidOpenTextDocument (pageOfSize 10);
              DidChangeTextDocument plainModule; TimerFired;
              DidSaveTextDocument (mkDocument (u "notes.md") (u "# notes"))] in
  let coll := collection (handleAll noOrigin noSettings emptyPolicy evs
                            activated) in
  map fst coll = [u "index.html"; u "util.ts"]
  /\ exists ds doc,
       assoc (u "util.ts") coll = Some ds
       /\ In doc (eventDocuments evs)
       /\ scanDocument noOrigin noSettings emptyPolicy doc = Some ds.
Proof.
  intros evs coll. split; [vm_compute; reflexivity|].
  destruct (assoc (u "util.ts") coll) as [ds|] eqn:E;
    [|vm_compute in E; discriminate].
  destruct (proj1 (@collection_entries_from_scans noOrigin noSettings
                     emptyPolicy evs) (u "util.ts") ds E)
    as (doc & I & _ & S & _).
  exists ds, doc. auto.
Defined.

(** *** Images *)

Lemma countCode_flat_map_filter c (f : rmatchres -> list Diagnostic)
    (p : rmatchres -> bool) ms :
  (forall m, countCode c (f m) = if p m then 1%nat else 0%nat) ->
  countCode c (flat_map f ms) = length (filter p ms).
Proof.
  intros H. induction ms as [|m ms IH]; [reflexivity|].
  cbn [flat_map filter]. rewrite countCode_app, H, IH.
  destruct (p m); reflexivity.
Qed.

Lemma countCode_img_alt urlOrigin config policy doc :
  countCode "SEO_IMG_ALT_MISSING" (diagnosticsOf urlOrigin config policy doc)
  = countCode "SEO_IMG_ALT_MISSING" (imgRule doc).
Proof. count_others. Qed.

Lemma countCode_img_dimensions urlOrigin config policy doc :
  countCode "PERF_IMG_DIMENSIONS_MISSING"
    (diagnosticsOf urlOrigin config policy doc)
  = countCode "PERF_IMG_DIMENSIONS_MISSING" (imgRule doc).
Proof. count_others. Qed.

Lemma countCode_img_loading urlOrigin config policy doc :
  countCode "PERF_IMG_LOADING_MISSING"
    (diagnosticsOf urlOrigin config policy doc)
  = countCode "PERF_IMG_LOADING_MISSING" (imgRule doc).
Proof. count_others. Qed.

Lemma in_imgStep doc m d :
  In d (imgStep doc m) -> range d = matchRange doc m.
Proof.
  unfold imgStep. rewrite !in_app_iff.
  intros [H | [H | H]];
    match type of H with In _ (if ?b then _ else _) => destruct b end;
    cbn [In] in H; try contradiction;
    destruct H as [<- | []]; reflexivity.
Qed.

(** X21.  In a scanned document each [img] tag is judged by its own
    attributes: there are as many SEO_IMG_ALT_MISSING findings as tags
    without a quoted alt, as many PERF_IMG_DIMENSIONS_MISSING as tags
    lacking width or height, as many PERF_IMG_LOADING_MISSING as tags
    without loading set to lazy or eager; and each of these findings
    spans the tag it is about. *)
Theorem image_findings urlOrigin config policy doc ds :
  scanDocument urlOrigin config policy doc = Some ds ->
  countCode "SEO_IMG_ALT_MISSING" ds
  = length (filter lacksAlt (imgMatches doc))
  /\ countCode "PERF_IMG_DIMENSIONS_MISSING" ds
     = length (filter lacksDimensions (imgMatches doc))
  /\ countCode "PERF_IMG_LOADING_MISSING" ds
     = length (filter lacksLoading (imgMatches doc))
  /\ forall d, In d ds -> In (code d) imgCodes ->
       exists m, In m (imgMatches doc) /\ range d = matchRange doc m.
Proof.
  intros Hs. apply scanDocument_Some in Hs. destruct Hs as [-> _].
  rewrite countCode_img_alt, countCode_img_dimensions, countCode_img_loading.
  unfold imgRule. fold (imgMatches doc).
  split; [|split; [|split]].
  - apply countCode_flat_map_filter. intros m.
    unfold imgStep, lacksAlt. count_rule; reflexivity.
  - apply countCode_flat_map_filter. intros m.
    unfold imgStep, lacksDimensions. count_rule; reflexivity.
  - apply countCode_flat_map_filter. intros m.
    unfold imgStep, lacksLoading. count_rule; reflexivity.
  - intros d Hd Hc.
    assert (Hi : In d (imgRule doc)).
    { by_rule Hd; try exact Hd;
        exfalso; cbn [imgCodes In] in Hc;
        destruct Hc as [Hc | [Hc | [Hc | []]]]; symmetry in Hc;
        wrong_rule Hd Hc. }
    unfold imgRule in Hi. apply in_flat_map in Hi.
    destruct Hi as (m & Hm & Hi). exists m. split; [exact Hm|].
    now apply in_imgStep.
Qed.

Lemma image_findings_witness :
  scanDocument noOrigin noSettings emptyPolicy threeImages
  = Some (diagnosticsOf noOrigin noSettings emptyPolicy threeImages)
  /\ length (imgMatches threeImages) = 3%nat
  /\ countCode "SEO_IMG_ALT_MISSING"
       (diagnosticsOf noOrigin noSettings emptyPolicy threeImages) = 1%nat
  /\ countCode "PERF_IMG_DIMENSIONS_MISSING"
       (diagnosticsOf noOrigin noSettings emptyPolicy threeImages) = 2%nat.
Proof.
  assert (S : scanDocument noOrigin noSettings emptyPolicy threeImages
    = Some (diagnosticsOf noOrigin noSettings emptyPolicy threeImages))
    by (vm_compute; reflexivity).
  destruct (image_findings _ _ _ _ S) as (A & D & _).
  split; [exact S | split; [vm_compute; reflexivity | split]].
  - rewrite A. vm_compute. reflexivity.
  - rewrite D. vm_compute. reflexivity.
Defined.

Lemma countCode_nextimg_sizes urlOrigin config policy doc :
  countCode "PERF_NEXTIMG_SIZES_MISSING"
    (diagnosticsOf urlOrigin config policy doc)
  = countCode "PERF_NEXTIMG_SIZES_MISSING" (nextImageRule doc).
Proof. count_others. Qed.

Lemma countCode_nextimg_priority urlOrigin config policy doc :
  countCode "PERF_NEXTIMG_PRIORITY_MISSING"
    (diagnosticsOf urlOrigin config policy doc)
  = countCode "PERF_NEXTIMG_PRIORITY_MISSING" (nextImageRule doc).
Proof. count_others. Qed.

(** X22.  In a scanned document an [Image] component gets
    PERF_NEXTIMG_PRIORITY_MISSING exactly when its src contains hero,
    banner or masthead and its attributes do not mention priority: the
    word priority in the attributes, which the scan also takes as a sign
    of the largest image, never leads to the finding.  And there are as
    many PERF_NEXTIMG_SIZES_MISSING findings as components without
    sizes. *)
Theorem next_image_findings urlOrigin config policy doc ds :
  scanDocument urlOrigin config policy doc = Some ds ->
  countCode "PERF_NEXTIMG_PRIORITY_MISSING" ds
  = length (filter (fun m => namedLikeLcp m && negb (mentionsPriority m))
              (nextImageMatches doc))
  /\ countCode "PERF_NEXTIMG_SIZES_MISSING" ds
     = length (filter lacksSizes (nextImageMatches doc)).
Proof.
  intros Hs. apply scanDocument_Some in Hs. destruct Hs as [-> _].
  rewrite countCode_nextimg_sizes, countCode_nextimg_priority.
  unfold nextImageRule. fold (nextImageMatches doc). split.
  - apply countCode_flat_map_filter. intros m.
    unfold nextImageStep, namedLikeLcp, mentionsPriority. fold (srcOf m).
    destruct (test true Patterns.lcpName (srcOf m));
      destruct (test false Patterns.priorityWord (group1 m));
      destruct (test false Patterns.priorityTrue (group1 m));
      cbn [orb andb negb]; count_rule; reflexivity.
  - apply countCode_flat_map_filter. intros m.
    unfold nextImageStep, lacksSizes. count_rule; reflexivity.
Qed.

Lemma next_image_findings_witness :
  scanDocument noOrigin noSettings emptyPolicy heroImages
  = Some (diagnosticsOf noOrigin noSettings emptyPolicy heroImages)
  /\ length (nextImageMatches heroImages) = 3%nat
  /\ countCode "PERF_NEXTIMG_PRIORITY_MISSING"
       (diagnosticsOf noOrigin noSettings emptyPolicy heroImages) = 1%nat.
Proof.
  assert (S : scanDocument noOrigin noSettings emptyPolicy heroImages
    = Some (diagnosticsOf noOrigin noSettings emptyPolicy heroImages))
    by (vm_compute; reflexivity).
  split; [exact S | split; [vm_compute; reflexivity|]].
  rewrite (proj1 (next_image_findings _ _ _ _ S)). vm_compute. reflexivity.
Defined.

(** *** A policy file that the scan cannot use *)

(** X23.  The policy file may hold any JSON value, and the scan of a
    document that passes the gates takes it as it is.  On null the first
    read of the policy throws: no constant is declared and
    [collection.set] is not reached.  A number, a string, a boolean or an
    array, and an object whose sections are not objects, are read like
    the empty object: every constant holds its default and the scan
    reaches [collection.set].  An object that gives requireJsonLdFor an
    object with a truthy length makes the scan throw, at the call of
    [includes] if not before: maxTP is never declared and
    [collection.set] is not reached.  So does an object that gives
    maxThirdPartyScriptsPerPage a value the language does not convert,
    such as an object with a toString property. *)
Theorem policy_file_as_parsed urlOrigin config js doc :
  test false Patterns.supportedFile (fileName doc) = true ->
  tooLarge doc = false ->
  let scan := fun j =>
    RawScan.scanDocument urlOrigin config js
      (Raw.readPolicy (Raw.Parsed j)) doc in
  scan Raw.JNull = RawScan.mkScanRun [] RawScan.Threw
  /\ (RawScan.consts (scan (Raw.JObj [])) = resolution config []
      /\ exists ds,
           RawScan.outcome (scan (Raw.JObj [])) = RawScan.SetDiagnostics ds)
  /\ (forall j, isPrimitiveOrArray j = true -> scan j = scan (Raw.JObj []))
  /\ (forall fields,
        (forall section v,
           assoc section fields = Some v -> isObject v = false) ->
        scan (Raw.JObj fields) = scan (Raw.JObj []))
  /\ (forall fields,
        typesUsable fields = false ->
        RawScan.outcome (scan (Raw.JObj fields)) = RawScan.Threw
        /\ constant "maxTP" (RawScan.consts (scan (Raw.JObj fields)))
           = None)
  /\ (forall fields,
        suppliedConvertible fields (u "perf")
          (u "maxThirdPartyScriptsPerPage") = false ->
        RawScan.outcome (scan (Raw.JObj fields)) = RawScan.Threw).
Proof.
  intros Hf Hs scan.
  assert (G : forall j,
            scan j = RawScan.pastTheGates urlOrigin config js j doc).
  { intros j. unfold scan. cbn [Raw.readPolicy].
    now apply scanDocument_pastTheGates. }
  split; [|split; [|split; [|split; [|split]]]].
  - rewrite G. reflexivity.
  - rewrite G. now apply pastTheGates_usable.
  - intros j H. rewrite !G. now apply pastTheGates_primitive.
  - intros fields H. rewrite !G. now apply pastTheGates_sections.
  - intros fields U. rewrite G. now apply pastTheGates_types_throw.
  - intros fields C. rewrite G. now apply pastTheGates_budget_throws.
Qed.

Lemma policy_file_as_parsed_witness :
  let doc := plainModule in
  let scan := fun j =>
    RawScan.scanDocument noOrigin noSettings plainConversions
      (Raw.readPolicy (Raw.Parsed j)) doc in
  (test false Patterns.supportedFile (fileName doc) = true
   /\ tooLarge doc = false)
  /\ RawScan.outcome (scan Raw.JNull) = RawScan.Threw
  /\ scan (Raw.JArr [Raw.JNum 3]) = scan (Raw.JObj [])
  /\ scan (Raw.JObj [(u "perf", Raw.JStr (u "strict"))])
     = scan (Raw.JObj [])
  /\ RawScan.outcome (scan (Raw.JObj typesAsObject)) = RawScan.Threw
  /\ RawScan.outcome (scan (Raw.JObj budgetAsObject)) = RawScan.Threw.
Proof.
  intros doc scan.
  assert (Hf : test false Patterns.supportedFile (fileName doc) = true)
    by (vm_compute; reflexivity).
  assert (Hs : tooLarge doc = false) by (vm_compute; reflexivity).
  destruct (@policy_file_as_parsed noOrigin noSettings plainConversions
              doc Hf Hs) as (N & _ & P & S & T & B).
  split; [auto | split; [|split; [|split; [|split]]]].
  - unfold scan. rewrite N. reflexivity.
  - apply P. reflexivity.
  - apply S. intros section v A. cbn [assoc] in A.
    destruct (str_eqb section (u "perf")); [|discriminate].
    injection A as <-. reflexivity.
  - apply (T typesAsObject). reflexivity.
  - apply (B budgetAsObject). reflexivity.
Defined.

(** *** The size gate, by the length of the text *)

Lemma byteLength_bounds n : forall s,
  (length s <= n)%nat ->
  N.of_nat (length s) <= byteLength s <= 3 * N.of_nat (length s).
Proof.
  induction n as [|n IH]; intros s Hn.
  - destruct s; [cbn; lia | cbn [length] in Hn; lia].
  - destruct s as [|c s]; [cbn; lia|].
    cbn [length] in Hn.
    assert (Hs := IH s ltac:(lia)).
    cbn [byteLength length]. rewrite Nat2N.inj_succ.
    destruct (c <? 128); [lia|].
    destruct (c <? 2048); [lia|].
    destruct (isHighSurrogate c); [|lia].
    destruct s as [|d s']; [cbn; lia|].
    destruct (isLowSurrogate d); [|lia].
    cbn [length] in Hn |- *.
    assert (Hs' := IH s' ltac:(lia)).
    rewrite Nat2N.inj_succ. lia.
Qed.

(** X24.  The size gate counts bytes of UTF-8, between one and three for
    each UTF-16 code unit of the text: a document with a supported name
    is always scanned when its text has at most 170666 code units, and
    never when it has more than 512000. *)
Theorem size_gate_by_length urlOrigin config policy doc :
  test false Patterns.supportedFile (fileName doc) = true ->
  (N.of_nat (length (getText doc)) <= 170666 ->
   scanDocument urlOrigin config policy doc
   = Some (diagnosticsOf urlOrigin config policy doc))
  /\ (512000 < N.of_nat (length (getText doc)) ->
      scanDocument urlOrigin config policy doc = None).
Proof.
  intros Hf. unfold scanDocument, tooLarge. rewrite Hf. cbn [negb].
  pose proof (@byteLength_bounds (length (getText doc)) (getText doc)
                (le_n _)) as B.
  change (500 * 1024) with 512000.
  split; intros H.
  - destruct (N.ltb_spec 512000 (byteLength (getText doc))); [lia|].
    reflexivity.
  - destruct (N.ltb_spec 512000 (byteLength (getText doc))); [|lia].
    reflexivity.
Qed.

Lemma size_gate_by_length_witness :
  test false Patterns.supportedFile (fileName (pageOfSize 600000)) = true
  /\ scanDocument noOrigin noSettings emptyPolicy (pageOfSize 600000) = None.
Proof.
  assert (F : test false Patterns.supportedFile
                (fileName (pageOfSize 600000)) = true)
    by (vm_compute; reflexivity).
  split; [exact F|].
  apply (proj2 (size_gate_by_length noOrigin noSettings emptyPolicy _ F)).
  unfold pageOfSize, filler. cbn [getText mkDocument].
  rewrite repeat_length, N2Nat.id. reflexivity.
Defined.
